(** * apgcheck: safe extraction and validation of APG package archives

    A shallow embedding of [extractTarXz], [checkApgFileV1],
    [checkApgFileV2] and the choice of version in [main], as they stand in
    apgcheck 0.2.0, with the properties of the extractor's guards and of
    the validator's phases.  [extractTarXz] is the same in 0.1.0, where the
    guards were added, and [checkApgFile] of 0.1.0 is [checkApgFileV1].

    Go strings are byte sequences: they are [string]s here, one [ascii]
    per byte, and [len] is [String.length].  Paths follow the Unix build
    of [path/filepath] ([Separator] is the slash).  The calls of package
    [os] are recorded in a trace and answered by an environment, so that
    what is proved holds whatever the file system does. *)

From Stdlib Require Import String Ascii List ZArith Bool Lia DecimalString.

Set Warnings "-register-all".
Import ListNotations.

Local Open Scope string_scope.
Local Open Scope list_scope.

(** ** The functions of package [strings] the program calls *)

Module Strings.

(** [strings.HasPrefix(s, prefix)] *)
Fixpoint HasPrefix (s prefix : string) {struct prefix} : bool :=
  match prefix with
  | EmptyString => true
  | String p prefix' =>
      match s with
      | EmptyString => false
      | String c s' => Ascii.eqb c p && HasPrefix s' prefix'
      end
  end.

(** [strings.Contains(s, substr)] *)
Fixpoint Contains (s substr : string) : bool :=
  HasPrefix s substr
  || match s with
     | EmptyString => false
     | String _ s' => Contains s' substr
     end.

(** [s[n:]] for [n <= len(s)] *)
Fixpoint drop (n : nat) (s : string) : string :=
  match n, s with
  | S n', String _ s' => drop n' s'
  | _, _ => s
  end.

(** [strings.HasSuffix(s, suffix)]:
    [len(s) >= len(suffix) && s[len(s)-len(suffix):] == suffix] *)
Definition HasSuffix (s suffix : string) : bool :=
  (String.length suffix <=? String.length s)%nat
  && String.eqb (drop (String.length s - String.length suffix) s) suffix.

(** [strings.IndexByte(chars, c) >= 0] *)
Fixpoint hasByte (chars : string) (c : ascii) : bool :=
  match chars with
  | EmptyString => false
  | String d chars' => Ascii.eqb c d || hasByte chars' c
  end.

(** [strings.ContainsAny(s, chars)] *)
Fixpoint ContainsAny (s chars : string) : bool :=
  match s with
  | EmptyString => false
  | String c s' => hasByte chars c || ContainsAny s' chars
  end.

(** [strings.Join(elems, sep)] *)
Definition Join (elems : list string) (sep : string) : string :=
  String.concat sep elems.

End Strings.

(** ** [path/filepath], Unix build *)

Module Filepath.

Definition Separator : string := "/".

(** The elements of a path, the text between separators; the empty
    elements that doubled, leading and trailing separators give are
    kept. *)
Fixpoint elements (path : string) : list string :=
  match path with
  | EmptyString => [EmptyString]
  | String c path' =>
      if Ascii.eqb c "/" then EmptyString :: elements path'
      else match elements path' with
           | [] => [String c EmptyString]
           | e :: es => String c e :: es
           end
  end.

(** [filepath.IsAbs]: [strings.HasPrefix(path, "/")] *)
Definition IsAbs (path : string) : bool := Strings.HasPrefix path "/".

(** One element of [Clean]'s scan.  [out] holds the elements written so
    far, last one first.  Empty and [.] elements are dropped; [..] removes
    the last real element, is dropped at the root of a rooted path, and is
    kept where a relative path has nothing left to remove. *)
Definition cleanElement (rooted : bool) (out : list string) (e : string)
  : list string :=
  if String.eqb e "" then out
  else if String.eqb e "." then out
  else if String.eqb e ".." then
    match out with
    | [] => if rooted then [] else [e]
    | last :: before =>
        if String.eqb last ".." then e :: out else before
    end
  else e :: out.

(** [filepath.Clean], by elements: separators are not doubled, [.]
    elements are dropped, an inner [..] goes with the element before it,
    a [..] at the root of a rooted path is dropped, and the empty result is
    [.]. *)
Definition Clean (path : string) : string :=
  if String.eqb path "" then "."
  else
    let rooted := IsAbs path in
    let out := rev (fold_left (cleanElement rooted) (elements path) []) in
    let body := Strings.Join out Separator in
    if rooted then Separator ++ body
    else if String.eqb body "" then "." else body.

(** [filepath.Join]: the elements from the first non-empty one on are
    joined with the separator and cleaned; all empty gives the empty
    string. *)
Fixpoint Join (elem : list string) : string :=
  match elem with
  | [] => ""
  | e :: rest =>
      if String.eqb e "" then Join rest
      else Clean (Strings.Join elem Separator)
  end.

(** [filepath.Abs], given the outcome of [os.Getwd] ([None] when it
    fails). *)
Definition Abs (getwd : option string) (path : string) : option string :=
  if IsAbs path then Some (Clean path)
  else match getwd with
       | None => None
       | Some wd => Some (Join [wd; path])
       end.

(** [filepath.Dir]: the path up to its last separator, cleaned. *)
Fixpoint upToLastSeparator (path : string) : string :=
  match path with
  | EmptyString => EmptyString
  | String c path' =>
      if Strings.Contains path Separator
      then String c (upToLastSeparator path')
      else EmptyString
  end.

Definition Dir (path : string) : string := Clean (upToLastSeparator path).

End Filepath.

(** Paths and their cleaned forms, from the documentation and the tests of
    [filepath.Clean]; [clean_table] below checks [Clean] against them. *)
Module CleanTable.
Definition rows : list (string * string) :=
  [ ("abc", "abc"); ("abc/def", "abc/def"); ("a/b/c", "a/b/c"); (".", ".");
    ("..", ".."); ("../..", "../.."); ("../../abc", "../../abc");
    ("/abc", "/abc"); ("/", "/"); ("", "."); ("abc/", "abc");
    ("abc/def/", "abc/def"); ("./", "."); ("../", ".."); ("../../", "../..");
    ("/abc/", "/abc"); ("abc//def//ghi", "abc/def/ghi"); ("//abc", "/abc");
    ("///abc", "/abc"); ("//abc//", "/abc"); ("abc//", "abc");
    ("abc/./def", "abc/def"); ("/./abc/def", "/abc/def"); ("abc/.", "abc");
    ("abc/def/ghi/../jkl", "abc/def/jkl"); ("abc/def/../ghi/../jkl", "abc/jkl");
    ("abc/def/..", "abc"); ("abc/def/../..", "."); ("/abc/def/../..", "/");
    ("abc/def/../../..", ".."); ("/abc/def/../../..", "/");
    ("abc/def/../../../ghi/jkl/../../../mno", "../../mno");
    ("/../abc", "/abc"); ("abc/./../def", "def"); ("abc//./../def", "def");
    ("abc/../../././../def", "../../def") ].
End CleanTable.


(** ** Errors

    One constructor per [fmt.Errorf] of the program, named after its
    message; the cause wrapped with [%w] is left out. *)

Inductive error : Type :=
  | ErrCannotOpen                (* Cannot open archive *)
  | ErrXzReader                  (* Cannot create the XZ-reader *)
  | ErrAbsDest                   (* Cannot get absolute path of destination *)
  | ErrReading                   (* Error during reading archive *)
  | ErrAbsolutePath (name : string)   (* Archive contains absolute path *)
  | ErrTraversal (name : string) (* Archive contains path traversal attempt *)
  | ErrAbsTarget                 (* Cannot get absolute path of target *)
  | ErrOutside (name : string)
      (* Path traversal detected, target path outside destination *)
  | ErrTooLong (name : string)   (* Path too long *)
  | ErrNullByte (name : string)  (* Path contains null byte *)
  | ErrMkdir                     (* Failed to create folder *)
  | ErrTooLarge (name : string) (size : Z)   (* File too large *)
  | ErrFilePath                  (* Failed to create a file path *)
  | ErrCreateFile                (* Failed to create file *)
  | ErrWriteFile                 (* Failed to write file *)
  | ErrLinks (name : string)   (* Symbolic/hard links not allowed in archive *)
  | ErrRequiredMissing (name : string)  (* required file or directory missing *)
  | ErrReadMetadata              (* Failed to reading metadata *)
  | ErrInvalidJSON               (* Metadata invalid JSON *)
  | ErrMissingFields (fields : list string).
                                 (* missing or empty required metadata fields *)

(** The error kinds of the specification.  The program has one error type;
    this table files each of its messages under the kind the specification
    gives it. *)
Inductive errorKind : Type :=
  | IOError
  | ArchiveFormatError
  | PathSecurityViolation
  | SizeLimitExceeded
  | StructuralValidationError
  | SchemaValidationError.

Definition kindOf (e : error) : errorKind :=
  match e with
  | ErrCannotOpen | ErrAbsDest | ErrAbsTarget | ErrMkdir | ErrFilePath
  | ErrCreateFile | ErrWriteFile | ErrReadMetadata => IOError
  | ErrXzReader | ErrReading => ArchiveFormatError
  | ErrAbsolutePath _ | ErrTraversal _ | ErrOutside _ | ErrTooLong _
  | ErrNullByte _ | ErrLinks _ => PathSecurityViolation
  | ErrTooLarge _ _ => SizeLimitExceeded
  | ErrRequiredMissing _ => StructuralValidationError
  | ErrInvalidJSON | ErrMissingFields _ => SchemaValidationError
  end.

(** ** The tar stream *)

Module Tar.

(** The fields of [tar.Header] the program reads, and the link target,
    which it never reads. *)
Record Header : Type := mkHeader {
  Name : string;
  Typeflag : ascii;
  Size : Z;
  Mode : Z;
  Linkname : string
}.

(** The same header with another link target. *)
Definition withLinkname (header : Header) (target : string) : Header :=
  mkHeader (Name header) (Typeflag header) (Size header) (Mode header) target.

Definition TypeReg : ascii := "0".
Definition TypeLink : ascii := "1".
Definition TypeSymlink : ascii := "2".
Definition TypeDir : ascii := "5".

End Tar.

(** What one call of [tr.Next()] returns; the end of the list is
    [io.EOF]. *)
Inductive next : Type :=
  | NextHeader (header : Tar.Header)
  | NextError.

(** What [os.Open] and [xz.NewReader] find at the archive path. *)
Inductive archive : Type :=
  | Unreadable
  | NotXz
  | TarXz (entries : list next).

(** ** JSON documents *)

Inductive json : Type :=
  | JNull
  | JBool (b : bool)
  | JNumber (literal : string)
  | JString (s : string)
  | JArray (items : list json)
  | JObject (members : list (string * json)).

(** The bytes of a file as [json.Unmarshal] sees them: text that is not
    valid JSON, or a document.  [Unmarshal] checks the syntax of the whole
    input before it decodes anything. *)
Inductive content : Type :=
  | Malformed (raw : string)
  | Document (value : json).

(** ** Decoding with [encoding/json]

    [json.Unmarshal] into a struct of [string], [*string] and [[]string]
    fields.  The members of an object are taken in order.  A key names the
    field whose tag it equals after case folding; other keys are skipped.
    [null] leaves a string as it is and makes a pointer or a slice nil; an
    array makes a slice that is not nil, also when it has no items; a value
    of another type is an error.  A nil slice is [None].  The program reads
    no item of a slice; a [null] item is rendered as the empty string. *)

Module Json.

Definition lower (c : ascii) : ascii :=
  let n := nat_of_ascii c in
  if ((65 <=? n) && (n <=? 90))%nat then ascii_of_nat (n + 32) else c.

(** Case folding of a key: ASCII letters in lower case; the two letters
    outside ASCII that fold to an ASCII letter are U+017F (bytes 197 191),
    which folds to s, and U+212A (bytes 226 132 170), which folds to k. *)
Fixpoint foldKey (key : string) : string :=
  match key with
  | EmptyString => EmptyString
  | String c rest =>
      match rest with
      | String d rest' =>
          if Ascii.eqb c "197" && Ascii.eqb d "191" then
            String "s" (foldKey rest')
          else
            match rest' with
            | String e rest'' =>
                if Ascii.eqb c "226" && Ascii.eqb d "132" && Ascii.eqb e "170"
                then String "k" (foldKey rest'')
                else String (lower c) (foldKey rest)
            | EmptyString => String (lower c) (foldKey rest)
            end
      | EmptyString => String (lower c) (foldKey rest)
      end
  end.

Definition decodeString (old : string) (value : json) : option string :=
  match value with
  | JString s => Some s
  | JNull => Some old
  | _ => None
  end.

Definition decodePointer (old : option string) (value : json)
  : option (option string) :=
  match value with
  | JString s => Some (Some s)
  | JNull => Some None
  | _ => None
  end.

Fixpoint decodeItems (items : list json) : option (list string) :=
  match items with
  | [] => Some []
  | item :: rest =>
      match decodeString "" item, decodeItems rest with
      | Some s, Some l => Some (s :: l)
      | _, _ => None
      end
  end.

Definition decodeSlice (old : option (list string)) (value : json)
  : option (option (list string)) :=
  match value with
  | JArray items => option_map Some (decodeItems items)
  | JNull => Some None
  | _ => None
  end.

End Json.

(** ** The metadata records *)

Module MetadataV1.
Record t : Type := mk {
  Name : string;
  Version : string;
  Architecture : option string;
  Description : string;
  Maintainer : string;
  License : option string;
  Homepage : string;
  Dependencies : option (list string);
  Conflicts : option (list string);
  Provides : option (list string);
  Replaces : option (list string)
}.

(** The value of [var meta MetadataV1]: empty strings, nil pointers and nil
    slices. *)
Definition zero : t :=
  mk "" "" None "" "" None "" None None None None.

Definition setName (meta : t) (v : string) : t :=
  mk v (Version meta) (Architecture meta) (Description meta)
    (Maintainer meta) (License meta) (Homepage meta) (Dependencies meta)
    (Conflicts meta) (Provides meta) (Replaces meta) .
Definition setVersion (meta : t) (v : string) : t :=
  mk (Name meta) v (Architecture meta) (Description meta) (Maintainer meta)
    (License meta) (Homepage meta) (Dependencies meta) (Conflicts meta)
    (Provides meta) (Replaces meta) .
Definition setArchitecture (meta : t) (v : option string) : t :=
  mk (Name meta) (Version meta) v (Description meta) (Maintainer meta)
    (License meta) (Homepage meta) (Dependencies meta) (Conflicts meta)
    (Provides meta) (Replaces meta) .
Definition setDescription (meta : t) (v : string) : t :=
  mk (Name meta) (Version meta) (Architecture meta) v (Maintainer meta)
    (License meta) (Homepage meta) (Dependencies meta) (Conflicts meta)
    (Provides meta) (Replaces meta) .
Definition setMaintainer (meta : t) (v : string) : t :=
  mk (Name meta) (Version meta) (Architecture meta) (Description meta) v
    (License meta) (Homepage meta) (Dependencies meta) (Conflicts meta)
    (Provides meta) (Replaces meta) .
Definition setLicense (meta : t) (v : option string) : t :=
  mk (Name meta) (Version meta) (Architecture meta) (Description meta)
    (Maintainer meta) v (Homepage meta) (Dependencies meta)
    (Conflicts meta) (Provides meta) (Replaces meta) .
Definition setHomepage (meta : t) (v : string) : t :=
  mk (Name meta) (Version meta) (Architecture meta) (Description meta)
    (Maintainer meta) (License meta) v (Dependencies meta) (Conflicts meta)
    (Provides meta) (Replaces meta) .
Definition setDependencies (meta : t) (v : option (list string)) : t :=
  mk (Name meta) (Version meta) (Architecture meta) (Description meta)
    (Maintainer meta) (License meta) (Homepage meta) v (Conflicts meta)
    (Provides meta) (Replaces meta) .
Definition setConflicts (meta : t) (v : option (list string)) : t :=
  mk (Name meta) (Version meta) (Architecture meta) (Description meta)
    (Maintainer meta) (License meta) (Homepage meta) (Dependencies meta) v
    (Provides meta) (Replaces meta) .
Definition setProvides (meta : t) (v : option (list string)) : t :=
  mk (Name meta) (Version meta) (Architecture meta) (Description meta)
    (Maintainer meta) (License meta) (Homepage meta) (Dependencies meta)
    (Conflicts meta) v (Replaces meta) .
Definition setReplaces (meta : t) (v : option (list string)) : t :=
  mk (Name meta) (Version meta) (Architecture meta) (Description meta)
    (Maintainer meta) (License meta) (Homepage meta) (Dependencies meta)
    (Conflicts meta) (Provides meta) v.

(** One member of the JSON object: the field whose name the key folds
    to takes the value, a key of no field is skipped, and [None] is a
    value of the wrong type. *)
Definition member (meta : t) (key : string) (value : json) : option t :=
  let k := Json.foldKey key in
  if String.eqb k "name" then
    option_map (setName meta) (Json.decodeString (Name meta) value)
  else if String.eqb k "version" then
    option_map (setVersion meta) (Json.decodeString (Version meta) value)
  else if String.eqb k "architecture" then
    option_map (setArchitecture meta) (Json.decodePointer (Architecture meta) value)
  else if String.eqb k "description" then
    option_map (setDescription meta) (Json.decodeString (Description meta) value)
  else if String.eqb k "maintainer" then
    option_map (setMaintainer meta) (Json.decodeString (Maintainer meta) value)
  else if String.eqb k "license" then
    option_map (setLicense meta) (Json.decodePointer (License meta) value)
  else if String.eqb k "homepage" then
    option_map (setHomepage meta) (Json.decodeString (Homepage meta) value)
  else if String.eqb k "dependencies" then
    option_map (setDependencies meta) (Json.decodeSlice (Dependencies meta) value)
  else if String.eqb k "conflicts" then
    option_map (setConflicts meta) (Json.decodeSlice (Conflicts meta) value)
  else if String.eqb k "provides" then
    option_map (setProvides meta) (Json.decodeSlice (Provides meta) value)
  else if String.eqb k "replaces" then
    option_map (setReplaces meta) (Json.decodeSlice (Replaces meta) value)
  else Some meta.

Fixpoint members (meta : t) (ms : list (string * json)) : option t :=
  match ms with
  | [] => Some meta
  | (key, value) :: rest =>
      match member meta key value with
      | None => None
      | Some meta' => members meta' rest
      end
  end.

(** [json.Unmarshal(fileData, &meta)]; [None] is an error. *)
Definition Unmarshal (fileData : content) : option t :=
  match fileData with
  | Malformed _ => None
  | Document JNull => Some zero
  | Document (JObject ms) => members zero ms
  | Document _ => None
  end.

End MetadataV1.

Module MetadataV2.
Record t : Type := mk {
  Name : string;
  Version : string;
  Type_ : string;
  Architecture : option string;
  Description : string;
  Maintainer : string;
  License : option string;
  Tags : option (list string);
  Homepage : string;
  Dependencies : option (list string);
  Conflicts : option (list string);
  Provides : option (list string);
  Replaces : option (list string);
  Conf : option (list string)
}.

(** The value of [var meta MetadataV2]: empty strings, nil pointers and nil
    slices. *)
Definition zero : t :=
  mk "" "" "" None "" "" None None "" None None None None None.

Definition setName (meta : t) (v : string) : t :=
  mk v (Version meta) (Type_ meta) (Architecture meta) (Description meta)
    (Maintainer meta) (License meta) (Tags meta) (Homepage meta)
    (Dependencies meta) (Conflicts meta) (Provides meta) (Replaces meta)
    (Conf meta) .
Definition setVersion (meta : t) (v : string) : t :=
  mk (Name meta) v (Type_ meta) (Architecture meta) (Description meta)
    (Maintainer meta) (License meta) (Tags meta) (Homepage meta)
    (Dependencies meta) (Conflicts meta) (Provides meta) (Replaces meta)
    (Conf meta) .
Definition setType_ (meta : t) (v : string) : t :=
  mk (Name meta) (Version meta) v (Architecture meta) (Description meta)
    (Maintainer meta) (License meta) (Tags meta) (Homepage meta)
    (Dependencies meta) (Conflicts meta) (Provides meta) (Replaces meta)
    (Conf meta) .
Definition setArchitecture (meta : t) (v : option string) : t :=
  mk (Name meta) (Version meta) (Type_ meta) v (Description meta)
    (Maintainer meta) (License meta) (Tags meta) (Homepage meta)
    (Dependencies meta) (Conflicts meta) (Provides meta) (Replaces meta)
    (Conf meta) .
Definition setDescription (meta : t) (v : string) : t :=
  mk (Name meta) (Version meta) (Type_ meta) (Architecture meta) v
    (Maintainer meta) (License meta) (Tags meta) (Homepage meta)
    (Dependencies meta) (Conflicts meta) (Provides meta) (Replaces meta)
    (Conf meta) .
Definition setMaintainer (meta : t) (v : string) : t :=
  mk (Name meta) (Version meta) (Type_ meta) (Architecture meta)
    (Description meta) v (License meta) (Tags meta) (Homepage meta)
    (Dependencies meta) (Conflicts meta) (Provides meta) (Replaces meta)
    (Conf meta) .
Definition setLicense (meta : t) (v : option string) : t :=
  mk (Name meta) (Version meta) (Type_ meta) (Architecture meta)
    (Description meta) (Maintainer meta) v (Tags meta) (Homepage meta)
    (Dependencies meta) (Conflicts meta) (Provides meta) (Replaces meta)
    (Conf meta) .
Definition setTags (meta : t) (v : option (list string)) : t :=
  mk (Name meta) (Version meta) (Type_ meta) (Architecture meta)
    (Description meta) (Maintainer meta) (License meta) v (Homepage meta)
    (Dependencies meta) (Conflicts meta) (Provides meta) (Replaces meta)
    (Conf meta) .
Definition setHomepage (meta : t) (v : string) : t :=
  mk (Name meta) (Version meta) (Type_ meta) (Architecture meta)
    (Description meta) (Maintainer meta) (License meta) (Tags meta) v
    (Dependencies meta) (Conflicts meta) (Provides meta) (Replaces meta)
    (Conf meta) .
Definition setDependencies (meta : t) (v : option (list string)) : t :=
  mk (Name meta) (Version meta) (Type_ meta) (Architecture meta)
    (Description meta) (Maintainer meta) (License meta) (Tags meta)
    (Homepage meta) v (Conflicts meta) (Provides meta) (Replaces meta)
    (Conf meta) .
Definition setConflicts (meta : t) (v : option (list string)) : t :=
  mk (Name meta) (Version meta) (Type_ meta) (Architecture meta)
    (Description meta) (Maintainer meta) (License meta) (Tags meta)
    (Homepage meta) (Dependencies meta) v (Provides meta) (Replaces meta)
    (Conf meta) .
Definition setProvides (meta : t) (v : option (list string)) : t :=
  mk (Name meta) (Version meta) (Type_ meta) (Architecture meta)
    (Description meta) (Maintainer meta) (License meta) (Tags meta)
    (Homepage meta) (Dependencies meta) (Conflicts meta) v (Replaces meta)
    (Conf meta) .
Definition setReplaces (meta : t) (v : option (list string)) : t :=
  mk (Name meta) (Version meta) (Type_ meta) (Architecture meta)
    (Description meta) (Maintainer meta) (License meta) (Tags meta)
    (Homepage meta) (Dependencies meta) (Conflicts meta) (Provides meta) v
    (Conf meta) .
Definition setConf (meta : t) (v : option (list string)) : t :=
  mk (Name meta) (Version meta) (Type_ meta) (Architecture meta)
    (Description meta) (Maintainer meta) (License meta) (Tags meta)
    (Homepage meta) (Dependencies meta) (Conflicts meta) (Provides meta)
    (Replaces meta) v.

(** One member of the JSON object: the field whose name the key folds
    to takes the value, a key of no field is skipped, and [None] is a
    value of the wrong type. *)
Definition member (meta : t) (key : string) (value : json) : option t :=
  let k := Json.foldKey key in
  if String.eqb k "name" then
    option_map (setName meta) (Json.decodeString (Name meta) value)
  else if String.eqb k "version" then
    option_map (setVersion meta) (Json.decodeString (Version meta) value)
  else if String.eqb k "type" then
    option_map (setType_ meta) (Json.decodeString (Type_ meta) value)
  else if String.eqb k "architecture" then
    option_map (setArchitecture meta) (Json.decodePointer (Architecture meta) value)
  else if String.eqb k "description" then
    option_map (setDescription meta) (Json.decodeString (Description meta) value)
  else if String.eqb k "maintainer" then
    option_map (setMaintainer meta) (Json.decodeString (Maintainer meta) value)
  else if String.eqb k "license" then
    option_map (setLicense meta) (Json.decodePointer (License meta) value)
  else if String.eqb k "tags" then
    option_map (setTags meta) (Json.decodeSlice (Tags meta) value)
  else if String.eqb k "homepage" then
    option_map (setHomepage meta) (Json.decodeString (Homepage meta) value)
  else if String.eqb k "dependencies" then
    option_map (setDependencies meta) (Json.decodeSlice (Dependencies meta) value)
  else if String.eqb k "conflicts" then
    option_map (setConflicts meta) (Json.decodeSlice (Conflicts meta) value)
  else if String.eqb k "provides" then
    option_map (setProvides meta) (Json.decodeSlice (Provides meta) value)
  else if String.eqb k "replaces" then
    option_map (setReplaces meta) (Json.decodeSlice (Replaces meta) value)
  else if String.eqb k "conf" then
    option_map (setConf meta) (Json.decodeSlice (Conf meta) value)
  else Some meta.

Fixpoint members (meta : t) (ms : list (string * json)) : option t :=
  match ms with
  | [] => Some meta
  | (key, value) :: rest =>
      match member meta key value with
      | None => None
      | Some meta' => members meta' rest
      end
  end.

(** [json.Unmarshal(fileData, &meta)]; [None] is an error. *)
Definition Unmarshal (fileData : content) : option t :=
  match fileData with
  | Malformed _ => None
  | Document JNull => Some zero
  | Document (JObject ms) => members zero ms
  | Document _ => None
  end.

End MetadataV2.

(** ** The operating system

    The calls the program makes on the destination tree are recorded as
    events, the latest first.  What each call answers is given by the
    environment and may depend on everything done so far. *)

Inductive event : Type :=
  | EvMkdirAll (path : string) (perm : Z)
  | EvOpenFile (path : string)   (* O_CREATE|O_WRONLY|O_TRUNC, 0644 *)
  | EvCopyN (path : string) (n : Z)
  | EvClose (path : string)
  | EvSkipping (typeflag : ascii)   (* Printf: Skipping unknown type *)
  | EvStat (path : string)
  | EvReadFile (path : string).

Definition trace : Type := list event.

Inductive statResult : Type := StatOK | StatNotExist | StatFailed.

(** [io.CopyN]: all bytes copied, [io.EOF] before that, any other error. *)
Inductive copyResult : Type := CopyDone | CopyEOF | CopyFailed.

Record OS : Type := mkOS {
  os_getwd : option string;
  os_open : string -> archive;
  os_mkdirAll : trace -> string -> Z -> bool;
  os_openFile : trace -> string -> bool;
  os_copyN : trace -> string -> Z -> copyResult;
  os_stat : trace -> string -> statResult;
  os_readFile : trace -> string -> option content;
  (** the target of the symbolic link at a path, where there is one; the
      program never asks *)
  os_readlink : string -> option string
}.


(** ** Computations that call the operating system *)

Definition M (A : Type) : Type := trace -> A * trace.

Definition ret {A : Type} (a : A) : M A := fun t => (a, t).

Definition bind {A B : Type} (m : M A) (k : A -> M B) : M B :=
  fun t => let (a, t') := m t in k a t'.

Notation "x <- m ;; k" := (bind m (fun x => k))
  (at level 61, m at next level, right associativity).

Section Program.

Variable os : OS.

Definition MkdirAll (path : string) (perm : Z) : M bool :=
  fun t => (os_mkdirAll os t path perm, EvMkdirAll path perm :: t).

Definition OpenFile (path : string) : M bool :=
  fun t => (os_openFile os t path, EvOpenFile path :: t).

Definition CopyN (path : string) (n : Z) : M copyResult :=
  fun t => (os_copyN os t path n, EvCopyN path n :: t).

Definition Close (path : string) : M unit :=
  fun t => (tt, EvClose path :: t).

Definition PrintSkipping (typeflag : ascii) : M unit :=
  fun t => (tt, EvSkipping typeflag :: t).

Definition Stat (path : string) : M statResult :=
  fun t => (os_stat os t path, EvStat path :: t).

Definition ReadFile (path : string) : M (option content) :=
  fun t => (os_readFile os t path, EvReadFile path :: t).

(** *** [extractTarXz] *)

Definition maxFileSize : Z := 500 * 1024 * 1024.

(** [os.FileMode(mode) & 0755]; [FileMode] is a [uint32]. *)
Definition dirPerm (mode : Z) : Z := Z.land (mode mod 2 ^ 32) 493.

(** The test of the path-traversal [if] on the cleaned name. *)
Definition traversal (cleanPath : string) : bool :=
  Strings.HasPrefix cleanPath (".." ++ Filepath.Separator)
  || Strings.Contains cleanPath
       (Filepath.Separator ++ ".." ++ Filepath.Separator)
  || Strings.HasSuffix cleanPath ".."
  || String.eqb cleanPath "..".

(** The test of the containment [if]: true when the target is outside. *)
Definition outside (absDest absTarget : string) : bool :=
  negb (Strings.HasPrefix absTarget (absDest ++ Filepath.Separator))
  && negb (String.eqb absTarget absDest).

(** The [switch] on the type of the entry. *)
Definition dispatch (target : string) (header : Tar.Header)
  : M (option error) :=
  if Ascii.eqb (Tar.Typeflag header) Tar.TypeDir then
    ok <- MkdirAll target (dirPerm (Tar.Mode header)) ;;
    if ok then ret None else ret (Some ErrMkdir)
  else if Ascii.eqb (Tar.Typeflag header) Tar.TypeReg then
    if (Tar.Size header >? maxFileSize)%Z then
      ret (Some (ErrTooLarge (Tar.Name header) (Tar.Size header)))
    else
      ok <- MkdirAll (Filepath.Dir target) 493 ;;
      if negb ok then ret (Some ErrFilePath)
      else
        ok <- OpenFile target ;;
        if negb ok then ret (Some ErrCreateFile)
        else
          r <- CopyN target (Tar.Size header) ;;
          _ <- Close target ;;
          match r with
          | CopyFailed => ret (Some ErrWriteFile)
          | CopyDone | CopyEOF => ret None
          end
  else if Ascii.eqb (Tar.Typeflag header) Tar.TypeSymlink
          || Ascii.eqb (Tar.Typeflag header) Tar.TypeLink then
    ret (Some (ErrLinks (Tar.Name header)))
  else
    _ <- PrintSkipping (Tar.Typeflag header) ;;
    ret None.

(** The body of the loop for one header; [None] goes on to the next
    entry. *)
Definition processEntry (absDest : string) (header : Tar.Header)
  : M (option error) :=
  let cleanPath := Filepath.Clean (Tar.Name header) in
  if Filepath.IsAbs cleanPath then
    ret (Some (ErrAbsolutePath (Tar.Name header)))
  else if traversal cleanPath then
    ret (Some (ErrTraversal (Tar.Name header)))
  else
    let target := Filepath.Join [absDest; cleanPath] in
    match Filepath.Abs (os_getwd os) target with
    | None => ret (Some ErrAbsTarget)
    | Some absTarget =>
        if outside absDest absTarget then
          ret (Some (ErrOutside (Tar.Name header)))
        else if (255 <? String.length cleanPath)%nat then
          ret (Some (ErrTooLong (Tar.Name header)))
        else if Strings.ContainsAny cleanPath (String "000" EmptyString) then
          ret (Some (ErrNullByte (Tar.Name header)))
        else dispatch target header
    end.

Fixpoint extractLoop (absDest : string) (tr : list next) : M (option error) :=
  match tr with
  | [] => ret None
  | NextError :: _ => ret (Some ErrReading)
  | NextHeader header :: rest =>
      r <- processEntry absDest header ;;
      match r with
      | Some e => ret (Some e)
      | None => extractLoop absDest rest
      end
  end.

Definition extractTarXz (src dest : string) : M (option error) :=
  match os_open os src with
  | Unreadable => ret (Some ErrCannotOpen)
  | NotXz => ret (Some ErrXzReader)
  | TarXz tr =>
      match Filepath.Abs (os_getwd os) dest with
      | None => ret (Some ErrAbsDest)
      | Some absDest => extractLoop absDest tr
      end
  end.

(** *** [checkApgFileV1] and [checkApgFileV2] *)

Definition required : list string := ["data"; "md5sums"; "metadata.json"].

(** The loop over the required entries: the first one [os.Stat] reports
    as not existing is the error. *)
Fixpoint checkRequired (dir : string) (names : list string)
  : M (option error) :=
  match names with
  | [] => ret None
  | name :: rest =>
      st <- Stat (Filepath.Join [dir; name]) ;;
      match st with
      | StatNotExist => ret (Some (ErrRequiredMissing name))
      | StatOK | StatFailed => checkRequired dir rest
      end
  end.

(** [if cond { missingFields = append(missingFields, name) }] *)
Definition appendIf (cond : bool) (name : string) (missingFields : list string)
  : list string :=
  if cond then missingFields ++ [name] else missingFields.

Definition isNil {A : Type} (slice : option (list A)) : bool :=
  match slice with
  | None => true
  | Some _ => false
  end.

Definition missingFieldsV1 (meta : MetadataV1.t) : list string :=
  let missingFields := [] in
  let missingFields :=
    appendIf (String.eqb (MetadataV1.Name meta) "") "name" missingFields in
  let missingFields :=
    appendIf (String.eqb (MetadataV1.Version meta) "") "version" missingFields in
  let missingFields :=
    appendIf (String.eqb (MetadataV1.Description meta) "") "description"
      missingFields in
  let missingFields :=
    appendIf (String.eqb (MetadataV1.Maintainer meta) "") "maintainer"
      missingFields in
  let missingFields :=
    appendIf (String.eqb (MetadataV1.Homepage meta) "") "homepage"
      missingFields in
  let missingFields :=
    appendIf (isNil (MetadataV1.Dependencies meta)) "dependencies"
      missingFields in
  let missingFields :=
    appendIf (isNil (MetadataV1.Conflicts meta)) "conflicts" missingFields in
  let missingFields :=
    appendIf (isNil (MetadataV1.Provides meta)) "provides" missingFields in
  let missingFields :=
    appendIf (isNil (MetadataV1.Replaces meta)) "replaces" missingFields in
  missingFields.

Definition missingFieldsV2 (meta : MetadataV2.t) : list string :=
  let missingFields := [] in
  let missingFields :=
    appendIf (String.eqb (MetadataV2.Name meta) "") "name" missingFields in
  let missingFields :=
    appendIf (String.eqb (MetadataV2.Version meta) "") "version" missingFields in
  let missingFields :=
    appendIf (String.eqb (MetadataV2.Type_ meta) "") "type" missingFields in
  let missingFields :=
    appendIf (String.eqb (MetadataV2.Description meta) "") "description"
      missingFields in
  let missingFields :=
    appendIf (String.eqb (MetadataV2.Maintainer meta) "") "maintainer"
      missingFields in
  let missingFields :=
    appendIf (String.eqb (MetadataV2.Homepage meta) "") "homepage"
      missingFields in
  let missingFields :=
    appendIf (isNil (MetadataV2.Tags meta)) "tags" missingFields in
  let missingFields :=
    appendIf (isNil (MetadataV2.Dependencies meta)) "dependencies"
      missingFields in
  let missingFields :=
    appendIf (isNil (MetadataV2.Conflicts meta)) "conflicts" missingFields in
  let missingFields :=
    appendIf (isNil (MetadataV2.Provides meta)) "provides" missingFields in
  let missingFields :=
    appendIf (isNil (MetadataV2.Replaces meta)) "replaces" missingFields in
  let missingFields :=
    appendIf (isNil (MetadataV2.Conf meta)) "conf" missingFields in
  missingFields.

(** The three results of [checkApgFile]: the file error, the JSON error
    and the status. *)
Definition verdict : Type := (option error * option error * string)%type.

(** The end of both functions: [if len(missingFields) > 0 { ... }] and
    the final [return nil, nil, "good"]. *)
Definition report (missingFields : list string) : verdict :=
  if (0 <? List.length missingFields)%nat
  then (None, Some (ErrMissingFields missingFields), "bad")
  else (None, None, "good").

Definition checkApgFileV1 (dir : string) : M verdict :=
  r <- checkRequired dir required ;;
  match r with
  | Some e => ret (Some e, None, "bad")
  | None =>
      let metadataPath := Filepath.Join [dir; "metadata.json"] in
      fileData <- ReadFile metadataPath ;;
      match fileData with
      | None => ret (None, Some ErrReadMetadata, "bad")
      | Some fileData =>
          match MetadataV1.Unmarshal fileData with
          | None => ret (None, Some ErrInvalidJSON, "bad")
          | Some meta => ret (report (missingFieldsV1 meta))
          end
      end
  end.

Definition checkApgFileV2 (dir : string) : M verdict :=
  r <- checkRequired dir required ;;
  match r with
  | Some e => ret (Some e, None, "bad")
  | None =>
      let metadataPath := Filepath.Join [dir; "metadata.json"] in
      fileData <- ReadFile metadataPath ;;
      match fileData with
      | None => ret (None, Some ErrReadMetadata, "bad")
      | Some fileData =>
          match MetadataV2.Unmarshal fileData with
          | None => ret (None, Some ErrInvalidJSON, "bad")
          | Some meta => ret (report (missingFieldsV2 meta))
          end
      end
  end.

(** The one function of apgcheck 0.1.0, which became [checkApgFileV1]
    unchanged but for the name of the record. *)
Definition checkApgFile (dir : string) : M verdict := checkApgFileV1 dir.

(** The choice [main] makes on the value of [--apg-version]. *)
Definition validate (dir : string) (apgVersion : Z) : M verdict :=
  if (apgVersion =? 2)%Z then checkApgFileV2 dir else checkApgFileV1 dir.

(** *** Tests and conditions the properties are stated with *)

(** The guards before the [switch], as one test. *)
Definition passesPathGuards (absDest : string) (header : Tar.Header) : bool :=
  let cleanPath := Filepath.Clean (Tar.Name header) in
  negb (Filepath.IsAbs cleanPath)
  && negb (traversal cleanPath)
  && match Filepath.Abs (os_getwd os) (Filepath.Join [absDest; cleanPath]) with
     | None => false
     | Some absTarget =>
         negb (outside absDest absTarget)
         && (String.length cleanPath <=? 255)%nat
         && negb (Strings.ContainsAny cleanPath (String "000" EmptyString))
     end.

(** An error of the path-traversal guard: the absolute-path test or the
    test for [..]. *)
Definition fromTraversalGuard (e : error) : bool :=
  match e with
  | ErrAbsolutePath _ | ErrTraversal _ => true
  | _ => false
  end.

(** [os.Stat] never reports the entry as not existing. *)
Definition present (dir name : string) : Prop :=
  forall t, os_stat os t (Filepath.Join [dir; name]) <> StatNotExist.


(** [os.ReadFile] gives [fileData] for [metadata.json]. *)
Definition metadataIs (dir : string) (fileData : content) : Prop :=
  forall t,
    os_readFile os t (Filepath.Join [dir; "metadata.json"]) = Some fileData.

Definition stats (dir : string) (names : list string) : trace :=
  rev (map (fun name => EvStat (Filepath.Join [dir; name])) names).

End Program.


(** ** The schema of the specification

    The required fields of each format version as one descriptor: the name
    of a field and the test that finds it missing, a scalar when it is the
    empty string and a list when it is nil. *)

Module Schema.

Definition scalar {R : Type} (get : R -> string) : R -> bool :=
  fun meta => String.eqb (get meta) "".

Definition listOf {R : Type} (get : R -> option (list string)) : R -> bool :=
  fun meta => isNil (get meta).

Definition t (R : Type) : Type := list (string * (R -> bool)).

Definition v1 : t MetadataV1.t :=
  [ ("name", scalar MetadataV1.Name);
    ("version", scalar MetadataV1.Version);
    ("description", scalar MetadataV1.Description);
    ("maintainer", scalar MetadataV1.Maintainer);
    ("homepage", scalar MetadataV1.Homepage);
    ("dependencies", listOf MetadataV1.Dependencies);
    ("conflicts", listOf MetadataV1.Conflicts);
    ("provides", listOf MetadataV1.Provides);
    ("replaces", listOf MetadataV1.Replaces) ].

Definition v2 : t MetadataV2.t :=
  [ ("name", scalar MetadataV2.Name);
    ("version", scalar MetadataV2.Version);
    ("type", scalar MetadataV2.Type_);
    ("description", scalar MetadataV2.Description);
    ("maintainer", scalar MetadataV2.Maintainer);
    ("homepage", scalar MetadataV2.Homepage);
    ("tags", listOf MetadataV2.Tags);
    ("dependencies", listOf MetadataV2.Dependencies);
    ("conflicts", listOf MetadataV2.Conflicts);
    ("provides", listOf MetadataV2.Provides);
    ("replaces", listOf MetadataV2.Replaces);
    ("conf", listOf MetadataV2.Conf) ].

(** The names of the fields the descriptor finds missing, in its
    order. *)
Definition missing {R : Type} (schema : t R) (meta : R) : list string :=
  map fst (filter (fun field => snd field meta) schema).

(** The checks one after the other, as the program appends. *)
Fixpoint collect {R : Type} (schema : t R) (meta : R) (acc : list string)
  : list string :=
  match schema with
  | [] => acc
  | (name, test) :: rest => collect rest meta (appendIf (test meta) name acc)
  end.

End Schema.

(** The list fields of each version and how the record holds them. *)

Definition listFieldsV1
  : list (string * (MetadataV1.t -> option (list string))) :=
  [ ("dependencies", MetadataV1.Dependencies);
    ("conflicts", MetadataV1.Conflicts);
    ("provides", MetadataV1.Provides);
    ("replaces", MetadataV1.Replaces) ].

Definition listFieldsV2
  : list (string * (MetadataV2.t -> option (list string))) :=
  [ ("tags", MetadataV2.Tags);
    ("dependencies", MetadataV2.Dependencies);
    ("conflicts", MetadataV2.Conflicts);
    ("provides", MetadataV2.Provides);
    ("replaces", MetadataV2.Replaces);
    ("conf", MetadataV2.Conf) ].

(** The parts of a verdict. *)
Definition fileErr (v : verdict) : option error := fst (fst v).
Definition jsonErr (v : verdict) : option error := snd (fst v).
Definition status (v : verdict) : string := snd v.

(** ** The canonical path of the specification

    The specification canonicalizes the destination and the target before
    it compares them, so that a symbolic link among the elements of a
    path counts.  This is that notion, as [filepath.EvalSymlinks] computes
    it from the links of the system; the program has no such call. *)

Module Spec.

(** [base] is the resolved part, [todo] the elements still to walk;
    [fuel] bounds the number of steps, and running out is the error of a
    loop of links. *)
Fixpoint resolve (fuel : nat) (readlink : string -> option string)
         (base : string) (todo : list string) : option string :=
  match fuel with
  | O => None
  | S fuel' =>
      match todo with
      | [] => Some base
      | e :: rest =>
          let here := Filepath.Join [base; e] in
          match readlink here with
          | None => resolve fuel' readlink here rest
          | Some target =>
              resolve fuel' readlink
                (if Filepath.IsAbs target then "/" else base)
                (Filepath.elements target ++ rest)
          end
      end
  end.

Definition canonical (os : OS) (path : string) : option string :=
  match Filepath.Abs (os_getwd os) path with
  | None => None
  | Some abs => resolve 4096 (os_readlink os) "/" (Filepath.elements abs)
  end.

(** Equal to the root or below it. *)
Definition within (root path : string) : bool :=
  String.eqb path root || Strings.HasPrefix path (root ++ "/").

End Spec.

(** ** Environments for the examples *)

(** A system where every call succeeds: the working directory is the root,
    every path holds the archive [a], every required entry exists and
    [metadata.json] holds [data]; [links] lists the symbolic links. *)
Definition calm (a : archive) (data : content) (links : list (string * string))
  : OS :=
  {| os_getwd := Some "/";
     os_open := fun _ => a;
     os_mkdirAll := fun _ _ _ => true;
     os_openFile := fun _ _ => true;
     os_copyN := fun _ _ _ => CopyDone;
     os_stat := fun _ _ => StatOK;
     os_readFile := fun _ _ => Some data;
     os_readlink := fun path =>
       option_map snd (find (fun l => String.eqb (fst l) path) links) |}.

Definition regular (name : string) (size : Z) : Tar.Header :=
  Tar.mkHeader name Tar.TypeReg size 420 "".

(** Inputs for the examples. *)

Module Instances.

Definition dest : string := "/tmp/apgcheck-12345678".

(** A system that holds the archive made of [entries]. *)
Definition holding (entries : list Tar.Header) : OS :=
  calm (TarXz (map NextHeader entries)) (Malformed "") [].

(** A system whose [metadata.json] is [fileData]. *)
Definition describing (fileData : content) : OS :=
  calm (TarXz []) fileData [].


Definition symlink (name target : string) : Tar.Header :=
  Tar.mkHeader name Tar.TypeSymlink 0 511 target.

Definition longName : string := String.concat "" (repeat "a" 256).

(** The members of a complete version 1 object, [dependencies] left
    out. *)
Definition before : list (string * json) :=
  [ ("name", JString "hello");
    ("version", JString "1.0.0");
    ("architecture", JNull);
    ("description", JString "An example package");
    ("maintainer", JString "someone");
    ("license", JString "GPL-3.0");
    ("homepage", JString "https://example.org") ].

Definition after : list (string * json) :=
  [ ("conflicts", JArray []);
    ("provides", JArray [JString "hello"]);
    ("replaces", JArray []) ].

Definition withoutDependencies : content :=
  Document (JObject (before ++ after)).

Definition withEmptyDependencies : content :=
  Document (JObject (before ++ ("dependencies", JArray []) :: after)).

Definition sparse : content :=
  Document (JObject [ ("name", JString "hello");
                      ("version", JString "");
                      ("tags", JNull);
                      ("conf", JArray []) ]).

End Instances.

Import Instances.

(** ** Facts about the string and path functions *)

Lemma HasPrefix_app (p s : string) : Strings.HasPrefix (p ++ s) p = true.
Proof.
  induction p as [|c p IH]; simpl.
  - reflexivity.
  - now rewrite Ascii.eqb_refl, IH.
Qed.

Lemma Clean_rooted (path : string) :
  Filepath.IsAbs path = true -> Filepath.IsAbs (Filepath.Clean path) = true.
Proof.
  intros Habs. unfold Filepath.Clean.
  destruct (String.eqb path "") eqn:E.
  - apply String.eqb_eq in E. subst path. discriminate.
  - rewrite Habs. reflexivity.
Qed.

Lemma Join_rooted (root rel : string) :
  Filepath.IsAbs root = true ->
  Filepath.IsAbs (Filepath.Join [root; rel]) = true.
Proof.
  intros Habs. destruct root as [|c root]; [discriminate|].
  cbn [Filepath.Join String.eqb]. apply Clean_rooted.
  unfold Filepath.IsAbs in *. simpl in *.
  destruct (Ascii.eqb c "/"); [reflexivity | discriminate].
Qed.

(** The second call of [filepath.Abs] cannot fail where the first one
    succeeded. *)
Lemma Abs_target (getwd : option string) (dest absDest rel : string) :
  Filepath.Abs getwd dest = Some absDest ->
  exists absTarget,
    Filepath.Abs getwd (Filepath.Join [absDest; rel]) = Some absTarget.
Proof.
  unfold Filepath.Abs at 1. intros H.
  destruct (Filepath.IsAbs dest) eqn:Habs.
  - injection H as <-. unfold Filepath.Abs.
    rewrite (Join_rooted _ rel (Clean_rooted _ Habs)). eauto.
  - destruct getwd as [wd|]; [|discriminate].
    unfold Filepath.Abs.
    destruct (Filepath.IsAbs (Filepath.Join [absDest; rel])); eauto.
Qed.

Lemma append_assoc (a b c : string) :
  ((a ++ b) ++ c)%string = (a ++ b ++ c)%string.
Proof.
  induction a as [|x a IH]; simpl; [reflexivity | now rewrite IH].
Qed.

Lemma HasPrefix_split (s p : string) :
  Strings.HasPrefix s p = true <-> exists r, s = (p ++ r)%string.
Proof.
  split.
  - revert s. induction p as [|c p IH]; intros s H.
    + now exists s.
    + destruct s as [|d s]; [discriminate|]. simpl in H.
      apply andb_true_iff in H as [Hc Hp]. apply Ascii.eqb_eq in Hc. subst d.
      destruct (IH _ Hp) as [r ->]. now exists r.
  - intros [r ->]. apply HasPrefix_app.
Qed.

Lemma HasSuffix_cons (c : ascii) (s suffix : string) :
  Strings.HasSuffix s suffix = true ->
  Strings.HasSuffix (String c s) suffix = true.
Proof.
  unfold Strings.HasSuffix. intros H.
  apply andb_true_iff in H as [Hlen Heq]. apply Nat.leb_le in Hlen.
  apply andb_true_iff. split.
  - apply Nat.leb_le. simpl. lia.
  - change (String.length (String c s)) with (S (String.length s)).
    rewrite Nat.sub_succ_l by assumption. exact Heq.
Qed.

Lemma elements_not_nil (path : string) : Filepath.elements path <> [].
Proof.
  destruct path as [|c path]; simpl; [discriminate|].
  destruct (Ascii.eqb c "/"); [discriminate|].
  destruct (Filepath.elements path); discriminate.
Qed.

Lemma elements_cons (c : ascii) (path : string) :
  Filepath.elements (String c path)
  = if Ascii.eqb c "/" then "" :: Filepath.elements path
    else String c (hd "" (Filepath.elements path))
         :: tl (Filepath.elements path).
Proof.
  simpl. destruct (Ascii.eqb c "/"); [reflexivity|].
  pose proof (elements_not_nil path) as Hne.
  destruct (Filepath.elements path); [contradiction | reflexivity].
Qed.

(** A path whose first element is [..] is [..] itself or starts with
    [../]. *)
Lemma first_element_dotdot (path : string) :
  hd "" (Filepath.elements path) = ".." ->
  path = ".." \/ Strings.HasPrefix path "../" = true.
Proof.
  destruct path as [|a p1]; [discriminate|].
  rewrite elements_cons. destruct (Ascii.eqb a "/") eqn:Ea; [discriminate|].
  simpl. intros [= -> H1].
  destruct p1 as [|b p2]; [discriminate|].
  rewrite elements_cons in H1. destruct (Ascii.eqb b "/") eqn:Eb; [discriminate|].
  simpl in H1. injection H1 as -> H2.
  destruct p2 as [|c p3]; [now left|].
  rewrite elements_cons in H2. destruct (Ascii.eqb c "/") eqn:Ec; [|discriminate].
  right. apply Ascii.eqb_eq in Ec. subst c. reflexivity.
Qed.

(** A path with a later element [..] contains [/../] or ends with [..]. *)
Lemma later_element_dotdot (path : string) :
  In ".." (tl (Filepath.elements path)) ->
  Strings.Contains path "/../" = true \/ Strings.HasSuffix path ".." = true.
Proof.
  induction path as [|a path IH]; [contradiction|].
  rewrite elements_cons. intros H.
  assert (Hlift : Strings.Contains path "/../" = true
                  \/ Strings.HasSuffix path ".." = true ->
                  Strings.Contains (String a path) "/../" = true
                  \/ Strings.HasSuffix (String a path) ".." = true).
  { intros [Hc|Hs].
    - left. cbn [Strings.Contains]. rewrite Hc. apply orb_true_r.
    - right. now apply HasSuffix_cons. }
  destruct (Ascii.eqb a "/") eqn:Ea.
  - apply Ascii.eqb_eq in Ea. subst a. cbn [tl] in H.
    pose proof (elements_not_nil path) as Hne.
    destruct (Filepath.elements path) as [|e es] eqn:Ees; [contradiction|].
    destruct H as [He|Hes].
    + destruct (first_element_dotdot path) as [-> | Hp].
      * now rewrite Ees.
      * right. reflexivity.
      * left. cbn [Strings.Contains]. apply orb_true_iff. left. exact Hp.
    + apply Hlift, IH. exact Hes.
  - apply Hlift, IH. exact H.
Qed.

(** The four tests of the traversal [if] catch every path that has an
    element [..]. *)
Lemma dotdot_element_caught (path : string) :
  In ".." (Filepath.elements path) -> traversal path = true.
Proof.
  intros H. pose proof (elements_not_nil path) as Hne.
  unfold traversal.
  destruct (Filepath.elements path) as [|e es] eqn:Ees; [contradiction|].
  destruct H as [He|Hes].
  - destruct (first_element_dotdot path) as [-> | Hp].
    + now rewrite Ees.
    + reflexivity.
    + change (".." ++ Filepath.Separator)%string with "../". now rewrite Hp.
  - destruct (later_element_dotdot path) as [Hc|Hs].
    + now rewrite Ees.
    + change (Filepath.Separator ++ ".." ++ Filepath.Separator)%string
        with "/../".
      rewrite Hc. now rewrite orb_true_r.
    + rewrite Hs. now rewrite !orb_true_r.
Qed.

(** *** A cleaned path that is absolute has no element [..] *)

Definition slashFree (e : string) : Prop := Strings.hasByte e "/" = false.

Lemma slashFree_cons (c : ascii) (e : string) :
  Ascii.eqb c "/" = false -> slashFree e -> slashFree (String c e).
Proof.
  unfold slashFree. intros Hc He. cbn [Strings.hasByte].
  rewrite Ascii.eqb_sym, Hc, He. reflexivity.
Qed.

Lemma slashFree_inv (c : ascii) (e : string) :
  slashFree (String c e) -> Ascii.eqb c "/" = false /\ slashFree e.
Proof.
  unfold slashFree. cbn [Strings.hasByte]. intros H.
  apply orb_false_iff in H as [Hc He]. rewrite Ascii.eqb_sym in Hc. now split.
Qed.

Lemma elements_slashFree (path : string) :
  Forall slashFree (Filepath.elements path).
Proof.
  induction path as [|c path IH].
  - repeat constructor.
  - rewrite elements_cons. destruct (Ascii.eqb c "/") eqn:Ec.
    + constructor; [reflexivity | exact IH].
    + pose proof (elements_not_nil path) as Hne.
      destruct (Filepath.elements path) as [|e es]; [contradiction|].
      inversion IH as [|? ? He Hes]; subst.
      constructor; [now apply slashFree_cons | exact Hes].
Qed.

Lemma elements_one (e : string) : slashFree e -> Filepath.elements e = [e].
Proof.
  induction e as [|c e IH]; intros H.
  - reflexivity.
  - apply slashFree_inv in H as [Hc He].
    rewrite elements_cons, Hc, (IH He). reflexivity.
Qed.

Lemma elements_app (e rest : string) :
  slashFree e ->
  Filepath.elements (e ++ "/" ++ rest) = e :: Filepath.elements rest.
Proof.
  induction e as [|c e IH]; intros H.
  - reflexivity.
  - apply slashFree_inv in H as [Hc He].
    change (String c e ++ "/" ++ rest)%string
      with (String c (e ++ "/" ++ rest)).
    rewrite elements_cons, Hc, (IH He). reflexivity.
Qed.

Lemma elements_Join (out : list string) :
  out <> [] -> Forall slashFree out ->
  Filepath.elements (Strings.Join out Filepath.Separator) = out.
Proof.
  unfold Strings.Join, Filepath.Separator.
  induction out as [|e out IH]; intros Hne Hall; [contradiction|].
  inversion Hall as [|? ? He Hout]; subst.
  destruct out as [|e' out].
  - now apply elements_one.
  - change (String.concat "/" (e :: e' :: out))
      with (e ++ "/" ++ String.concat "/" (e' :: out))%string.
    rewrite (elements_app _ _ He), IH; [reflexivity | discriminate | exact Hout].
Qed.

(** What [Clean] keeps: elements without a separator, none of them empty,
    and no [..] when the path is rooted. *)
Definition kept (rooted : bool) (out : list string) : Prop :=
  Forall (fun e => slashFree e /\ e <> "") out
  /\ (rooted = true -> ~ In ".." out).

Lemma cleanElement_kept (rooted : bool) (out : list string) (e : string) :
  slashFree e -> kept rooted out ->
  kept rooted (Filepath.cleanElement rooted out e).
Proof.
  intros He [Hall Hdd]. unfold Filepath.cleanElement.
  destruct (String.eqb e "") eqn:E0; [now split|].
  destruct (String.eqb e ".") eqn:E1; [now split|].
  apply String.eqb_neq in E0.
  destruct (String.eqb e "..") eqn:E2.
  - destruct out as [|last before].
    + destruct rooted; split; try (intros; intros []); try discriminate.
      * constructor.
      * repeat constructor; assumption.
    + destruct (String.eqb last "..") eqn:E3.
      * apply String.eqb_eq in E3. subst last. split.
        -- constructor; [now split | exact Hall].
        -- intros Hr. exfalso. apply (Hdd Hr). now left.
      * inversion Hall; subst. split; [assumption|].
        intros Hr Hin. apply (Hdd Hr). now right.
  - apply String.eqb_neq in E2. split.
    + constructor; [now split | exact Hall].
    + intros Hr [Heq|Hin]; [now apply E2 | now apply (Hdd Hr)].
Qed.

Lemma fold_cleanElement_kept (rooted : bool) (es out : list string) :
  Forall slashFree es -> kept rooted out ->
  kept rooted (fold_left (Filepath.cleanElement rooted) es out).
Proof.
  revert out. induction es as [|e es IH]; intros out Hes Hout.
  - exact Hout.
  - inversion Hes; subst. cbn [fold_left].
    apply IH; [assumption | now apply cleanElement_kept].
Qed.

Lemma Clean_absolute_no_dotdot (path : string) :
  Filepath.IsAbs (Filepath.Clean path) = true ->
  ~ In ".." (Filepath.elements (Filepath.Clean path)).
Proof.
  unfold Filepath.Clean.
  destruct (String.eqb path ""); [discriminate|].
  assert (Hkept : kept (Filepath.IsAbs path)
                    (rev (fold_left (Filepath.cleanElement (Filepath.IsAbs path))
                            (Filepath.elements path) []))).
  { destruct (fold_cleanElement_kept (Filepath.IsAbs path)
                (Filepath.elements path) [] (elements_slashFree path))
      as [Hall Hdd].
    - split; [constructor | intros _ []].
    - split.
      + now apply Forall_rev.
      + intros Hr Hin. apply (Hdd Hr). now apply in_rev. }
  cbv zeta.
  set (out := rev (fold_left _ _ _)) in *.
  destruct Hkept as [Hall Hdd].
  assert (Hfree : Forall slashFree out)
    by (eapply Forall_impl; [|exact Hall]; now intros e [He _]).
  destruct (Filepath.IsAbs path).
  - intros _.
    change (Filepath.Separator ++ Strings.Join out Filepath.Separator)%string
      with (String "/" (Strings.Join out Filepath.Separator)).
    rewrite elements_cons. cbn [Ascii.eqb Bool.eqb].
    destruct out as [|e out'] eqn:Eout.
    + intros [H|[H|[]]]; discriminate.
    + rewrite elements_Join by (try discriminate; assumption).
      intros [H|H]; [discriminate | now apply (Hdd eq_refl)].
  - destruct (String.eqb (Strings.Join out Filepath.Separator) "");
      [discriminate|].
    destruct out as [|e out']; [discriminate|].
    inversion Hall as [|? ? [He Hne] _]; subst.
    destruct e as [|c e]; [contradiction|].
    apply slashFree_inv in He as [Hc _].
    unfold Filepath.IsAbs, Strings.Join.
    destruct out'; cbn; rewrite Hc; discriminate.
Qed.

(** ** The extractor *)

Section Extraction.

Variable os : OS.

Lemma extractLoop_app (absDest : string) (pre rest : list next) (t t1 : trace) :
  extractLoop os absDest pre t = (None, t1) ->
  extractLoop os absDest (pre ++ rest) t = extractLoop os absDest rest t1.
Proof.
  revert t. induction pre as [|[h|] pre IH]; intros t H; simpl in *.
  - injection H as <-. reflexivity.
  - unfold bind in *.
    destruct (processEntry os absDest h t) as [[e|] t'].
    + discriminate.
    + now apply IH.
  - discriminate.
Qed.

(** Extraction is all-or-nothing from the first refused entry on: the
    error of that entry is the result, and the entries after it are not
    looked at. *)
Lemma extract_stops (src dest absDest : string) (pre rest : list next)
      (h : Tar.Header) (t t1 t2 : trace) (e : error) :
  os_open os src = TarXz (pre ++ NextHeader h :: rest) ->
  Filepath.Abs (os_getwd os) dest = Some absDest ->
  extractLoop os absDest pre t = (None, t1) ->
  processEntry os absDest h t1 = (Some e, t2) ->
  extractTarXz os src dest t = (Some e, t2).
Proof.
  intros Hopen Habs Hpre Hh. unfold extractTarXz.
  rewrite Hopen, Habs, (extractLoop_app _ _ _ _ _ Hpre).
  simpl. unfold bind. now rewrite Hh.
Qed.

Lemma processEntry_passes (absDest : string) (h : Tar.Header) (t : trace) :
  passesPathGuards os absDest h = true ->
  processEntry os absDest h t
  = dispatch os (Filepath.Join [absDest; Filepath.Clean (Tar.Name h)]) h t.
Proof.
  unfold passesPathGuards, processEntry. cbv zeta.
  destruct (Filepath.IsAbs _); [discriminate|].
  destruct (traversal _); [discriminate|].
  destruct (Filepath.Abs _ _) as [absTarget|]; [|discriminate].
  destruct (outside _ _); [discriminate|].
  destruct (String.length _ <=? 255)%nat eqn:Hlen; [|discriminate].
  apply Nat.leb_le in Hlen.
  destruct (255 <? String.length _)%nat eqn:Hlt;
    [apply Nat.ltb_lt in Hlt; lia|].
  destruct (Strings.ContainsAny _ _); [discriminate|]. reflexivity.
Qed.

(** An entry the guards refuse is refused before any call on the
    destination. *)
Lemma processEntry_refused (absDest : string) (h : Tar.Header) (t : trace) :
  passesPathGuards os absDest h = false ->
  exists e, processEntry os absDest h t = (Some e, t)
            /\ (kindOf e = PathSecurityViolation \/ e = ErrAbsTarget).
Proof.
  unfold passesPathGuards, processEntry. cbv zeta.
  destruct (Filepath.IsAbs _); [intros _; eexists; split; [reflexivity|now left]|].
  destruct (traversal _); [intros _; eexists; split; [reflexivity|now left]|].
  destruct (Filepath.Abs _ _) as [absTarget|];
    [|intros _; eexists; split; [reflexivity|now right]].
  destruct (outside _ _); [intros _; eexists; split; [reflexivity|now left]|].
  destruct (255 <? String.length _)%nat eqn:Hlt;
    [intros _; eexists; split; [reflexivity|now left]|].
  apply Nat.ltb_ge in Hlt. apply Nat.leb_le in Hlt. rewrite Hlt.
  destruct (Strings.ContainsAny _ _);
    [intros _; eexists; split; [reflexivity|now left]|discriminate].
Qed.

(** Inside [extractTarXz] the refusal is always a path-security one. *)
Lemma processEntry_refused_kind (dest absDest : string) (h : Tar.Header)
      (t : trace) :
  Filepath.Abs (os_getwd os) dest = Some absDest ->
  passesPathGuards os absDest h = false ->
  exists e, processEntry os absDest h t = (Some e, t)
            /\ kindOf e = PathSecurityViolation.
Proof.
  intros Habs Hno.
  destruct (Abs_target _ _ _ (Filepath.Clean (Tar.Name h)) Habs)
    as [absTarget HabsT].
  destruct (processEntry_refused absDest h t Hno) as [e [He [Hk|Hk]]].
  - eauto.
  - exfalso. subst e. unfold processEntry in He. cbv zeta in He.
    rewrite HabsT in He.
    destruct (Filepath.IsAbs _); [discriminate|].
    destruct (traversal _); [discriminate|].
    destruct (outside _ _); [discriminate|].
    destruct (255 <? _)%nat; [discriminate|].
    destruct (Strings.ContainsAny _ _); [discriminate|].
    unfold dispatch, bind, ret, MkdirAll, OpenFile, CopyN, Close,
      PrintSkipping in He.
    repeat match type of He with
           | context [if ?c then _ else _] => destruct c
           | context [match ?c with CopyDone => _ | _ => _ end] => destruct c
           end; discriminate.
Qed.

Lemma dispatch_link (target : string) (h : Tar.Header) (t : trace) :
  Tar.Typeflag h = Tar.TypeSymlink \/ Tar.Typeflag h = Tar.TypeLink ->
  dispatch os target h t = (Some (ErrLinks (Tar.Name h)), t).
Proof.
  unfold dispatch. intros [-> | ->]; reflexivity.
Qed.

(** C3.  Every entry that is a symbolic link or a hard link makes
    [extractTarXz] fail with a path-security error, whatever the header
    holds as link target, which is not read; no call on the destination is
    made for it, so no link is created, and the entries after it are not
    read.  When the name passes the path guards the error is the one about
    links. *)
Theorem links_are_refused (src dest absDest : string) (pre rest : list next)
        (h : Tar.Header) (t t1 : trace) :
  os_open os src = TarXz (pre ++ NextHeader h :: rest) ->
  Filepath.Abs (os_getwd os) dest = Some absDest ->
  extractLoop os absDest pre t = (None, t1) ->
  Tar.Typeflag h = Tar.TypeSymlink \/ Tar.Typeflag h = Tar.TypeLink ->
  (exists e,
      extractTarXz os src dest t = (Some e, t1)
      /\ kindOf e = PathSecurityViolation
      /\ (passesPathGuards os absDest h = true -> e = ErrLinks (Tar.Name h)))
  /\ (forall target,
         processEntry os absDest (Tar.withLinkname h target) t1
         = processEntry os absDest h t1).
Proof.
  intros Hopen Habs Hpre Hlink. split; [|reflexivity].
  destruct (passesPathGuards os absDest h) eqn:Hg.
  - exists (ErrLinks (Tar.Name h)). repeat split.
    eapply extract_stops; eauto.
    rewrite (processEntry_passes _ _ _ Hg). now apply dispatch_link.
  - destruct (processEntry_refused_kind _ _ h t1 Habs Hg) as [e [He Hk]].
    exists e. repeat split; [eapply extract_stops; eauto | exact Hk | discriminate].
Qed.

(** C10.  An entry whose cleaned name ends with the two characters [..]
    is refused by the path-traversal guard, also when they only end a
    longer last element such as [notes..]: extraction stops there with no
    call on the destination.  The error is the one about a traversal
    attempt unless the cleaned name is absolute, which the guard tests
    first. *)
Theorem dotdot_suffix_is_refused (src dest absDest : string)
        (pre rest : list next) (h : Tar.Header) (t t1 : trace) :
  os_open os src = TarXz (pre ++ NextHeader h :: rest) ->
  Filepath.Abs (os_getwd os) dest = Some absDest ->
  extractLoop os absDest pre t = (None, t1) ->
  Strings.HasSuffix (Filepath.Clean (Tar.Name h)) ".." = true ->
  exists e,
    extractTarXz os src dest t = (Some e, t1)
    /\ fromTraversalGuard e = true
    /\ (Filepath.IsAbs (Filepath.Clean (Tar.Name h)) = false ->
        e = ErrTraversal (Tar.Name h)).
Proof.
  intros Hopen Habs Hpre Hsuf.
  assert (Htrav : traversal (Filepath.Clean (Tar.Name h)) = true).
  { unfold traversal. rewrite Hsuf. now rewrite !orb_true_r. }
  destruct (Filepath.IsAbs (Filepath.Clean (Tar.Name h))) eqn:Ha.
  - exists (ErrAbsolutePath (Tar.Name h)). repeat split; [|discriminate].
    eapply extract_stops; eauto.
    unfold processEntry. cbv zeta. now rewrite Ha.
  - exists (ErrTraversal (Tar.Name h)). repeat split.
    eapply extract_stops; eauto.
    unfold processEntry. cbv zeta. now rewrite Ha, Htrav.
Qed.

Lemma dispatch_regular (target : string) (h : Tar.Header) (t : trace) :
  Tar.Typeflag h = Tar.TypeReg ->
  (Tar.Size h > maxFileSize)%Z ->
  dispatch os target h t = (Some (ErrTooLarge (Tar.Name h) (Tar.Size h)), t).
Proof.
  intros Hreg Hsize. unfold dispatch. rewrite Hreg. simpl.
  apply Z.gt_lt, Z.gtb_lt in Hsize. now rewrite Hsize.
Qed.

Lemma dispatch_regular_small (target : string) (h : Tar.Header) (t : trace) :
  Tar.Typeflag h = Tar.TypeReg ->
  (Tar.Size h <= maxFileSize)%Z ->
  forall e, fst (dispatch os target h t) = Some e -> kindOf e = IOError.
Proof.
  intros Hreg Hsize e. unfold dispatch. rewrite Hreg. simpl.
  destruct (Tar.Size h >? maxFileSize)%Z eqn:Hgt;
    [apply Z.gtb_lt in Hgt; lia|].
  unfold bind, ret, MkdirAll, OpenFile, CopyN, Close.
  destruct (os_mkdirAll os t _ _); simpl;
    [|intros [= <-]; reflexivity].
  destruct (os_openFile os _ _); simpl; [|intros [= <-]; reflexivity].
  destruct (os_copyN os _ _ _); simpl; intros [= <-]; reflexivity.
Qed.

(** The size guard on one regular-file entry. *)
Lemma size_guard_entry (absDest : string) (h : Tar.Header) (t : trace) :
  Tar.Typeflag h = Tar.TypeReg ->
  maxFileSize = 524288000%Z
  /\ ((Tar.Size h > 524288000)%Z ->
      exists e, processEntry os absDest h t = (Some e, t)
                /\ (passesPathGuards os absDest h = true ->
                    e = ErrTooLarge (Tar.Name h) (Tar.Size h)))
  /\ (forall e, fst (processEntry os absDest h t) = Some e ->
                kindOf e = SizeLimitExceeded ->
                (Tar.Size h > 524288000)%Z
                /\ snd (processEntry os absDest h t) = t)
  /\ (passesPathGuards os absDest h = true ->
      ((exists e, fst (processEntry os absDest h t) = Some e
                  /\ kindOf e = SizeLimitExceeded)
       <-> (Tar.Size h > 524288000)%Z))
  /\ (Tar.Size h = 524288000%Z ->
      forall e, fst (processEntry os absDest h t) = Some e ->
                kindOf e <> SizeLimitExceeded).
Proof.
  intros Hreg.
  assert (Hmax : maxFileSize = 524288000%Z) by reflexivity.
  assert (Hbig : (Tar.Size h > 524288000)%Z ->
                 exists e, processEntry os absDest h t = (Some e, t)
                           /\ (passesPathGuards os absDest h = true ->
                               e = ErrTooLarge (Tar.Name h) (Tar.Size h))).
  { intros Hsize. destruct (passesPathGuards os absDest h) eqn:Hg.
    - exists (ErrTooLarge (Tar.Name h) (Tar.Size h)). split; [|reflexivity].
      rewrite (processEntry_passes _ _ _ Hg).
      apply dispatch_regular; [assumption | now rewrite Hmax].
    - destruct (processEntry_refused absDest h t Hg) as [e [He _]].
      exists e. split; [assumption | discriminate]. }
  assert (Honly : forall e, fst (processEntry os absDest h t) = Some e ->
                            kindOf e = SizeLimitExceeded ->
                            (Tar.Size h > 524288000)%Z
                            /\ snd (processEntry os absDest h t) = t).
  { intros e He Hk.
    destruct (Z_gt_le_dec (Tar.Size h) 524288000) as [Hgt|Hle].
    - split; [assumption|]. destruct (Hbig Hgt) as [e' [He' _]].
      now rewrite He'.
    - exfalso. destruct (passesPathGuards os absDest h) eqn:Hg.
      + rewrite (processEntry_passes _ _ _ Hg) in He.
        rewrite <- Hmax in Hle.
        rewrite (dispatch_regular_small _ _ _ Hreg Hle e He) in Hk.
        discriminate.
      + destruct (processEntry_refused absDest h t Hg) as [e' [He' Hk']].
        rewrite He' in He. injection He as ->.
        destruct Hk' as [Hk'| ->]; [rewrite Hk in Hk'|]; discriminate. }
  repeat split.
  - exact Hbig.
  - eapply Honly; eassumption.
  - eapply Honly; eassumption.
  - intros [e [He Hk]]. eapply Honly; eassumption.
  - intros Hsize. destruct (Hbig Hsize) as [e [He Hwhich]].
    exists e. rewrite He. split; [reflexivity|]. now rewrite (Hwhich H).
  - intros Heq e He Hk. destruct (Honly e He Hk) as [Hgt _]. lia.
Qed.

(** C4.  For a regular-file entry the size guard refuses exactly the
    declared sizes above 500 MiB, 524288000 bytes.  A larger entry makes
    [extractTarXz] fail with no call on the destination for it, so before
    the file is opened or written, and with the size error once its name
    has passed the path guards; for an entry that has passed them the
    failure is a size-limit one exactly when the size is larger; a
    size-limit failure is only ever given for a larger size, and an entry of
    exactly 500 MiB gets none. *)
Theorem size_guard (src dest absDest : string) (pre rest : list next)
        (h : Tar.Header) (t t1 : trace) :
  os_open os src = TarXz (pre ++ NextHeader h :: rest) ->
  Filepath.Abs (os_getwd os) dest = Some absDest ->
  extractLoop os absDest pre t = (None, t1) ->
  Tar.Typeflag h = Tar.TypeReg ->
  maxFileSize = 524288000%Z
  /\ ((Tar.Size h > 524288000)%Z ->
      exists e, extractTarXz os src dest t = (Some e, t1)
                /\ (passesPathGuards os absDest h = true ->
                    e = ErrTooLarge (Tar.Name h) (Tar.Size h)))
  /\ (passesPathGuards os absDest h = true ->
      ((exists e, fst (processEntry os absDest h t1) = Some e
                  /\ kindOf e = SizeLimitExceeded)
       <-> (Tar.Size h > 524288000)%Z))
  /\ (forall e, fst (processEntry os absDest h t1) = Some e ->
                kindOf e = SizeLimitExceeded ->
                (Tar.Size h > 524288000)%Z
                /\ snd (processEntry os absDest h t1) = t1)
  /\ (Tar.Size h = 524288000%Z ->
      forall e, fst (processEntry os absDest h t1) = Some e ->
                kindOf e <> SizeLimitExceeded).
Proof.
  intros Hopen Habs Hpre Hreg.
  destruct (size_guard_entry absDest h t1 Hreg)
    as [Hmax [Hbig [Honly [Hiff Hexact]]]].
  split; [exact Hmax|]. split; [|split; [exact Hiff | split; assumption]].
  intros Hsize. destruct (Hbig Hsize) as [e [He Hwhich]].
  exists e. split; [eapply extract_stops; eauto | exact Hwhich].
Qed.

(** C2, amended.  An entry whose cleaned name still has a [..] element,
    in any position, is refused with the path-traversal error: extraction
    stops with that error, and no call on the destination is made for the
    entry or for any entry after it. *)
Theorem dotdot_element_is_refused (src dest absDest : string)
        (pre rest : list next) (h : Tar.Header) (t t1 : trace) :
  os_open os src = TarXz (pre ++ NextHeader h :: rest) ->
  Filepath.Abs (os_getwd os) dest = Some absDest ->
  extractLoop os absDest pre t = (None, t1) ->
  In ".." (Filepath.elements (Filepath.Clean (Tar.Name h))) ->
  extractTarXz os src dest t = (Some (ErrTraversal (Tar.Name h)), t1).
Proof.
  intros Hopen Habs Hpre Hdd.
  assert (Ha : Filepath.IsAbs (Filepath.Clean (Tar.Name h)) = false).
  { destruct (Filepath.IsAbs (Filepath.Clean (Tar.Name h))) eqn:Ha;
      [|reflexivity].
    exfalso. exact (Clean_absolute_no_dotdot _ Ha Hdd). }
  apply dotdot_element_caught in Hdd.
  eapply extract_stops; eauto.
  unfold processEntry. cbv zeta. now rewrite Ha, Hdd.
Qed.

(** C1, amended.  The target, the cleaned name joined onto the absolute
    destination, is made absolute and cleaned by [filepath.Abs], which
    follows no symbolic link.  Whenever that path is neither the absolute
    destination nor the destination followed by a separator and more,
    extraction stops with a path-security error and no call on the
    destination is made for the entry; the error is the containment one
    when the name has passed the two lexical tests. *)
Theorem containment_guard (src dest absDest absTarget : string)
        (pre rest : list next) (h : Tar.Header) (t t1 : trace) :
  os_open os src = TarXz (pre ++ NextHeader h :: rest) ->
  Filepath.Abs (os_getwd os) dest = Some absDest ->
  extractLoop os absDest pre t = (None, t1) ->
  Filepath.Abs (os_getwd os)
    (Filepath.Join [absDest; Filepath.Clean (Tar.Name h)]) = Some absTarget ->
  absTarget <> absDest ->
  (forall more, absTarget <> (absDest ++ Filepath.Separator ++ more)%string) ->
  exists e,
    extractTarXz os src dest t = (Some e, t1)
    /\ kindOf e = PathSecurityViolation
    /\ (Filepath.IsAbs (Filepath.Clean (Tar.Name h)) = false ->
        traversal (Filepath.Clean (Tar.Name h)) = false ->
        e = ErrOutside (Tar.Name h)).
Proof.
  intros Hopen Habs Hpre HabsT Hneq Hnot.
  assert (Hout : outside absDest absTarget = true).
  { unfold outside. apply andb_true_iff. split; apply negb_true_iff.
    - destruct (Strings.HasPrefix absTarget (absDest ++ Filepath.Separator))
        eqn:Hp; [|reflexivity].
      apply HasPrefix_split in Hp as [more Hmore].
      exfalso. apply (Hnot more). rewrite Hmore.
      now rewrite append_assoc.
    - now apply String.eqb_neq. }
  assert (Hstep : exists e,
             processEntry os absDest h t1 = (Some e, t1)
             /\ kindOf e = PathSecurityViolation
             /\ (Filepath.IsAbs (Filepath.Clean (Tar.Name h)) = false ->
                 traversal (Filepath.Clean (Tar.Name h)) = false ->
                 e = ErrOutside (Tar.Name h))).
  { unfold processEntry. cbv zeta. rewrite HabsT, Hout.
    destruct (Filepath.IsAbs _);
      [eexists; split; [reflexivity | split; [reflexivity | discriminate]]|].
    destruct (traversal _);
      [eexists; split;
       [reflexivity | split; [reflexivity | intros _; discriminate]]|].
    eexists; split; [reflexivity | split; reflexivity]. }
  destruct Hstep as [e [He [Hk Hwhich]]].
  exists e. repeat split; [eapply extract_stops; eauto | exact Hk | exact Hwhich].
Qed.

(** C8, amended.  The guards of one entry come in this order: the
    absolute-path test, the test for [..], the containment test on the
    absolute target, the test of the length of the cleaned name against
    255, the test for a NUL byte.  So an entry whose cleaned name is longer
    than 255 bytes and whose target is outside the destination fails with
    the containment error. *)
Theorem guard_order (absDest : string) (h : Tar.Header) (t : trace) :
  let cleanPath := Filepath.Clean (Tar.Name h) in
  (Filepath.IsAbs cleanPath = true ->
   processEntry os absDest h t = (Some (ErrAbsolutePath (Tar.Name h)), t))
  /\ (Filepath.IsAbs cleanPath = false ->
      traversal cleanPath = true ->
      processEntry os absDest h t = (Some (ErrTraversal (Tar.Name h)), t))
  /\ (forall absTarget,
         Filepath.IsAbs cleanPath = false ->
         traversal cleanPath = false ->
         Filepath.Abs (os_getwd os) (Filepath.Join [absDest; cleanPath])
         = Some absTarget ->
         (outside absDest absTarget = true ->
          processEntry os absDest h t = (Some (ErrOutside (Tar.Name h)), t))
         /\ (outside absDest absTarget = false ->
             (255 < String.length cleanPath)%nat ->
             processEntry os absDest h t = (Some (ErrTooLong (Tar.Name h)), t))
         /\ (outside absDest absTarget = false ->
             (String.length cleanPath <= 255)%nat ->
             Strings.ContainsAny cleanPath (String "000" EmptyString) = true ->
             processEntry os absDest h t
             = (Some (ErrNullByte (Tar.Name h)), t))).
Proof.
  cbv zeta. unfold processEntry. cbv zeta. split; [|split].
  - intros ->. reflexivity.
  - intros -> ->. reflexivity.
  - intros absTarget -> -> ->. split; [|split].
    + intros ->. reflexivity.
    + intros -> Hlen. apply Nat.ltb_lt in Hlen. now rewrite Hlen.
    + intros -> Hlen ->.
      destruct (255 <? _)%nat eqn:Hlt; [apply Nat.ltb_lt in Hlt; lia|].
      reflexivity.
Qed.

End Extraction.

(** ** The validator *)

Lemma collect_missing {R : Type} (schema : Schema.t R) (meta : R)
      (acc : list string) :
  Schema.collect schema meta acc = acc ++ Schema.missing schema meta.
Proof.
  revert acc. induction schema as [|[name test] rest IH]; intros acc.
  - symmetry. apply app_nil_r.
  - cbn [Schema.collect]. rewrite IH. unfold Schema.missing, appendIf.
    cbn [filter snd]. destruct (test meta).
    + now rewrite <- app_assoc.
    + reflexivity.
Qed.

(** The chain of [if]s of [checkApgFileV1] finds what the descriptor of
    version 1 finds. *)
Lemma missingFieldsV1_schema (meta : MetadataV1.t) :
  missingFieldsV1 meta = Schema.missing Schema.v1 meta.
Proof.
  change (missingFieldsV1 meta) with (Schema.collect Schema.v1 meta []).
  exact (collect_missing Schema.v1 meta []).
Qed.

Lemma missingFieldsV2_schema (meta : MetadataV2.t) :
  missingFieldsV2 meta = Schema.missing Schema.v2 meta.
Proof.
  change (missingFieldsV2 meta) with (Schema.collect Schema.v2 meta []).
  exact (collect_missing Schema.v2 meta []).
Qed.

Lemma missing_spec {R : Type} (schema : Schema.t R) (meta : R) (name : string) :
  In name (Schema.missing schema meta)
  <-> exists test, In (name, test) schema /\ test meta = true.
Proof.
  unfold Schema.missing. rewrite in_map_iff. split.
  - intros [[n test] [Hn Hin]]. simpl in Hn. subst n.
    apply filter_In in Hin as [Hin Htest]. now exists test.
  - intros [test [Hin Htest]]. exists (name, test). split; [reflexivity|].
    apply filter_In. now split.
Qed.

Lemma report_cases (missingFields : list string) :
  report missingFields
  = match missingFields with
    | [] => (None, None, "good")
    | _ :: _ => (None, Some (ErrMissingFields missingFields), "bad")
    end.
Proof.
  now destruct missingFields.
Qed.

Ltac pick_field H :=
  cbn [In Schema.v1 Schema.v2] in H;
  repeat (destruct H as [H|H]; [try discriminate H|]);
  try contradiction.

Lemma list_field_missing_V1 (name : string)
      (get : MetadataV1.t -> option (list string)) (meta : MetadataV1.t) :
  In (name, get) listFieldsV1 ->
  (In name (missingFieldsV1 meta) <-> get meta = None).
Proof.
  intros Hfield. rewrite missingFieldsV1_schema, missing_spec.
  cbn [In listFieldsV1] in Hfield.
  repeat (destruct Hfield as [Hfield|Hfield];
          [injection Hfield as <- <-|]); try contradiction.
  all: split;
    [ intros [test [Hin Htest]]; pick_field Hin;
      injection Hin as <-; unfold Schema.listOf in Htest;
      match type of Htest with
      | isNil ?x = true => now destruct x
      end
    | intros Hnil; eexists; split;
      [ cbn [In Schema.v1]; repeat (first [left; reflexivity | right])
      | unfold Schema.listOf; now rewrite Hnil ] ].
Qed.

Lemma list_field_missing_V2 (name : string)
      (get : MetadataV2.t -> option (list string)) (meta : MetadataV2.t) :
  In (name, get) listFieldsV2 ->
  (In name (missingFieldsV2 meta) <-> get meta = None).
Proof.
  intros Hfield. rewrite missingFieldsV2_schema, missing_spec.
  cbn [In listFieldsV2] in Hfield.
  repeat (destruct Hfield as [Hfield|Hfield];
          [injection Hfield as <- <-|]); try contradiction.
  all: split;
    [ intros [test [Hin Htest]]; pick_field Hin;
      injection Hin as <-; unfold Schema.listOf in Htest;
      match type of Htest with
      | isNil ?x = true => now destruct x
      end
    | intros Hnil; eexists; split;
      [ cbn [In Schema.v2]; repeat (first [left; reflexivity | right])
      | unfold Schema.listOf; now rewrite Hnil ] ].
Qed.

(** *** What an object holds under the key of a list field *)

(** The value of the last member of the object whose key names the field
    [name], as [json.Unmarshal] matches keys; [None] when the object has no
    such member. *)
Fixpoint lastMember (name : string) (ms : list (string * json)) : option json :=
  match ms with
  | [] => None
  | (key, value) :: rest =>
      match lastMember name rest with
      | Some v => Some v
      | None => if String.eqb (Json.foldKey key) name then Some value else None
      end
  end.

(** The names of the list fields of the version [validate] selects. *)
Definition listFields (apgVersion : Z) : list string :=
  if (apgVersion =? 2)%Z then map fst listFieldsV2 else map fst listFieldsV1.

(** [json.Unmarshal] into the record of the selected version gives no
    error. *)
Definition decoded (apgVersion : Z) (fileData : content) : Prop :=
  if (apgVersion =? 2)%Z
  then MetadataV2.Unmarshal fileData <> None
  else MetadataV1.Unmarshal fileData <> None.

(** The verdict is a schema error that lists [name]. *)
Definition reports (v : verdict) (name : string) : Prop :=
  exists fields,
    v = (None, Some (ErrMissingFields fields), "bad") /\ In name fields.

(** The cases of [member] on the key, and the end of each. *)
Ltac member_chain key :=
  repeat match goal with
         | |- context [String.eqb (Json.foldKey key) ?n] =>
             let E := fresh "E" in
             destruct (String.eqb (Json.foldKey key) n) eqn:E;
             [ apply String.eqb_eq in E; try rewrite E;
               repeat match goal with
                      | |- context [String.eqb ?a ?b] =>
                          let r := eval vm_compute in (String.eqb a b) in
                          progress change (String.eqb a b) with r
                      end
             | ];
             cbv iota
         end.

Ltac member_done :=
  match goal with
  | |- option_map _ ?d = Some _ -> _ =>
      let x := fresh "x" in
      let Hd := fresh "Hd" in
      destruct d as [x|] eqn:Hd; cbn [option_map]; [|discriminate];
      intros [= <-]; first [reflexivity | exact Hd]
  | |- Some _ = Some _ -> _ => intros [= <-]; reflexivity
  end.

(** What became of a list field after one member: the slice the value
    gives when the key names the field, and what it was otherwise. *)
Lemma member_slice_V1 (name : string)
      (get : MetadataV1.t -> option (list string)) (meta meta' : MetadataV1.t)
      (key : string) (value : json) :
  In (name, get) listFieldsV1 ->
  MetadataV1.member meta key value = Some meta' ->
  if String.eqb (Json.foldKey key) name
  then Json.decodeSlice None value = Some (get meta')
  else get meta' = get meta.
Proof.
  intros Hfield. cbn [In listFieldsV1] in Hfield.
  repeat (destruct Hfield as [Hfield|Hfield];
          [injection Hfield as <- <-|]); try contradiction.
  all: unfold MetadataV1.member; cbv zeta; member_chain key; member_done.
Qed.

Lemma member_slice_V2 (name : string)
      (get : MetadataV2.t -> option (list string)) (meta meta' : MetadataV2.t)
      (key : string) (value : json) :
  In (name, get) listFieldsV2 ->
  MetadataV2.member meta key value = Some meta' ->
  if String.eqb (Json.foldKey key) name
  then Json.decodeSlice None value = Some (get meta')
  else get meta' = get meta.
Proof.
  intros Hfield. cbn [In listFieldsV2] in Hfield.
  repeat (destruct Hfield as [Hfield|Hfield];
          [injection Hfield as <- <-|]); try contradiction.
  all: unfold MetadataV2.member; cbv zeta; member_chain key; member_done.
Qed.

(** After all the members a list field holds what the last member with its
    key gives, and what it held before when there is none. *)
Lemma members_slice_V1 (name : string)
      (get : MetadataV1.t -> option (list string))
      (ms : list (string * json)) (meta meta' : MetadataV1.t) :
  In (name, get) listFieldsV1 ->
  MetadataV1.members meta ms = Some meta' ->
  match lastMember name ms with
  | None => get meta' = get meta
  | Some value => Json.decodeSlice None value = Some (get meta')
  end.
Proof.
  intros Hfield. revert meta.
  induction ms as [|[key value] rest IH]; intros meta Hrun.
  - injection Hrun as <-. reflexivity.
  - cbn [MetadataV1.members] in Hrun.
    destruct (MetadataV1.member meta key value) as [mid|] eqn:Hkey;
      [|discriminate].
    specialize (IH mid Hrun). cbn [lastMember].
    destruct (lastMember name rest); [exact IH|].
    pose proof (member_slice_V1 name get meta mid key value Hfield Hkey) as H.
    destruct (String.eqb (Json.foldKey key) name).
    + now rewrite IH.
    + now rewrite IH.
Qed.

Lemma members_slice_V2 (name : string)
      (get : MetadataV2.t -> option (list string))
      (ms : list (string * json)) (meta meta' : MetadataV2.t) :
  In (name, get) listFieldsV2 ->
  MetadataV2.members meta ms = Some meta' ->
  match lastMember name ms with
  | None => get meta' = get meta
  | Some value => Json.decodeSlice None value = Some (get meta')
  end.
Proof.
  intros Hfield. revert meta.
  induction ms as [|[key value] rest IH]; intros meta Hrun.
  - injection Hrun as <-. reflexivity.
  - cbn [MetadataV2.members] in Hrun.
    destruct (MetadataV2.member meta key value) as [mid|] eqn:Hkey;
      [|discriminate].
    specialize (IH mid Hrun). cbn [lastMember].
    destruct (lastMember name rest); [exact IH|].
    pose proof (member_slice_V2 name get meta mid key value Hfield Hkey) as H.
    destruct (String.eqb (Json.foldKey key) name).
    + now rewrite IH.
    + now rewrite IH.
Qed.

(** The slice is nil exactly when the key is absent or holds [null]. *)
Lemma slice_is_nil (value : option json) (slice : option (list string)) :
  match value with
  | None => slice = None
  | Some v => Json.decodeSlice None v = Some slice
  end ->
  (slice = None <-> value = None \/ value = Some JNull).
Proof.
  destruct value as [v|].
  - intros Hv. split.
    + intros ->. right. f_equal.
      destruct v as [| | | |items|]; try discriminate; [reflexivity|].
      cbn [Json.decodeSlice] in Hv.
      destruct (Json.decodeItems items); discriminate.
    + intros [H|[= ->]]; [discriminate|]. now injection Hv as <-.
  - intros ->. split; [now left | reflexivity].
Qed.

Lemma zero_slice_V1 (name : string)
      (get : MetadataV1.t -> option (list string)) :
  In (name, get) listFieldsV1 -> get MetadataV1.zero = None.
Proof.
  intros Hfield. cbn [In listFieldsV1] in Hfield.
  repeat (destruct Hfield as [Hfield|Hfield];
          [injection Hfield as <- <-; reflexivity|]).
  contradiction.
Qed.

Lemma zero_slice_V2 (name : string)
      (get : MetadataV2.t -> option (list string)) :
  In (name, get) listFieldsV2 -> get MetadataV2.zero = None.
Proof.
  intros Hfield. cbn [In listFieldsV2] in Hfield.
  repeat (destruct Hfield as [Hfield|Hfield];
          [injection Hfield as <- <-; reflexivity|]).
  contradiction.
Qed.

(** A list field is among the missing fields of the decoded object exactly
    when the object has no member with its key or the last one holds
    [null]. *)
Lemma list_field_of_object_V1 (name : string) (ms : list (string * json))
      (meta : MetadataV1.t) :
  In name (map fst listFieldsV1) ->
  MetadataV1.Unmarshal (Document (JObject ms)) = Some meta ->
  (In name (missingFieldsV1 meta)
   <-> lastMember name ms = None \/ lastMember name ms = Some JNull).
Proof.
  intros Hname Hrun. apply in_map_iff in Hname as [[n get] [Hn Hfield]].
  cbn [fst] in Hn. subst n. cbn [MetadataV1.Unmarshal] in Hrun.
  rewrite (list_field_missing_V1 name get meta Hfield).
  apply slice_is_nil.
  pose proof (members_slice_V1 name get ms _ _ Hfield Hrun) as H.
  rewrite (zero_slice_V1 name get Hfield) in H. exact H.
Qed.

Lemma list_field_of_object_V2 (name : string) (ms : list (string * json))
      (meta : MetadataV2.t) :
  In name (map fst listFieldsV2) ->
  MetadataV2.Unmarshal (Document (JObject ms)) = Some meta ->
  (In name (missingFieldsV2 meta)
   <-> lastMember name ms = None \/ lastMember name ms = Some JNull).
Proof.
  intros Hname Hrun. apply in_map_iff in Hname as [[n get] [Hn Hfield]].
  cbn [fst] in Hn. subst n. cbn [MetadataV2.Unmarshal] in Hrun.
  rewrite (list_field_missing_V2 name get meta Hfield).
  apply slice_is_nil.
  pose proof (members_slice_V2 name get ms _ _ Hfield Hrun) as H.
  rewrite (zero_slice_V2 name get Hfield) in H. exact H.
Qed.

Lemma reports_report (missingFields : list string) (name : string) :
  reports (report missingFields) name <-> In name missingFields.
Proof.
  rewrite report_cases. unfold reports. destruct missingFields as [|f fs].
  - split; [intros [fields [H _]]; discriminate | contradiction].
  - split.
    + intros [fields [[= <-] Hin]]. exact Hin.
    + intros Hin. now exists (f :: fs).
Qed.

(** *** The fields of version 2 alone *)

(** A key of [type], [tags] or [conf], the fields version 2 adds. *)
Definition v2Only (key : string) : bool :=
  let k := Json.foldKey key in
  String.eqb k "type" || String.eqb k "tags" || String.eqb k "conf".

(** The object without the members of those keys. *)
Definition withoutV2Only (ms : list (string * json)) : list (string * json) :=
  filter (fun m => negb (v2Only (fst m))) ms.

(** The record of version 1 has no field for such a key: the member is
    skipped, whatever it holds. *)
Lemma member_v2Only (meta : MetadataV1.t) (key : string) (value : json) :
  v2Only key = true -> MetadataV1.member meta key value = Some meta.
Proof.
  unfold v2Only, MetadataV1.member. cbv zeta. intros H.
  apply orb_true_iff in H as [H|H]; [apply orb_true_iff in H as [H|H]|];
    apply String.eqb_eq in H; rewrite H; reflexivity.
Qed.

Lemma members_withoutV2Only (meta : MetadataV1.t) (ms : list (string * json)) :
  MetadataV1.members meta (withoutV2Only ms) = MetadataV1.members meta ms.
Proof.
  revert meta. induction ms as [|[key value] rest IH]; intros meta.
  - reflexivity.
  - unfold withoutV2Only in *. cbn [filter fst MetadataV1.members].
    destruct (v2Only key) eqn:Hkey; cbn [negb].
    + rewrite (member_v2Only meta key value Hkey). apply IH.
    + cbn [MetadataV1.members].
      destruct (MetadataV1.member meta key value); [apply IH | reflexivity].
Qed.

(** The names the chain of [if]s of [checkApgFileV1] can append, each with
    its test. *)
Lemma missingFieldsV1_fields (meta : MetadataV1.t) (name : string) :
  In name (missingFieldsV1 meta)
  <-> (name = "name" /\ MetadataV1.Name meta = "")
      \/ (name = "version" /\ MetadataV1.Version meta = "")
      \/ (name = "description" /\ MetadataV1.Description meta = "")
      \/ (name = "maintainer" /\ MetadataV1.Maintainer meta = "")
      \/ (name = "homepage" /\ MetadataV1.Homepage meta = "")
      \/ (name = "dependencies" /\ MetadataV1.Dependencies meta = None)
      \/ (name = "conflicts" /\ MetadataV1.Conflicts meta = None)
      \/ (name = "provides" /\ MetadataV1.Provides meta = None)
      \/ (name = "replaces" /\ MetadataV1.Replaces meta = None).
Proof.
  rewrite missingFieldsV1_schema, missing_spec. split.
  - intros [test [Hfield Htest]]. cbn [In Schema.v1] in Hfield.
    repeat (destruct Hfield as [Hfield|Hfield];
            [injection Hfield as <- <-|]); try contradiction.
    all: unfold Schema.scalar, Schema.listOf in Htest;
      first [ apply String.eqb_eq in Htest
            | match type of Htest with
              | isNil ?x = true =>
                  assert (x = None) by (destruct x; [discriminate | reflexivity])
              end ];
      tauto.
  - intros H.
    repeat (destruct H as [[-> H]|H];
            [eexists; split;
             [ cbn [In Schema.v1]; repeat (first [left; reflexivity | right])
             | unfold Schema.scalar, Schema.listOf; rewrite H; reflexivity ]|]).
    destruct H as [-> H]. eexists. split.
    + cbn [In Schema.v1]. repeat (first [left; reflexivity | right]).
    + unfold Schema.listOf. rewrite H. reflexivity.
Qed.

Section Validation.

Variable os : OS.

Lemma checkRequired_present (dir : string) (names : list string) (t : trace) :
  (forall name, In name names -> present os dir name) ->
  checkRequired os dir names t = (None, stats dir names ++ t).
Proof.
  revert t. induction names as [|name rest IH]; intros t Hall.
  - reflexivity.
  - cbn [checkRequired]. unfold bind, Stat.
    pose proof (Hall name (or_introl eq_refl) t) as Hname.
    assert (Hrest : checkRequired os dir rest
                      (EvStat (Filepath.Join [dir; name]) :: t)
                    = (None, stats dir (name :: rest) ++ t)).
    { rewrite IH by (intros n Hn; apply Hall; now right).
      unfold stats. cbn [map rev]. now rewrite <- app_assoc. }
    destruct (os_stat os t (Filepath.Join [dir; name]));
      [exact Hrest | contradiction | exact Hrest].
Qed.


(** With the three entries there and [metadata.json] readable, both
    functions get to [json.Unmarshal]. *)
Lemma checkApgFileV1_reads (dir : string) (fileData : content) (t : trace) :
  (forall name, In name required -> present os dir name) ->
  metadataIs os dir fileData ->
  fst (checkApgFileV1 os dir t)
  = match MetadataV1.Unmarshal fileData with
    | None => (None, Some ErrInvalidJSON, "bad")
    | Some meta => report (missingFieldsV1 meta)
    end.
Proof.
  intros Hall Hdata. unfold checkApgFileV1, bind.
  rewrite (checkRequired_present _ _ _ Hall). unfold ReadFile.
  rewrite Hdata. now destruct (MetadataV1.Unmarshal fileData).
Qed.

Lemma checkApgFileV2_reads (dir : string) (fileData : content) (t : trace) :
  (forall name, In name required -> present os dir name) ->
  metadataIs os dir fileData ->
  fst (checkApgFileV2 os dir t)
  = match MetadataV2.Unmarshal fileData with
    | None => (None, Some ErrInvalidJSON, "bad")
    | Some meta => report (missingFieldsV2 meta)
    end.
Proof.
  intros Hall Hdata. unfold checkApgFileV2, bind.
  rewrite (checkRequired_present _ _ _ Hall). unfold ReadFile.
  rewrite Hdata. now destruct (MetadataV2.Unmarshal fileData).
Qed.

Lemma validate_cases (dir : string) (apgVersion : Z) :
  (apgVersion = 2%Z /\ validate os dir apgVersion = checkApgFileV2 os dir)
  \/ (apgVersion <> 2%Z /\ validate os dir apgVersion = checkApgFileV1 os dir).
Proof.
  unfold validate. destruct (apgVersion =? 2)%Z eqn:E.
  - left. apply Z.eqb_eq in E. now split.
  - right. apply Z.eqb_neq in E. now split.
Qed.

Lemma checkApgFileV1_schema_error (dir : string) (t : trace)
      (fields : list string) :
  jsonErr (fst (checkApgFileV1 os dir t)) = Some (ErrMissingFields fields) ->
  exists meta, fields = missingFieldsV1 meta.
Proof.
  unfold checkApgFileV1, bind, ret, ReadFile.
  destruct (checkRequired os dir required t) as [[e|] t1]; [discriminate|].
  destruct (os_readFile os t1 _) as [fileData|]; [|discriminate].
  destruct (MetadataV1.Unmarshal fileData) as [meta|]; [|discriminate].
  rewrite report_cases.
  destruct (missingFieldsV1 meta) eqn:E; [discriminate|].
  unfold jsonErr. cbn [fst snd]. intros [= <-]. now exists meta.
Qed.

(** C5.  A required list field, in both versions, is satisfied by an
    empty list and not by an absent or null key.  With the three entries
    there and [metadata.json] holding a JSON object, [validate] gives a
    schema error that lists the field only if the object has no member
    with the key of the field or the last such member holds [null]; it
    does give that error whenever the object decodes and the key is absent
    or null; and it never lists a field whose key holds an array, the empty
    one included.  The fields are [dependencies], [conflicts], [provides]
    and [replaces], and [tags] and [conf] also when the selector is 2. *)
Theorem nil_list_is_missing_empty_list_is_not (dir : string)
        (apgVersion : Z) (t : trace) (ms : list (string * json))
        (name : string) :
  (forall n, In n required -> present os dir n) ->
  metadataIs os dir (Document (JObject ms)) ->
  In name (listFields apgVersion) ->
  let v := fst (validate os dir apgVersion t) in
  (reports v name ->
   lastMember name ms = None \/ lastMember name ms = Some JNull)
  /\ (decoded apgVersion (Document (JObject ms)) ->
      lastMember name ms = None \/ lastMember name ms = Some JNull ->
      reports v name)
  /\ (forall items,
         lastMember name ms = Some (JArray items) -> ~ reports v name).
Proof.
  intros Hall Hdata Hname. cbv zeta.
  assert (Hcore :
            (reports (fst (validate os dir apgVersion t)) name ->
             lastMember name ms = None \/ lastMember name ms = Some JNull)
            /\ (decoded apgVersion (Document (JObject ms)) ->
                lastMember name ms = None \/ lastMember name ms = Some JNull ->
                reports (fst (validate os dir apgVersion t)) name)).
  { unfold listFields, decoded in *.
    destruct (validate_cases dir apgVersion) as [[Hv ->]|[Hv ->]].
    - apply Z.eqb_eq in Hv. rewrite Hv in *.
      rewrite (checkApgFileV2_reads _ _ _ Hall Hdata).
      destruct (MetadataV2.Unmarshal (Document (JObject ms))) as [meta|] eqn:Hrun.
      + rewrite reports_report.
        rewrite (list_field_of_object_V2 name ms meta Hname Hrun). tauto.
      + split; [intros [fields [H _]]; discriminate|].
        intros H. now elim H.
    - apply Z.eqb_neq in Hv. rewrite Hv in *.
      rewrite (checkApgFileV1_reads _ _ _ Hall Hdata).
      destruct (MetadataV1.Unmarshal (Document (JObject ms))) as [meta|] eqn:Hrun.
      + rewrite reports_report.
        rewrite (list_field_of_object_V1 name ms meta Hname Hrun). tauto.
      + split; [intros [fields [H _]]; discriminate|].
        intros H. now elim H. }
  destruct Hcore as [Honly Hif]. split; [exact Honly|]. split; [exact Hif|].
  intros items Hitems Hrep. apply Honly in Hrep. rewrite Hitems in Hrep.
  destruct Hrep as [H|H]; discriminate.
Qed.

(** C6.  Once the metadata decodes, [validate] tests every required
    field of the chosen version: the result is success when the
    descriptor of that version finds no field missing, and otherwise one
    schema error that carries every field the descriptor finds missing,
    each required field being in the list exactly when its test finds it
    empty or nil. *)
Theorem schema_error_lists_every_missing_field (dir : string)
        (apgVersion : Z) (fileData : content) (t : trace) :
  (forall name, In name required -> present os dir name) ->
  metadataIs os dir fileData ->
  (apgVersion <> 2%Z ->
   forall meta, MetadataV1.Unmarshal fileData = Some meta ->
     fst (validate os dir apgVersion t)
     = match Schema.missing Schema.v1 meta with
       | [] => (None, None, "good")
       | fields => (None, Some (ErrMissingFields fields), "bad")
       end
     /\ (forall name,
            In name (Schema.missing Schema.v1 meta)
            <-> exists test, In (name, test) Schema.v1 /\ test meta = true))
  /\ (apgVersion = 2%Z ->
      forall meta, MetadataV2.Unmarshal fileData = Some meta ->
        fst (validate os dir apgVersion t)
        = match Schema.missing Schema.v2 meta with
          | [] => (None, None, "good")
          | fields => (None, Some (ErrMissingFields fields), "bad")
          end
        /\ (forall name,
               In name (Schema.missing Schema.v2 meta)
               <-> exists test, In (name, test) Schema.v2 /\ test meta = true)).
Proof.
  intros Hall Hdata.
  destruct (validate_cases dir apgVersion) as [[Hv Hrun]|[Hv Hrun]];
    rewrite Hrun; (split; [intros Hv'|intros Hv']); try contradiction.
  - intros meta Hmeta. split; [|intros name; apply missing_spec].
    rewrite (checkApgFileV2_reads _ _ _ Hall Hdata), Hmeta.
    rewrite missingFieldsV2_schema, report_cases.
    now destruct (Schema.missing Schema.v2 meta).
  - intros meta Hmeta. split; [|intros name; apply missing_spec].
    rewrite (checkApgFileV1_reads _ _ _ Hall Hdata), Hmeta.
    rewrite missingFieldsV1_schema, report_cases.
    now destruct (Schema.missing Schema.v1 meta).
Qed.



(** C9.  For every value of the version selector other than 2, zero,
    three and the negative ones included, [validate] does what it does for
    the value 1, with the same calls.  The fields of version 1 are the ones
    checked: once [metadata.json] decodes, the result is success when none
    of [name], [version], [description], [maintainer] and [homepage] is
    empty and none of [dependencies], [conflicts], [provides] and
    [replaces] is nil, and otherwise the schema error with exactly those of
    the nine that are.  The fields of version 2 alone are not required: no
    schema error lists [type], [tags] or [conf], and the members of the
    object with those keys play no part in what is decoded. *)
Theorem other_versions_are_version_1 (dir : string) (apgVersion : Z)
        (t : trace) :
  apgVersion <> 2%Z ->
  validate os dir apgVersion t = validate os dir 1 t
  /\ (forall fields,
         jsonErr (fst (validate os dir apgVersion t))
         = Some (ErrMissingFields fields) ->
         (forall name, In name fields -> In name (map fst Schema.v1))
         /\ ~ In "type" fields /\ ~ In "tags" fields /\ ~ In "conf" fields)
  /\ (forall fileData,
         (forall name, In name required -> present os dir name) ->
         metadataIs os dir fileData ->
         (MetadataV1.Unmarshal fileData = None ->
          fst (validate os dir apgVersion t)
          = (None, Some ErrInvalidJSON, "bad"))
         /\ (forall meta,
                MetadataV1.Unmarshal fileData = Some meta ->
                exists fields,
                  fst (validate os dir apgVersion t)
                  = match fields with
                    | [] => (None, None, "good")
                    | _ :: _ => (None, Some (ErrMissingFields fields), "bad")
                    end
                  /\ (forall name,
                         In name fields
                         <-> (name = "name" /\ MetadataV1.Name meta = "")
                             \/ (name = "version"
                                 /\ MetadataV1.Version meta = "")
                             \/ (name = "description"
                                 /\ MetadataV1.Description meta = "")
                             \/ (name = "maintainer"
                                 /\ MetadataV1.Maintainer meta = "")
                             \/ (name = "homepage"
                                 /\ MetadataV1.Homepage meta = "")
                             \/ (name = "dependencies"
                                 /\ MetadataV1.Dependencies meta = None)
                             \/ (name = "conflicts"
                                 /\ MetadataV1.Conflicts meta = None)
                             \/ (name = "provides"
                                 /\ MetadataV1.Provides meta = None)
                             \/ (name = "replaces"
                                 /\ MetadataV1.Replaces meta = None))))
  /\ (forall ms,
         MetadataV1.Unmarshal (Document (JObject (withoutV2Only ms)))
         = MetadataV1.Unmarshal (Document (JObject ms))).
Proof.
  intros Hv.
  destruct (validate_cases dir apgVersion) as [[Hv' _]|[_ Hrun]];
    [contradiction|].
  rewrite Hrun. split; [reflexivity|]. split; [|split].
  - intros fields Herr.
    destruct (checkApgFileV1_schema_error dir t fields Herr) as [meta ->].
    assert (Hnames : forall name,
               In name (missingFieldsV1 meta) -> In name (map fst Schema.v1)).
    { intros name Hin. rewrite missingFieldsV1_schema in Hin.
      apply missing_spec in Hin as [test [Hin _]].
      apply (in_map fst) in Hin. exact Hin. }
    split; [exact Hnames|].
    repeat split; intros Hin; apply Hnames in Hin; cbn in Hin;
      repeat (destruct Hin as [Hin|Hin]; [discriminate|]); contradiction.
  - intros fileData Hall Hdata.
    rewrite (checkApgFileV1_reads _ _ _ Hall Hdata). split.
    + intros ->. reflexivity.
    + intros meta ->. exists (missingFieldsV1 meta).
      split; [apply report_cases | apply missingFieldsV1_fields].
  - intros ms. cbn [MetadataV1.Unmarshal]. apply members_withoutV2Only.
Qed.

End Validation.

(** ** Examples *)

Example extract_plain :
  extractTarXz
    (holding [ Tar.mkHeader "data/" Tar.TypeDir 0 511 "";
               regular "data/bin/hello" 12;
               Tar.mkHeader "dev/null" "3" 0 438 "";
               regular "metadata.json" 120 ])
    "hello.apg" dest []
  = (None,
     [ EvClose "/tmp/apgcheck-12345678/metadata.json";
       EvCopyN "/tmp/apgcheck-12345678/metadata.json" 120;
       EvOpenFile "/tmp/apgcheck-12345678/metadata.json";
       EvMkdirAll "/tmp/apgcheck-12345678" 493;
       EvSkipping "3";
       EvClose "/tmp/apgcheck-12345678/data/bin/hello";
       EvCopyN "/tmp/apgcheck-12345678/data/bin/hello" 12;
       EvOpenFile "/tmp/apgcheck-12345678/data/bin/hello";
       EvMkdirAll "/tmp/apgcheck-12345678/data/bin" 493;
       EvMkdirAll "/tmp/apgcheck-12345678/data" 493 ]).
Proof. vm_compute. reflexivity. Qed.

Example clean_table :
  forallb (fun row => String.eqb (Filepath.Clean (fst row)) (snd row))
    CleanTable.rows = true.
Proof. vm_compute. reflexivity. Qed.

Example validate_complete :
  fst (validate (describing withEmptyDependencies) dest 1 [])
  = (None, None, "good").
Proof. vm_compute. reflexivity. Qed.

Example fold_key :
  Json.foldKey "Dependencies" = "dependencies"
  /\ Json.foldKey (String "v" (String "e" (String "r" (String "197"
       (String "191" "ion"))))) = "version".
Proof. split; vm_compute; reflexivity. Qed.

(** ** The claims at concrete inputs *)

Ltac all_present :=
  let name := fresh "name" in
  let t := fresh "t" in
  intros name _ t; cbn; discriminate.

(** A link into the destination tree, target [/etc/passwd]. *)
Lemma links_are_refused_witness :
  let h := symlink "data/x" "/etc/passwd" in
  (exists e,
      extractTarXz (holding [h]) "hello.apg" dest [] = (Some e, [])
      /\ kindOf e = PathSecurityViolation
      /\ (passesPathGuards (holding [h]) dest h = true -> e = ErrLinks "data/x"))
  /\ (forall target,
         processEntry (holding [h]) dest (Tar.withLinkname h target) []
         = processEntry (holding [h]) dest h []).
Proof.
  cbv zeta.
  apply (links_are_refused (holding [symlink "data/x" "/etc/passwd"])
           "hello.apg" dest dest [] [] (symlink "data/x" "/etc/passwd") [] []).
  - reflexivity.
  - reflexivity.
  - reflexivity.
  - left. reflexivity.
Defined.

(** The names [notes..] and [dir/file..] have no [..] element. *)
Lemma dotdot_suffix_is_refused_witness :
  ~ In ".." (Filepath.elements (Filepath.Clean "notes.."))
  /\ (exists e,
         extractTarXz (holding [regular "notes.." 1]) "hello.apg" dest []
         = (Some e, [])
         /\ fromTraversalGuard e = true
         /\ (Filepath.IsAbs (Filepath.Clean "notes..") = false ->
             e = ErrTraversal "notes.."))
  /\ (exists e,
         extractTarXz (holding [regular "dir/file.." 1]) "hello.apg" dest []
         = (Some e, [])
         /\ fromTraversalGuard e = true
         /\ (Filepath.IsAbs (Filepath.Clean "dir/file..") = false ->
             e = ErrTraversal "dir/file..")).
Proof.
  split; [|split].
  - vm_compute. intros [H|[]]. discriminate H.
  - apply (dotdot_suffix_is_refused (holding [regular "notes.." 1])
             "hello.apg" dest dest [] [] (regular "notes.." 1) [] []);
      reflexivity.
  - apply (dotdot_suffix_is_refused (holding [regular "dir/file.." 1])
             "hello.apg" dest dest [] [] (regular "dir/file.." 1) [] []);
      reflexivity.
Defined.

(** One byte over 500 MiB, after an entry of exactly 500 MiB. *)
Lemma size_guard_witness :
  let full := regular "data/full" 524288000 in
  let big := regular "data/big" 524288001 in
  exists e,
    extractTarXz (holding [full; big]) "hello.apg" dest []
    = (Some e,
       [ EvClose "/tmp/apgcheck-12345678/data/full";
         EvCopyN "/tmp/apgcheck-12345678/data/full" 524288000;
         EvOpenFile "/tmp/apgcheck-12345678/data/full";
         EvMkdirAll "/tmp/apgcheck-12345678/data" 493 ])
    /\ (passesPathGuards (holding [full; big]) dest big = true ->
        e = ErrTooLarge "data/big" 524288001).
Proof.
  cbv zeta.
  apply (size_guard
           (holding [regular "data/full" 524288000; regular "data/big" 524288001])
           "hello.apg" dest dest [NextHeader (regular "data/full" 524288000)] []
           (regular "data/big" 524288001) []).
  - reflexivity.
  - reflexivity.
  - reflexivity.
  - reflexivity.
  - reflexivity.
Defined.

(** The name [a/../../etc/passwd] cleans to [../etc/passwd]. *)
Lemma dotdot_element_is_refused_witness :
  extractTarXz
    (holding [regular "data/ok" 1; regular "a/../../etc/passwd" 1;
              regular "later" 1])
    "hello.apg" dest []
  = (Some (ErrTraversal "a/../../etc/passwd"),
     [ EvClose "/tmp/apgcheck-12345678/data/ok";
       EvCopyN "/tmp/apgcheck-12345678/data/ok" 1;
       EvOpenFile "/tmp/apgcheck-12345678/data/ok";
       EvMkdirAll "/tmp/apgcheck-12345678/data" 493 ]).
Proof.
  apply (dotdot_element_is_refused
           (holding [regular "data/ok" 1; regular "a/../../etc/passwd" 1;
                     regular "later" 1])
           "hello.apg" dest dest [NextHeader (regular "data/ok" 1)]
           [NextHeader (regular "later" 1)]
           (regular "a/../../etc/passwd" 1) []).
  - reflexivity.
  - reflexivity.
  - reflexivity.
  - vm_compute. left. reflexivity.
Defined.

(** C2 as stated fails: the declared name [a/../b] has a [..] element, and
    the entry is extracted as [b]. *)
Lemma unclean_dotdot_is_extracted :
  In ".." (Filepath.elements "a/../b")
  /\ Filepath.Clean "a/../b" = "b"
  /\ extractTarXz (holding [regular "a/../b" 1]) "hello.apg" dest []
     = (None,
        [ EvClose "/tmp/apgcheck-12345678/b";
          EvCopyN "/tmp/apgcheck-12345678/b" 1;
          EvOpenFile "/tmp/apgcheck-12345678/b";
          EvMkdirAll "/tmp/apgcheck-12345678" 493 ]).
Proof.
  split; [|split].
  - vm_compute. right. left. reflexivity.
  - vm_compute. reflexivity.
  - vm_compute. reflexivity.
Qed.

(** The target of [../x] is outside the destination, and the traversal
    test has refused the name before; with the root as destination the
    containment test itself refuses every name but the destination. *)
Lemma containment_guard_witness :
  (exists e,
      extractTarXz (holding [regular "../x" 1]) "hello.apg" dest [] = (Some e, [])
      /\ kindOf e = PathSecurityViolation
      /\ (Filepath.IsAbs (Filepath.Clean "../x") = false ->
          traversal (Filepath.Clean "../x") = false ->
          e = ErrOutside "../x"))
  /\ (exists e,
         extractTarXz (holding [regular "a" 1]) "hello.apg" "/" [] = (Some e, [])
         /\ kindOf e = PathSecurityViolation
         /\ (Filepath.IsAbs (Filepath.Clean "a") = false ->
             traversal (Filepath.Clean "a") = false ->
             e = ErrOutside "a")).
Proof.
  split.
  - apply (containment_guard (holding [regular "../x" 1]) "hello.apg" dest dest
             "/tmp/x" [] [] (regular "../x" 1) [] []).
    + reflexivity.
    + reflexivity.
    + reflexivity.
    + reflexivity.
    + discriminate.
    + intros more H. discriminate H.
  - apply (containment_guard (holding [regular "a" 1]) "hello.apg" "/" "/" "/a"
             [] [] (regular "a" 1) [] []).
    + reflexivity.
    + reflexivity.
    + reflexivity.
    + reflexivity.
    + discriminate.
    + intros more H. discriminate H.
Defined.

(** C1 as stated fails: with [link] in the destination a symbolic link to
    [/etc], the canonical path of the target of [link/passwd] is
    [/etc/passwd], outside the canonical destination, and the entry is
    extracted. *)
Lemma symlink_element_is_followed :
  let os :=
    calm (TarXz [NextHeader (regular "link/passwd" 1)]) (Malformed "")
      [("/tmp/apgcheck-12345678/link", "/etc")] in
  Spec.canonical os dest = Some dest
  /\ Spec.canonical os
       (Filepath.Join [dest; Filepath.Clean "link/passwd"])
     = Some "/etc/passwd"
  /\ Spec.within dest "/etc/passwd" = false
  /\ extractTarXz os "hello.apg" dest []
     = (None,
        [ EvClose "/tmp/apgcheck-12345678/link/passwd";
          EvCopyN "/tmp/apgcheck-12345678/link/passwd" 1;
          EvOpenFile "/tmp/apgcheck-12345678/link/passwd";
          EvMkdirAll "/tmp/apgcheck-12345678/link" 493 ]).
Proof.
  cbv zeta. repeat split; vm_compute; reflexivity.
Qed.

(** A name of 256 bytes under the root as destination. *)
Lemma guard_order_witness :
  processEntry (holding []) "/" (regular longName 1) []
  = (Some (ErrOutside longName), []).
Proof.
  apply (proj2 (proj2 (guard_order (holding []) "/" (regular longName 1) []))
           (String "/" longName)); reflexivity.
Defined.

(** C8 as stated fails: the cleaned name is longer than 255 bytes and the
    target is outside the destination, and the error is the containment
    one, not the one about the length. *)
Lemma containment_comes_before_length :
  (255 < String.length (Filepath.Clean longName))%nat
  /\ Filepath.Abs (Some "/") (Filepath.Join ["/"; Filepath.Clean longName])
     = Some (String "/" longName)
  /\ outside "/" (String "/" longName) = true
  /\ extractTarXz (holding [regular longName 1]) "hello.apg" "/" []
     = (Some (ErrOutside longName), [])
  /\ ErrOutside longName <> ErrTooLong longName.
Proof.
  split; [|split; [|split; [|split]]].
  - apply Nat.ltb_lt. vm_compute. reflexivity.
  - vm_compute. reflexivity.
  - vm_compute. reflexivity.
  - vm_compute. reflexivity.
  - discriminate.
Qed.

(** The complete version 1 object without the key [dependencies] is
    refused with that field in the list; with the key holding the empty
    array the field is not reported.  Under version 2 an object whose
    [tags] is [null] and whose [conf] is the empty array is refused with
    [tags] in the list and [conf] not in it. *)
Lemma nil_list_is_missing_empty_list_is_not_witness :
  reports (fst (validate (describing withoutDependencies) dest 1 []))
    "dependencies"
  /\ ~ reports (fst (validate (describing withEmptyDependencies) dest 1 []))
         "dependencies"
  /\ reports (fst (validate (describing sparse) dest 2 [])) "tags"
  /\ ~ reports (fst (validate (describing sparse) dest 2 [])) "conf".
Proof.
  split; [|split; [|split]].
  - refine (proj1 (proj2 (nil_list_is_missing_empty_list_is_not
                            (describing withoutDependencies) dest 1 []
                            (before ++ after) "dependencies" _ _ _)) _ _).
    + all_present.
    + intros t. reflexivity.
    + left. reflexivity.
    + discriminate.
    + left. reflexivity.
  - refine (proj2 (proj2 (nil_list_is_missing_empty_list_is_not
                            (describing withEmptyDependencies) dest 1 []
                            (before ++ ("dependencies", JArray []) :: after)
                            "dependencies" _ _ _)) [] _).
    + all_present.
    + intros t. reflexivity.
    + left. reflexivity.
    + reflexivity.
  - refine (proj1 (proj2 (nil_list_is_missing_empty_list_is_not
                            (describing sparse) dest 2 [] _ "tags" _ _ _)) _ _).
    + all_present.
    + intros t. reflexivity.
    + left. reflexivity.
    + discriminate.
    + right. reflexivity.
  - refine (proj2 (proj2 (nil_list_is_missing_empty_list_is_not
                            (describing sparse) dest 2 [] _ "conf" _ _ _)) [] _).
    + all_present.
    + intros t. reflexivity.
    + cbn. tauto.
    + reflexivity.
Defined.

(** A version 2 object with a name, an empty version, [tags] null and an
    empty [conf]: ten fields are reported together. *)
Lemma schema_error_lists_every_missing_field_witness :
  fst (validate (describing sparse) dest 2 [])
  = (None,
     Some (ErrMissingFields
             [ "version"; "type"; "description"; "maintainer"; "homepage";
               "tags"; "dependencies"; "conflicts"; "provides"; "replaces" ]),
     "bad").
Proof.
  refine (proj1 (proj2 (schema_error_lists_every_missing_field
                          (describing sparse) dest 2 sparse [] _ _)
                   eq_refl _ eq_refl)).
  - all_present.
  - intros t. reflexivity.
Defined.


(** The selectors 0, 3 and -1 on a complete version 1 object that has no
    [type], [tags] or [conf]: the calls and the verdict of the selector 1,
    which is success, where the selector 2 reports the three fields.  And
    the selector 3 on an object with an empty [version] and a null [tags]:
    [version] is reported, [tags] is not. *)
Lemma other_versions_are_version_1_witness :
  validate (describing withEmptyDependencies) dest 0 []
  = validate (describing withEmptyDependencies) dest 1 []
  /\ validate (describing withEmptyDependencies) dest 3 []
     = validate (describing withEmptyDependencies) dest 1 []
  /\ validate (describing withEmptyDependencies) dest (-1) []
     = validate (describing withEmptyDependencies) dest 1 []
  /\ fst (validate (describing withEmptyDependencies) dest 0 [])
     = (None, None, "good")
  /\ fst (validate (describing withEmptyDependencies) dest 2 [])
     = (None, Some (ErrMissingFields ["type"; "tags"; "conf"]), "bad")
  /\ (exists fields,
         fst (validate (describing sparse) dest 3 [])
         = (None, Some (ErrMissingFields fields), "bad")
         /\ In "version" fields /\ ~ In "name" fields /\ ~ In "tags" fields).
Proof.
  split; [|split; [|split; [|split; [|split]]]].
  - apply (other_versions_are_version_1 (describing withEmptyDependencies)
             dest 0 []). lia.
  - apply (other_versions_are_version_1 (describing withEmptyDependencies)
             dest 3 []). lia.
  - apply (other_versions_are_version_1 (describing withEmptyDependencies)
             dest (-1) []). lia.
  - reflexivity.
  - reflexivity.
  - assert (Hv : (3 <> 2)%Z) by lia.
    assert (Hall : forall name,
               In name required -> present (describing sparse) dest name)
      by all_present.
    assert (Hdata : metadataIs (describing sparse) dest sparse)
      by (intros t; reflexivity).
    destruct (proj2 (proj1 (proj2 (proj2 (other_versions_are_version_1
                                            (describing sparse) dest 3 [] Hv)))
                       sparse Hall Hdata) _ eq_refl)
      as [fields [Hrun Hiff]].
    exists fields.
    assert (Hin : In "version" fields)
      by (apply Hiff; right; left; split; reflexivity).
    destruct fields as [|f fs]; [contradiction|].
    split; [exact Hrun|]. split; [exact Hin|].
    split; intros H; apply Hiff in H;
      repeat (destruct H as [[H1 H2]|H];
              [first [discriminate H1 | discriminate H2]|]);
      destruct H as [H1 H2]; discriminate H1.
Defined.

(** * The rest of the program *)

(** ** The shape of a cleaned path *)

(** An element [Clean] writes as it is: no separator in it, not empty and
    not [.]. *)
Definition plain (e : string) : Prop := slashFree e /\ e <> "" /\ e <> ".".

(** In what [Clean] has written, last element first, a [..] has only [..]
    before it. *)
Fixpoint dotdotsFirst (st : list string) : Prop :=
  match st with
  | [] => True
  | e :: below => (e = ".." -> Forall (eq "..") below) /\ dotdotsFirst below
  end.

Definition stacked (rooted : bool) (st : list string) : Prop :=
  Forall plain st /\ (rooted = true -> ~ In ".." st) /\ dotdotsFirst st.

(** The end of [Clean]: the elements joined, after the separator for a
    rooted path, and [.] for nothing. *)
Definition render (rooted : bool) (out : list string) : string :=
  let body := Strings.Join out Filepath.Separator in
  if rooted then (Filepath.Separator ++ body)%string
  else if String.eqb body "" then "." else body.

Lemma stacked_nil (rooted : bool) : stacked rooted [].
Proof.
  split; [constructor | split; [intros _ [] | exact I]].
Qed.

Lemma stacked_tail (rooted : bool) (e : string) (st : list string) :
  stacked rooted (e :: st) -> stacked rooted st.
Proof.
  intros [Hall [Hdd Hord]]. inversion Hall; subst. split; [|split].
  - assumption.
  - intros Hr Hin. apply (Hdd Hr). now right.
  - apply Hord.
Qed.

Lemma stacked_app_r (rooted : bool) (upper st : list string) :
  stacked rooted (upper ++ st) -> stacked rooted st.
Proof.
  induction upper as [|e upper IH]; [trivial|].
  intros H. apply IH. exact (stacked_tail _ _ _ H).
Qed.

Lemma dotdotsFirst_none (st : list string) :
  ~ In ".." st -> dotdotsFirst st.
Proof.
  induction st as [|e st IH]; intros Hno; [exact I|]. split.
  - intros ->. exfalso. apply Hno. now left.
  - apply IH. intros Hin. apply Hno. now right.
Qed.

Lemma cleanElement_stacked (rooted : bool) (st : list string) (e : string) :
  slashFree e -> stacked rooted st ->
  stacked rooted (Filepath.cleanElement rooted st e).
Proof.
  intros He Hst. unfold Filepath.cleanElement.
  destruct (String.eqb e "") eqn:E0; [exact Hst|].
  destruct (String.eqb e ".") eqn:E1; [exact Hst|].
  apply String.eqb_neq in E0. apply String.eqb_neq in E1.
  assert (Hplain : plain e) by (repeat split; assumption).
  destruct Hst as [Hall [Hdd Hord]].
  destruct (String.eqb e "..") eqn:E2.
  - apply String.eqb_eq in E2. destruct st as [|last before].
    + destruct rooted; [apply stacked_nil|].
      split; [|split].
      * repeat constructor; assumption.
      * discriminate.
      * cbn. split; [intros _; constructor | exact I].
    + destruct (String.eqb last "..") eqn:E3.
      * apply String.eqb_eq in E3. split; [|split].
        -- constructor; assumption.
        -- intros Hr. exfalso. apply (Hdd Hr). left. now symmetry.
        -- cbn [dotdotsFirst]. split; [|exact Hord].
           intros _. constructor; [now symmetry|]. now apply (proj1 Hord).
      * apply (stacked_tail rooted last before). split; [|split]; assumption.
  - apply String.eqb_neq in E2. split; [|split].
    + constructor; assumption.
    + intros Hr [Heq|Hin]; [now apply E2 | now apply (Hdd Hr)].
    + cbn [dotdotsFirst]. split; [|exact Hord]. intros Heq. now elim E2.
Qed.

Lemma fold_cleanElement_stacked (rooted : bool) (es st : list string) :
  Forall slashFree es -> stacked rooted st ->
  stacked rooted (fold_left (Filepath.cleanElement rooted) es st).
Proof.
  revert st. induction es as [|e es IH]; intros st Hes Hst; [exact Hst|].
  inversion Hes; subst. cbn [fold_left].
  apply IH; [assumption | now apply cleanElement_stacked].
Qed.

(** An element that may stand on what is written is written. *)
Lemma cleanElement_push (rooted : bool) (st : list string) (e : string) :
  stacked rooted (e :: st) -> Filepath.cleanElement rooted st e = e :: st.
Proof.
  intros [Hall [Hdd Hord]]. inversion Hall as [|? ? [_ [H0 H1]] _]; subst.
  unfold Filepath.cleanElement.
  apply String.eqb_neq in H0. apply String.eqb_neq in H1. rewrite H0, H1.
  destruct (String.eqb e "..") eqn:E2; [|reflexivity].
  apply String.eqb_eq in E2. subst e.
  destruct st as [|last before].
  - destruct rooted; [|reflexivity].
    exfalso. apply (Hdd eq_refl). now left.
  - pose proof (proj1 Hord eq_refl) as Hbelow.
    inversion Hbelow as [|? ? Hlast _]; subst. reflexivity.
Qed.

Lemma fold_cleanElement_push (rooted : bool) (es st : list string) :
  stacked rooted (rev es ++ st) ->
  fold_left (Filepath.cleanElement rooted) es st = rev es ++ st.
Proof.
  revert st. induction es as [|e es IH]; intros st Hst; [reflexivity|].
  cbn [fold_left rev] in *. rewrite <- app_assoc in Hst. cbn [app] in Hst.
  rewrite cleanElement_push by exact (stacked_app_r _ _ _ Hst).
  rewrite IH by exact Hst. now rewrite <- app_assoc.
Qed.

Lemma Clean_render (path : string) :
  path <> "" ->
  Filepath.Clean path
  = render (Filepath.IsAbs path)
      (rev (fold_left (Filepath.cleanElement (Filepath.IsAbs path))
              (Filepath.elements path) [])).
Proof.
  intros Hne. unfold Filepath.Clean, render.
  apply String.eqb_neq in Hne. now rewrite Hne.
Qed.

Lemma Clean_stacked (path : string) :
  stacked (Filepath.IsAbs path)
    (fold_left (Filepath.cleanElement (Filepath.IsAbs path))
       (Filepath.elements path) []).
Proof.
  apply fold_cleanElement_stacked; [apply elements_slashFree | apply stacked_nil].
Qed.

Lemma Join_cons_not_empty (e : string) (out : list string) :
  e <> "" -> Strings.Join (e :: out) Filepath.Separator <> "".
Proof.
  intros He. unfold Strings.Join. destruct e as [|c e]; [contradiction|].
  destruct out; discriminate.
Qed.

Lemma Join_relative (e : string) (out : list string) :
  plain e -> Filepath.IsAbs (Strings.Join (e :: out) Filepath.Separator) = false.
Proof.
  intros [Hfree [Hne _]]. destruct e as [|c e]; [contradiction|].
  apply slashFree_inv in Hfree as [Hc _].
  unfold Filepath.IsAbs, Strings.Join. destruct out; cbn; now rewrite Hc.
Qed.

Lemma plain_slashFree (out : list string) :
  Forall plain out -> Forall slashFree out.
Proof.
  intros H. eapply Forall_impl; [|exact H]. now intros e [He _].
Qed.

(** Cleaning what [Clean] has made changes nothing. *)
Lemma Clean_of_render (rooted : bool) (out : list string) :
  stacked rooted (rev out) ->
  Filepath.Clean (render rooted out) = render rooted out.
Proof.
  intros Hst.
  assert (Hall : Forall plain out).
  { destruct Hst as [Hall _]. apply Forall_rev in Hall.
    now rewrite rev_involutive in Hall. }
  assert (Hfold : fold_left (Filepath.cleanElement rooted) out [] = rev out).
  { rewrite fold_cleanElement_push; rewrite app_nil_r; [reflexivity | exact Hst]. }
  destruct rooted.
  - assert (Hel : Filepath.elements (render true out)
                  = "" :: Filepath.elements (Strings.Join out Filepath.Separator))
      by exact (elements_cons "/" _).
    rewrite Clean_render by (unfold render; discriminate).
    change (Filepath.IsAbs (render true out)) with true.
    rewrite Hel. cbn [fold_left].
    change (Filepath.cleanElement true [] "") with (@nil string).
    destruct out as [|e out]; [reflexivity|].
    rewrite elements_Join by (try discriminate; now apply plain_slashFree).
    now rewrite Hfold, rev_involutive.
  - destruct out as [|e out]; [reflexivity|].
    inversion Hall as [|? ? He _]; subst.
    assert (Hbody : render false (e :: out)
                    = Strings.Join (e :: out) Filepath.Separator).
    { unfold render.
      destruct (String.eqb (Strings.Join (e :: out) Filepath.Separator) "")
        eqn:E; [|reflexivity].
      apply String.eqb_eq in E.
      now elim (Join_cons_not_empty e out (proj1 (proj2 He))). }
    rewrite Hbody at 1.
    rewrite Clean_render by (apply Join_cons_not_empty, He).
    rewrite (Join_relative e out He).
    rewrite elements_Join by (try discriminate; now apply plain_slashFree).
    now rewrite Hfold, rev_involutive.
Qed.

Lemma Clean_idempotent (path : string) :
  Filepath.Clean (Filepath.Clean path) = Filepath.Clean path.
Proof.
  destruct (string_dec path "") as [->|Hne]; [reflexivity|].
  rewrite (Clean_render path Hne). apply Clean_of_render.
  rewrite rev_involutive. apply Clean_stacked.
Qed.

(** ** Where the target of an entry lies *)

Lemma elements_sep_app (a b : string) :
  Filepath.elements (a ++ "/" ++ b)
  = Filepath.elements a ++ Filepath.elements b.
Proof.
  induction a as [|c a IH].
  - exact (elements_cons "/" b).
  - change (String c a ++ "/" ++ b)%string with (String c (a ++ "/" ++ b)).
    rewrite !elements_cons, IH.
    pose proof (elements_not_nil a) as Hne.
    destruct (Filepath.elements a) as [|e es]; [contradiction|].
    now destruct (Ascii.eqb c "/").
Qed.

Lemma Join_app (out1 out2 : list string) :
  out1 <> [] -> out2 <> [] ->
  Strings.Join (out1 ++ out2) "/"
  = (Strings.Join out1 "/" ++ "/" ++ Strings.Join out2 "/")%string.
Proof.
  unfold Strings.Join. intros H1 H2.
  induction out1 as [|e out1 IH]; [contradiction|].
  destruct out1 as [|e' out1].
  - destruct out2 as [|e2 out2]; [contradiction | reflexivity].
  - change (String.concat "/" ((e :: e' :: out1) ++ out2))
      with (e ++ "/" ++ String.concat "/" ((e' :: out1) ++ out2))%string.
    rewrite IH by discriminate.
    change (String.concat "/" (e :: e' :: out1))
      with (e ++ "/" ++ String.concat "/" (e' :: out1))%string.
    now rewrite !append_assoc.
Qed.

Lemma Clean_not_empty (path : string) : Filepath.Clean path <> "".
Proof.
  unfold Filepath.Clean. destruct (String.eqb path ""); [discriminate|].
  destruct (Filepath.IsAbs path); [discriminate|].
  destruct (String.eqb _ "") eqn:E; [discriminate|].
  now apply String.eqb_neq in E.
Qed.

(** A cleaned name that passed the two lexical tests is [.] or some plain
    elements, none of them [..], joined. *)
Lemma accepted_name_shape (name : string) :
  Filepath.IsAbs (Filepath.Clean name) = false ->
  traversal (Filepath.Clean name) = false ->
  Filepath.Clean name = "."
  \/ exists out,
       out <> [] /\ Filepath.Clean name = Strings.Join out "/"
       /\ Forall plain out /\ ~ In ".." out.
Proof.
  intros Hrel Htrav.
  destruct (string_dec name "") as [->|Hne]; [now left|].
  pose proof (Clean_stacked name) as Hst.
  rewrite (Clean_render name Hne) in *.
  set (out := rev (fold_left _ _ _)) in *.
  destruct (Filepath.IsAbs name); [discriminate|].
  assert (Hall : Forall plain out) by (apply Forall_rev, Hst).
  destruct out as [|e out'] eqn:Eout; [now left|]. right.
  inversion Hall as [|? ? He _]; subst.
  assert (Hbody : render false (e :: out') = Strings.Join (e :: out') "/").
  { unfold render.
    destruct (String.eqb (Strings.Join (e :: out') Filepath.Separator) "")
      eqn:E; [|reflexivity].
    apply String.eqb_eq in E.
    now elim (Join_cons_not_empty e out' (proj1 (proj2 He))). }
  rewrite Hbody in *. exists (e :: out'). repeat split; try assumption.
  - discriminate.
  - intros Hin.
    rewrite dotdot_element_caught in Htrav; [discriminate|].
    change "/" with Filepath.Separator.
    rewrite elements_Join by (try discriminate; now apply plain_slashFree).
    exact Hin.
Qed.

(** An absolute path that is its own cleaned form is the separator and
    some plain elements joined. *)
Lemma clean_absolute_shape (absDest : string) :
  Filepath.IsAbs absDest = true ->
  Filepath.Clean absDest = absDest ->
  exists out,
    absDest = render true out
    /\ fold_left (Filepath.cleanElement true) (Filepath.elements absDest) []
       = rev out
    /\ stacked true (rev out).
Proof.
  intros Habs Hclean.
  assert (Hne : absDest <> "") by (intros ->; discriminate).
  pose proof (Clean_stacked absDest) as Hst.
  rewrite (Clean_render absDest Hne), Habs in Hclean. rewrite Habs in Hst.
  exists (rev (fold_left (Filepath.cleanElement true)
                 (Filepath.elements absDest) [])).
  rewrite rev_involutive. split; [now symmetry | split; [reflexivity | exact Hst]].
Qed.

(** The target of an entry whose name passed the lexical tests: the
    destination for the name [.], and otherwise the destination, a separator
    and the cleaned name, the separator being the root itself when the
    destination is the root. *)
Lemma target_shape (absDest name : string) :
  Filepath.IsAbs absDest = true ->
  Filepath.Clean absDest = absDest ->
  Filepath.IsAbs (Filepath.Clean name) = false ->
  traversal (Filepath.Clean name) = false ->
  Filepath.Join [absDest; Filepath.Clean name]
  = if String.eqb (Filepath.Clean name) "." then absDest
    else if String.eqb absDest "/" then ("/" ++ Filepath.Clean name)%string
         else (absDest ++ "/" ++ Filepath.Clean name)%string.
Proof.
  intros Habs Hclean Hrel Htrav.
  destruct (clean_absolute_shape absDest Habs Hclean)
    as [out0 [Hdest [Hfold0 Hst0]]].
  assert (Hne : absDest <> "") by (intros ->; discriminate).
  assert (Hjoin : Filepath.Join [absDest; Filepath.Clean name]
                  = Filepath.Clean (absDest ++ "/" ++ Filepath.Clean name)).
  { cbn [Filepath.Join]. apply String.eqb_neq in Hne. now rewrite Hne. }
  assert (Hx : Filepath.IsAbs (absDest ++ "/" ++ Filepath.Clean name) = true).
  { destruct absDest as [|c d]; [discriminate|]. exact Habs. }
  rewrite Hjoin, Clean_render by (destruct absDest; discriminate).
  rewrite Hx, elements_sep_app, fold_left_app, Hfold0.
  destruct (accepted_name_shape name Hrel Htrav)
    as [Hdot | [out [Hout [Hc [Hall Hno]]]]].
  - rewrite Hdot. cbn [Filepath.elements Ascii.eqb Bool.eqb fold_left].
    change (Filepath.cleanElement true (rev out0) ".") with (rev out0).
    now rewrite rev_involutive.
  - assert (Hdot : String.eqb (Filepath.Clean name) "." = false).
    { apply String.eqb_neq. intros Heq.
      assert (Hel : Filepath.elements (Filepath.Clean name) = out).
      { rewrite Hc. change "/" with Filepath.Separator.
        apply elements_Join; [assumption | now apply plain_slashFree]. }
      rewrite Heq in Hel. cbn in Hel. subst out.
      inversion Hall as [|? ? [_ [_ Hd]] _]. now apply Hd. }
    rewrite Hdot, Hc. change "/" with Filepath.Separator at 1.
    rewrite elements_Join by (try assumption; now apply plain_slashFree).
    rewrite fold_cleanElement_push.
    + rewrite rev_app_distr, !rev_involutive.
      destruct out0 as [|e0 out0'].
      * rewrite Hdest. reflexivity.
      * assert (Hroot : String.eqb absDest "/" = false).
        { apply String.eqb_neq. rewrite Hdest. unfold render.
          destruct Hst0 as [Hall0 _]. apply Forall_rev in Hall0.
          rewrite rev_involutive in Hall0.
          inversion Hall0 as [|? ? [_ [He0 _]] _]; subst.
          intros Heq. injection Heq as Heq.
          now apply (Join_cons_not_empty e0 out0' He0). }
        rewrite Hroot, Hdest. unfold render.
        change Filepath.Separator with "/".
        rewrite Join_app by (assumption || discriminate). reflexivity.
    + destruct Hst0 as [Hall0 [Hno0 _]].
      assert (Hnone : ~ In ".." (rev out ++ rev out0)).
      { intros Hin. apply in_app_or in Hin as [Hin|Hin].
        - apply Hno. now apply in_rev.
        - now apply (Hno0 eq_refl). }
      split; [|split].
      * apply Forall_app. split; [now apply Forall_rev | assumption].
      * intros _. exact Hnone.
      * now apply dotdotsFirst_none.
Qed.

(** ** More about the extractor *)

(** Equal to the destination or the destination, a separator and more. *)
Definition inside (absDest path : string) : Prop :=
  path = absDest \/ exists more, path = (absDest ++ "/" ++ more)%string.

(** What one entry with target [target] may do: create the target or its
    parent directory, open, fill and close the target, print the notice. *)
Definition touches (target : string) (e : event) : Prop :=
  match e with
  | EvMkdirAll path perm =>
      (path = target /\ Z.land perm 493 = perm)
      \/ (path = Filepath.Dir target /\ perm = 493%Z)
  | EvOpenFile path | EvCopyN path _ | EvClose path => path = target
  | EvSkipping _ => True
  | EvStat _ | EvReadFile _ => False
  end.

Definition confined (absDest : string) (e : event) : Prop :=
  exists target, inside absDest target /\ touches target e.

(** A cleaned name the guards let through. *)
Definition sanitized (cleanPath : string) : Prop :=
  Filepath.IsAbs cleanPath = false
  /\ ~ In ".." (Filepath.elements cleanPath)
  /\ (String.length cleanPath <= 255)%nat
  /\ Strings.ContainsAny cleanPath (String "000" EmptyString) = false.

(** An item of the stream that does not stop the extraction, the calls of
    the system permitting. *)
Definition acceptable (os : OS) (absDest : string) (item : next) : Prop :=
  match item with
  | NextError => False
  | NextHeader h =>
      passesPathGuards os absDest h = true
      /\ Tar.Typeflag h <> Tar.TypeSymlink
      /\ Tar.Typeflag h <> Tar.TypeLink
      /\ (Tar.Typeflag h = Tar.TypeReg -> (Tar.Size h <= 524288000)%Z)
  end.

Lemma outside_false_inside (absDest path : string) :
  outside absDest path = false -> inside absDest path.
Proof.
  unfold outside, inside. intros H.
  apply andb_false_iff in H as [H|H]; apply negb_false_iff in H.
  - right. apply HasPrefix_split in H as [more ->]. exists more.
    now rewrite append_assoc.
  - left. now apply String.eqb_eq.
Qed.

Lemma Abs_clean (getwd : option string) (path abs : string) :
  Filepath.Abs getwd path = Some abs -> abs <> "" -> Filepath.Clean abs = abs.
Proof.
  unfold Filepath.Abs. destruct (Filepath.IsAbs path).
  - intros [= <-] _. apply Clean_idempotent.
  - destruct getwd as [wd|]; [|discriminate]. cbn [Filepath.Join].
    destruct (String.eqb wd "").
    + destruct (String.eqb path ""); intros [= <-] Hne;
        [contradiction | apply Clean_idempotent].
    + intros [= <-] _. apply Clean_idempotent.
Qed.

Lemma Abs_of_target (getwd : option string) (absDest rel : string) :
  Filepath.IsAbs absDest = true ->
  Filepath.Abs getwd (Filepath.Join [absDest; rel])
  = Some (Filepath.Join [absDest; rel]).
Proof.
  intros Habs. unfold Filepath.Abs. rewrite (Join_rooted _ rel Habs).
  f_equal. cbn [Filepath.Join].
  destruct (String.eqb absDest "") eqn:E.
  - apply String.eqb_eq in E. subst. discriminate.
  - apply Clean_idempotent.
Qed.

Section MoreExtraction.

Variable os : OS.

Lemma touches_parent (target : string) :
  touches target (EvMkdirAll (Filepath.Dir target) 493).
Proof.
  right. now split.
Qed.

Lemma dispatch_touches (target : string) (h : Tar.Header) (t : trace) :
  exists new,
    snd (dispatch os target h t) = new ++ t /\ Forall (touches target) new.
Proof.
  pose proof (touches_parent target) as Hparent.
  unfold dispatch, bind, ret, MkdirAll, OpenFile, CopyN, Close, PrintSkipping.
  destruct (Ascii.eqb (Tar.Typeflag h) Tar.TypeDir).
  { exists [EvMkdirAll target (dirPerm (Tar.Mode h))].
    split; [now destruct (os_mkdirAll os t target _)|].
    apply Forall_cons; [|apply Forall_nil]. left. split; [reflexivity|].
    unfold dirPerm. now rewrite <- Z.land_assoc, Z.land_diag. }
  destruct (Ascii.eqb (Tar.Typeflag h) Tar.TypeReg).
  { destruct (Tar.Size h >? maxFileSize)%Z;
      [exists []; split; [reflexivity | apply Forall_nil]|].
    destruct (os_mkdirAll os t _ _); cbn [negb].
    - destruct (os_openFile os _ _); cbn [negb].
      + exists [EvClose target; EvCopyN target (Tar.Size h); EvOpenFile target;
                EvMkdirAll (Filepath.Dir target) 493].
        split; [now destruct (os_copyN os _ _ _)|].
        repeat (apply Forall_cons; [first [exact Hparent | reflexivity]|]).
        apply Forall_nil.
      + exists [EvOpenFile target; EvMkdirAll (Filepath.Dir target) 493].
        split; [reflexivity|].
        repeat (apply Forall_cons; [first [exact Hparent | reflexivity]|]).
        apply Forall_nil.
    - exists [EvMkdirAll (Filepath.Dir target) 493].
      split; [reflexivity|].
      apply Forall_cons; [exact Hparent | apply Forall_nil]. }
  destruct (_ || _); [exists []; split; [reflexivity | apply Forall_nil]|].
  exists [EvSkipping (Tar.Typeflag h)]. split; [reflexivity|].
  apply Forall_cons; [exact I | apply Forall_nil].
Qed.

Lemma dispatch_errors (target : string) (h : Tar.Header) (t : trace)
      (e : error) :
  fst (dispatch os target h t) = Some e ->
  In e [ ErrMkdir; ErrFilePath; ErrCreateFile; ErrWriteFile;
         ErrTooLarge (Tar.Name h) (Tar.Size h); ErrLinks (Tar.Name h) ].
Proof.
  unfold dispatch, bind, ret, MkdirAll, OpenFile, CopyN, Close, PrintSkipping.
  repeat match goal with
         | |- context [if ?c then _ else _] => destruct c; cbn [negb fst]
         | |- context [match ?c with CopyDone => _ | _ => _ end] =>
             destruct c; cbn [fst]
         end;
    intros [= <-]; cbn; tauto.
Qed.

(** What [processEntry] does with a name that passed the lexical tests,
    when the destination is absolute: the containment test is made on the
    target itself. *)
Lemma processEntry_absolute (absDest : string) (h : Tar.Header) (t : trace) :
  Filepath.IsAbs absDest = true ->
  Filepath.IsAbs (Filepath.Clean (Tar.Name h)) = false ->
  traversal (Filepath.Clean (Tar.Name h)) = false ->
  let cleanPath := Filepath.Clean (Tar.Name h) in
  let target := Filepath.Join [absDest; cleanPath] in
  processEntry os absDest h t
  = if outside absDest target then (Some (ErrOutside (Tar.Name h)), t)
    else if (255 <? String.length cleanPath)%nat
         then (Some (ErrTooLong (Tar.Name h)), t)
         else if Strings.ContainsAny cleanPath (String "000" EmptyString)
              then (Some (ErrNullByte (Tar.Name h)), t)
              else dispatch os target h t.
Proof.
  intros Habs Hrel Htrav. cbv zeta. unfold processEntry. cbv zeta.
  rewrite Hrel, Htrav, (Abs_of_target _ _ _ Habs).
  destruct (outside _ _); [reflexivity|].
  destruct (255 <? _)%nat; [reflexivity|].
  now destruct (Strings.ContainsAny _ _).
Qed.

Lemma processEntry_confined (absDest : string) (h : Tar.Header) (t : trace) :
  Filepath.IsAbs absDest = true ->
  exists new,
    snd (processEntry os absDest h t) = new ++ t
    /\ Forall (confined absDest) new.
Proof.
  intros Habs.
  assert (Hnone : forall e : error,
             exists new, snd (Some e, t) = new ++ t
                         /\ Forall (confined absDest) new)
    by (intros e; exists []; split; [reflexivity | apply Forall_nil]).
  destruct (Filepath.IsAbs (Filepath.Clean (Tar.Name h))) eqn:Hrel.
  { unfold processEntry. cbv zeta. rewrite Hrel. apply Hnone. }
  destruct (traversal (Filepath.Clean (Tar.Name h))) eqn:Htrav.
  { unfold processEntry. cbv zeta. rewrite Hrel, Htrav. apply Hnone. }
  rewrite (processEntry_absolute absDest h t Habs Hrel Htrav). cbv zeta.
  destruct (outside _ _) eqn:Hout; [apply Hnone|].
  destruct (255 <? _)%nat; [apply Hnone|].
  destruct (Strings.ContainsAny _ _); [apply Hnone|].
  destruct (dispatch_touches
              (Filepath.Join [absDest; Filepath.Clean (Tar.Name h)]) h t)
    as [new [Hnew Hall]].
  exists new. split; [exact Hnew|].
  eapply Forall_impl; [|exact Hall].
  intros e He. eexists. split; [apply outside_false_inside, Hout | exact He].
Qed.

Lemma extractLoop_events (absDest : string) (P : event -> Prop) :
  (forall h t, exists new,
        snd (processEntry os absDest h t) = new ++ t /\ Forall P new) ->
  forall entries t, exists new,
      snd (extractLoop os absDest entries t) = new ++ t /\ Forall P new.
Proof.
  intros Hstep entries.
  induction entries as [|[h|] entries IH]; intros t.
  - exists []. split; [reflexivity | apply Forall_nil].
  - cbn [extractLoop]. unfold bind.
    destruct (Hstep h t) as [new [Hnew Hall]].
    destruct (processEntry os absDest h t) as [[e|] t1]; cbn [snd] in Hnew.
    + exists new. now split.
    + destruct (IH t1) as [new' [Hnew' Hall']].
      exists (new' ++ new). rewrite Hnew', Hnew, app_assoc.
      split; [reflexivity | now apply Forall_app].
  - exists []. split; [reflexivity | apply Forall_nil].
Qed.

(** X1.  When the absolute destination starts with the separator, every
    call [extractTarXz] makes is on a target that is the destination or the
    destination, a separator and more, or creates the parent directory of
    such a target; it makes no call of [os.Stat] or [os.ReadFile]. *)
Theorem writes_are_confined (src dest absDest : string) (t : trace) :
  Filepath.Abs (os_getwd os) dest = Some absDest ->
  Filepath.IsAbs absDest = true ->
  exists new,
    snd (extractTarXz os src dest t) = new ++ t
    /\ Forall (confined absDest) new.
Proof.
  intros Hdest Habs. unfold extractTarXz. rewrite Hdest.
  destruct (os_open os src) as [| |entries];
    try (exists []; split; [reflexivity | apply Forall_nil]).
  apply extractLoop_events. intros h t0. now apply processEntry_confined.
Qed.

Lemma passes_sanitized (absDest : string) (h : Tar.Header) :
  passesPathGuards os absDest h = true ->
  sanitized (Filepath.Clean (Tar.Name h))
  /\ exists absTarget,
       Filepath.Abs (os_getwd os)
         (Filepath.Join [absDest; Filepath.Clean (Tar.Name h)]) = Some absTarget
       /\ inside absDest absTarget.
Proof.
  unfold passesPathGuards. cbv zeta. intros H.
  apply andb_true_iff in H as [H Htarget].
  apply andb_true_iff in H as [Hrel Htrav].
  apply negb_true_iff in Hrel. apply negb_true_iff in Htrav.
  destruct (Filepath.Abs _ _) as [absTarget|]; [|discriminate].
  apply andb_true_iff in Htarget as [Htarget Hnul].
  apply andb_true_iff in Htarget as [Hout Hlen].
  apply negb_true_iff in Hout. apply negb_true_iff in Hnul.
  apply Nat.leb_le in Hlen. split.
  - repeat split; try assumption.
    intros Hin. apply dotdot_element_caught in Hin.
    rewrite Hin in Htrav. discriminate.
  - exists absTarget. split; [reflexivity | now apply outside_false_inside].
Qed.

(** X2.  No call on the destination is made for an entry unless its
    cleaned name is relative, has no [..] element, is at most 255 bytes
    long, holds no NUL byte, and its absolute target is inside the
    destination. *)
Theorem calls_come_after_the_guards (absDest : string) (h : Tar.Header)
        (t : trace) :
  snd (processEntry os absDest h t) <> t ->
  sanitized (Filepath.Clean (Tar.Name h))
  /\ exists absTarget,
       Filepath.Abs (os_getwd os)
         (Filepath.Join [absDest; Filepath.Clean (Tar.Name h)]) = Some absTarget
       /\ inside absDest absTarget.
Proof.
  intros Hcalls. apply passes_sanitized.
  destruct (passesPathGuards os absDest h) eqn:Hg; [reflexivity|].
  destruct (processEntry_refused os absDest h t Hg) as [e [He _]].
  rewrite He in Hcalls. now elim Hcalls.
Qed.

Lemma processEntry_accepted (absDest : string) (h : Tar.Header)
      (t t1 : trace) :
  processEntry os absDest h t = (None, t1) ->
  acceptable os absDest (NextHeader h).
Proof.
  intros Hrun. cbn [acceptable].
  destruct (passesPathGuards os absDest h) eqn:Hg.
  - rewrite (processEntry_passes os _ _ _ Hg) in Hrun.
    split; [reflexivity|]. split; [|split].
    + intros Hsym.
      rewrite dispatch_link in Hrun by (now left). discriminate.
    + intros Hlink.
      rewrite dispatch_link in Hrun by (now right). discriminate.
    + intros Hreg.
      destruct (Z_gt_le_dec (Tar.Size h) 524288000) as [Hgt|Hle];
        [|exact Hle].
      rewrite dispatch_regular in Hrun by assumption. discriminate.
  - destruct (processEntry_refused os absDest h t Hg) as [e [He _]].
    rewrite He in Hrun. discriminate.
Qed.

(** X3.  When [extractTarXz] succeeds, the archive could be opened, the
    stream was read to its end without an error, and every entry of it
    passed the path guards, is no link and, if a regular file, declares at
    most 500 MiB. *)
Theorem success_means_every_entry_passed (src dest : string) (t t1 : trace) :
  extractTarXz os src dest t = (None, t1) ->
  exists absDest entries,
    os_open os src = TarXz entries
    /\ Filepath.Abs (os_getwd os) dest = Some absDest
    /\ Forall (acceptable os absDest) entries.
Proof.
  unfold extractTarXz.
  destruct (os_open os src) as [| |entries]; try discriminate.
  destruct (Filepath.Abs (os_getwd os) dest) as [absDest|]; [|discriminate].
  intros Hrun. exists absDest, entries. repeat split.
  revert t Hrun. induction entries as [|[h|] entries IH]; intros t Hrun.
  - apply Forall_nil.
  - cbn [extractLoop] in Hrun. unfold bind in Hrun.
    destruct (processEntry os absDest h t) as [[e|] t0] eqn:Hh;
      [discriminate|].
    apply Forall_cons; [exact (processEntry_accepted _ _ _ _ Hh)|].
    exact (IH t0 Hrun).
  - discriminate.
Qed.

Lemma outside_of_target (absDest name : string) :
  Filepath.IsAbs absDest = true ->
  Filepath.Clean absDest = absDest ->
  Filepath.IsAbs (Filepath.Clean name) = false ->
  traversal (Filepath.Clean name) = false ->
  outside absDest (Filepath.Join [absDest; Filepath.Clean name])
  = String.eqb absDest "/" && negb (String.eqb (Filepath.Clean name) ".").
Proof.
  intros Habs Hclean Hrel Htrav.
  rewrite (target_shape _ _ Habs Hclean Hrel Htrav). unfold outside.
  destruct (String.eqb (Filepath.Clean name) ".").
  - rewrite String.eqb_refl, andb_false_r. now rewrite andb_false_r.
  - destruct (String.eqb absDest "/") eqn:Eroot.
    + apply String.eqb_eq in Eroot. subst absDest.
      pose proof (Clean_not_empty name) as Hne.
      destruct (Filepath.Clean name) as [|c rest]; [contradiction|].
      unfold Filepath.IsAbs in Hrel. cbn in Hrel. cbn.
      destruct (Ascii.eqb c "/") eqn:Ec; [discriminate|]. reflexivity.
    + rewrite <- append_assoc, HasPrefix_app. reflexivity.
Qed.

Lemma processEntry_never_outside (absDest : string) (h : Tar.Header)
      (t : trace) (e : error) :
  Filepath.IsAbs absDest = true ->
  Filepath.Clean absDest = absDest ->
  absDest <> "/" ->
  fst (processEntry os absDest h t) = Some e ->
  (forall name, e <> ErrOutside name) /\ e <> ErrAbsTarget /\ e <> ErrAbsDest.
Proof.
  intros Habs Hclean Hroot.
  assert (Hother : forall e' : error,
             (forall name, e' <> ErrOutside name) -> e' <> ErrAbsTarget ->
             e' <> ErrAbsDest ->
             Some e' = Some e ->
             (forall name, e <> ErrOutside name)
             /\ e <> ErrAbsTarget /\ e <> ErrAbsDest)
    by (intros e' H1 H2 H3 [= <-]; now split).
  destruct (Filepath.IsAbs (Filepath.Clean (Tar.Name h))) eqn:Hrel.
  { unfold processEntry. cbv zeta. rewrite Hrel.
    apply Hother; try intros name; discriminate. }
  destruct (traversal (Filepath.Clean (Tar.Name h))) eqn:Htrav.
  { unfold processEntry. cbv zeta. rewrite Hrel, Htrav.
    apply Hother; try intros name; discriminate. }
  rewrite (processEntry_absolute absDest h t Habs Hrel Htrav). cbv zeta.
  rewrite (outside_of_target _ _ Habs Hclean Hrel Htrav).
  apply String.eqb_neq in Hroot. rewrite Hroot. cbn [andb].
  destruct (255 <? _)%nat;
    [apply Hother; try intros name; discriminate|].
  destruct (Strings.ContainsAny _ _);
    [apply Hother; try intros name; discriminate|].
  intros Hd. apply dispatch_errors in Hd. cbn [In] in Hd.
  repeat (destruct Hd as [<-|Hd];
          [split; [intros name; discriminate | split; discriminate]|]).
  contradiction.
Qed.

(** X4.  With an absolute destination other than the root, the
    containment test refuses nothing: whatever the archive holds,
    [extractTarXz] never fails with the containment error, nor with the
    error of making the target or the destination absolute. *)
Theorem containment_test_refuses_nothing (src dest absDest : string)
        (t : trace) (e : error) :
  Filepath.Abs (os_getwd os) dest = Some absDest ->
  Filepath.IsAbs absDest = true ->
  absDest <> "/" ->
  fst (extractTarXz os src dest t) = Some e ->
  (forall name, e <> ErrOutside name) /\ e <> ErrAbsTarget /\ e <> ErrAbsDest.
Proof.
  intros Hdest Habs Hroot. unfold extractTarXz. rewrite Hdest.
  assert (Hclean : Filepath.Clean absDest = absDest).
  { apply (Abs_clean _ _ _ Hdest). intros ->. discriminate. }
  assert (Hother : forall e' : error,
             (forall name, e' <> ErrOutside name) -> e' <> ErrAbsTarget ->
             e' <> ErrAbsDest ->
             Some e' = Some e ->
             (forall name, e <> ErrOutside name)
             /\ e <> ErrAbsTarget /\ e <> ErrAbsDest)
    by (intros e' H1 H2 H3 [= <-]; now split).
  destruct (os_open os src) as [| |entries];
    try (apply Hother; try intros name; discriminate).
  revert t. induction entries as [|[h|] entries IH]; intros t.
  - discriminate.
  - cbn [extractLoop]. unfold bind.
    pose proof (processEntry_never_outside absDest h t) as Hstep.
    destruct (processEntry os absDest h t) as [[e'|] t0].
    + destruct (Hstep e' Habs Hclean Hroot eq_refl) as [H1 [H2 H3]].
      now apply Hother.
    + apply IH.
  - apply Hother; try intros name; discriminate.
Qed.

(** X5.  With an absolute, cleaned destination other than the root, the
    calls made for an entry whose name passes the guards and does not clean
    to [.] are on the destination, a separator and the cleaned name, or
    create the parent directory of that path. *)
Theorem accepted_entry_goes_under_its_name (absDest : string)
        (h : Tar.Header) (t : trace) :
  Filepath.IsAbs absDest = true ->
  Filepath.Clean absDest = absDest ->
  absDest <> "/" ->
  passesPathGuards os absDest h = true ->
  Filepath.Clean (Tar.Name h) <> "." ->
  exists new,
    snd (processEntry os absDest h t) = new ++ t
    /\ Forall (touches (absDest ++ "/" ++ Filepath.Clean (Tar.Name h))) new.
Proof.
  intros Habs Hclean Hroot Hg Hdot.
  rewrite (processEntry_passes os _ _ _ Hg).
  destruct (passes_sanitized absDest h Hg) as [[Hrel [Hno _]] _].
  assert (Htrav : traversal (Filepath.Clean (Tar.Name h)) = false).
  { unfold passesPathGuards in Hg. cbv zeta in Hg.
    apply andb_true_iff in Hg as [Hg _].
    apply andb_true_iff in Hg as [_ Hg]. now apply negb_true_iff in Hg. }
  rewrite (target_shape _ _ Habs Hclean Hrel Htrav).
  apply String.eqb_neq in Hdot. apply String.eqb_neq in Hroot.
  rewrite Hdot, Hroot. apply dispatch_touches.
Qed.

(** With the root as destination, an entry whose name does not clean to
    [.] is refused by one of the path tests, with no call. *)
Lemma processEntry_root_refused (h : Tar.Header) (t : trace) :
  Filepath.Clean (Tar.Name h) <> "." ->
  exists e,
    processEntry os "/" h t = (Some e, t)
    /\ kindOf e = PathSecurityViolation
    /\ (Filepath.IsAbs (Filepath.Clean (Tar.Name h)) = false ->
        traversal (Filepath.Clean (Tar.Name h)) = false ->
        e = ErrOutside (Tar.Name h)).
Proof.
  intros Hdot.
  destruct (Filepath.IsAbs (Filepath.Clean (Tar.Name h))) eqn:Hrel.
  { unfold processEntry. cbv zeta. rewrite Hrel.
    eexists. split; [reflexivity | split; [reflexivity | discriminate]]. }
  destruct (traversal (Filepath.Clean (Tar.Name h))) eqn:Htrav.
  { unfold processEntry. cbv zeta. rewrite Hrel, Htrav.
    eexists. split; [reflexivity | split; [reflexivity | discriminate]]. }
  rewrite (processEntry_absolute "/" h t eq_refl Hrel Htrav). cbv zeta.
  rewrite (outside_of_target "/" _ eq_refl eq_refl Hrel Htrav).
  apply String.eqb_neq in Hdot. rewrite Hdot. cbn [String.eqb andb negb].
  rewrite Ascii.eqb_refl. cbn.
  eexists. split; [reflexivity | split; reflexivity].
Qed.

(** With the root as destination, the calls of an entry are on the root
    itself. *)
Lemma processEntry_root_touches (h : Tar.Header) (t : trace) :
  exists new,
    snd (processEntry os "/" h t) = new ++ t /\ Forall (touches "/") new.
Proof.
  destruct (String.eqb (Filepath.Clean (Tar.Name h)) ".") eqn:Hdot.
  - apply String.eqb_eq in Hdot.
    destruct (passesPathGuards os "/" h) eqn:Hg.
    + rewrite (processEntry_passes os _ _ _ Hg), Hdot.
      apply dispatch_touches.
    + destruct (processEntry_refused os "/" h t Hg) as [e [He _]].
      rewrite He. exists []. split; [reflexivity | apply Forall_nil].
  - apply String.eqb_neq in Hdot.
    destruct (processEntry_root_refused h t Hdot) as [e [He _]].
    rewrite He. exists []. split; [reflexivity | apply Forall_nil].
Qed.

(** X6.  With the root as destination, [extractTarXz] takes only entries
    whose names clean to [.]: every call it makes is on the root itself; an
    entry with another name, once the entries before it are done without an
    error, is refused with a path-security error and no call, the
    containment error when the name passes the lexical tests; and so the
    extraction succeeds only when the name of every entry cleans to [.]. *)
Theorem root_destination_refuses (src dest : string) (entries : list next)
        (t : trace) :
  os_open os src = TarXz entries ->
  Filepath.Abs (os_getwd os) dest = Some "/" ->
  (exists new,
      snd (extractTarXz os src dest t) = new ++ t /\ Forall (touches "/") new)
  /\ (forall pre h rest t1,
         entries = pre ++ NextHeader h :: rest ->
         Filepath.Clean (Tar.Name h) <> "." ->
         extractLoop os "/" pre t = (None, t1) ->
         exists e,
           extractTarXz os src dest t = (Some e, t1)
           /\ kindOf e = PathSecurityViolation
           /\ (Filepath.IsAbs (Filepath.Clean (Tar.Name h)) = false ->
               traversal (Filepath.Clean (Tar.Name h)) = false ->
               e = ErrOutside (Tar.Name h)))
  /\ (fst (extractTarXz os src dest t) = None ->
      Forall (fun item =>
                exists h, item = NextHeader h
                          /\ Filepath.Clean (Tar.Name h) = ".") entries).
Proof.
  intros Hopen Hdest. unfold extractTarXz. rewrite Hopen, Hdest.
  split; [|split].
  - apply extractLoop_events. apply processEntry_root_touches.
  - intros pre h rest t1 -> Hdot Hpre.
    rewrite (extractLoop_app os "/" pre _ t t1 Hpre).
    cbn [extractLoop]. unfold bind.
    destruct (processEntry_root_refused h t1 Hdot) as [e [He Hrest]].
    rewrite He. now exists e.
  - clear Hopen. revert t.
    induction entries as [|[h|] entries IH]; intros t Hrun.
    + apply Forall_nil.
    + cbn [extractLoop] in Hrun. unfold bind in Hrun.
      destruct (String.eqb (Filepath.Clean (Tar.Name h)) ".") eqn:Hdot.
      * apply String.eqb_eq in Hdot.
        destruct (processEntry os "/" h t) as [[e|] t1]; [discriminate|].
        apply Forall_cons; [now exists h | exact (IH t1 Hrun)].
      * apply String.eqb_neq in Hdot.
        destruct (processEntry_root_refused h t Hdot) as [e [He _]].
        rewrite He in Hrun. discriminate.
    + discriminate.
Qed.

Definition capped (e : event) : Prop :=
  match e with
  | EvMkdirAll _ perm =>
      (0 <= perm < 512)%Z /\ Z.land perm 18 = 0%Z /\ Z.land perm 493 = perm
  | _ => True
  end.

Lemma land_493_capped (perm : Z) :
  Z.land perm 493 = perm ->
  (0 <= perm < 512)%Z /\ Z.land perm 18 = 0%Z /\ Z.land perm 493 = perm.
Proof.
  intros H. split; [|split; [|exact H]].
  - assert (Hmod : Z.land perm (Z.ones 9) = perm).
    { rewrite <- H at 1. rewrite <- Z.land_assoc.
      change (Z.land 493 (Z.ones 9)) with 493%Z. exact H. }
    rewrite Z.land_ones in Hmod by lia. rewrite <- Hmod.
    change (2 ^ 9)%Z with 512%Z. apply Z.mod_pos_bound. lia.
  - rewrite <- H, <- Z.land_assoc. change (Z.land 493 18) with 0%Z.
    apply Z.land_0_r.
Qed.

(** X7.  Every directory [extractTarXz] creates gets a mode within
    [rwxr-xr-x]: no bit above the nine permission bits, and no write bit for
    the group or the others, whatever mode the archive declares. *)
Theorem created_directories_are_capped (src dest : string) (t : trace) :
  exists new,
    snd (extractTarXz os src dest t) = new ++ t /\ Forall capped new.
Proof.
  unfold extractTarXz.
  destruct (os_open os src) as [| |entries];
    try (exists []; split; [reflexivity | apply Forall_nil]).
  destruct (Filepath.Abs (os_getwd os) dest) as [absDest|];
    [|exists []; split; [reflexivity | apply Forall_nil]].
  apply extractLoop_events. intros h t0.
  assert (Hnone : forall e : error,
             exists new, snd (Some e, t0) = new ++ t0 /\ Forall capped new)
    by (intros e; exists []; split; [reflexivity | apply Forall_nil]).
  unfold processEntry. cbv zeta.
  destruct (Filepath.IsAbs _); [apply Hnone|].
  destruct (traversal _); [apply Hnone|].
  destruct (Filepath.Abs _ _) as [absTarget|]; [|apply Hnone].
  destruct (outside _ _); [apply Hnone|].
  destruct (255 <? _)%nat; [apply Hnone|].
  destruct (Strings.ContainsAny _ _); [apply Hnone|].
  destruct (dispatch_touches
              (Filepath.Join [absDest; Filepath.Clean (Tar.Name h)]) h t0)
    as [new [Hnew Hall]].
  exists new. split; [exact Hnew|].
  eapply Forall_impl; [|exact Hall].
  intros [path perm| | | | | |] He; try exact I.
  cbn [touches capped] in *. apply land_493_capped.
  destruct He as [[_ Hp]|[_ ->]]; [exact Hp | reflexivity].
Qed.

End MoreExtraction.

(** ** More about the validator *)

(** The record of version 1 that a record of version 2 holds. *)
Definition toV1 (meta : MetadataV2.t) : MetadataV1.t :=
  MetadataV1.mk (MetadataV2.Name meta) (MetadataV2.Version meta)
    (MetadataV2.Architecture meta) (MetadataV2.Description meta)
    (MetadataV2.Maintainer meta) (MetadataV2.License meta)
    (MetadataV2.Homepage meta) (MetadataV2.Dependencies meta)
    (MetadataV2.Conflicts meta) (MetadataV2.Provides meta)
    (MetadataV2.Replaces meta).

(** The scalar fields of each version and how the record holds them. *)
Definition scalarFieldsV1 : list (string * (MetadataV1.t -> string)) :=
  [ ("name", MetadataV1.Name);
    ("version", MetadataV1.Version);
    ("description", MetadataV1.Description);
    ("maintainer", MetadataV1.Maintainer);
    ("homepage", MetadataV1.Homepage) ].

Definition scalarFieldsV2 : list (string * (MetadataV2.t -> string)) :=
  [ ("name", MetadataV2.Name);
    ("version", MetadataV2.Version);
    ("type", MetadataV2.Type_);
    ("description", MetadataV2.Description);
    ("maintainer", MetadataV2.Maintainer);
    ("homepage", MetadataV2.Homepage) ].

Ltac key_case k' :=
  match goal with
  | |- context [String.eqb k' ?name] =>
      let E := fresh "E" in
      destruct (String.eqb k' name) eqn:E;
      [apply String.eqb_eq in E; subst k'; cbn | ]
  end.

Lemma member_toV1 (meta meta' : MetadataV2.t) (key : string) (value : json) :
  MetadataV2.member meta key value = Some meta' ->
  MetadataV1.member (toV1 meta) key value = Some (toV1 meta').
Proof.
  unfold MetadataV2.member, MetadataV1.member. cbv zeta.
  generalize (Json.foldKey key) as k'. intros k'.
  repeat key_case k';
    try (match goal with
         | |- option_map _ ?d = _ -> _ =>
             destruct d; cbn; intros [= <-]; reflexivity
         end).
  intros [= <-]. reflexivity.
Qed.

Lemma members_toV1 (meta meta' : MetadataV2.t) (ms : list (string * json)) :
  MetadataV2.members meta ms = Some meta' ->
  MetadataV1.members (toV1 meta) ms = Some (toV1 meta').
Proof.
  revert meta. induction ms as [|[key value] ms IH]; intros meta.
  - intros [= <-]. reflexivity.
  - cbn [MetadataV2.members MetadataV1.members].
    destruct (MetadataV2.member meta key value) as [mid|] eqn:E;
      [|discriminate].
    rewrite (member_toV1 _ _ _ _ E). apply IH.
Qed.

(** What decodes as version 2 decodes as version 1, to the same values of
    the fields the two versions share. *)
Lemma Unmarshal_toV1 (fileData : content) (meta : MetadataV2.t) :
  MetadataV2.Unmarshal fileData = Some meta ->
  MetadataV1.Unmarshal fileData = Some (toV1 meta).
Proof.
  destruct fileData as [raw|[| | | | |ms]]; try discriminate.
  - intros [= <-]. reflexivity.
  - apply members_toV1.
Qed.

Lemma missing_toV1 (meta : MetadataV2.t) (name : string) :
  In name (missingFieldsV1 (toV1 meta)) -> In name (missingFieldsV2 meta).
Proof.
  rewrite missingFieldsV1_schema, missingFieldsV2_schema, !missing_spec.
  intros [test [Hin Htest]]. cbn [In Schema.v1] in Hin.
  repeat (destruct Hin as [Hin|Hin];
          [injection Hin as <- <-; eexists; split;
           [cbn [In Schema.v2]; repeat (first [left; reflexivity | right])
           | exact Htest]|]).
  contradiction.
Qed.

Lemma scalar_field_missing_V1 (name : string)
      (get : MetadataV1.t -> string) (meta : MetadataV1.t) :
  In (name, get) scalarFieldsV1 ->
  (In name (missingFieldsV1 meta) <-> get meta = "").
Proof.
  intros Hfield. rewrite missingFieldsV1_schema, missing_spec.
  cbn [In scalarFieldsV1] in Hfield.
  repeat (destruct Hfield as [Hfield|Hfield];
          [injection Hfield as <- <-|]); try contradiction.
  all: split;
    [ intros [test [Hin Htest]]; pick_field Hin;
      injection Hin as <-; now apply String.eqb_eq in Htest
    | intros Hempty; eexists; split;
      [ cbn [In Schema.v1]; repeat (first [left; reflexivity | right])
      | unfold Schema.scalar; rewrite Hempty; reflexivity ] ].
Qed.

Lemma scalar_field_missing_V2 (name : string)
      (get : MetadataV2.t -> string) (meta : MetadataV2.t) :
  In (name, get) scalarFieldsV2 ->
  (In name (missingFieldsV2 meta) <-> get meta = "").
Proof.
  intros Hfield. rewrite missingFieldsV2_schema, missing_spec.
  cbn [In scalarFieldsV2] in Hfield.
  repeat (destruct Hfield as [Hfield|Hfield];
          [injection Hfield as <- <-|]); try contradiction.
  all: split;
    [ intros [test [Hin Htest]]; pick_field Hin;
      injection Hin as <-; now apply String.eqb_eq in Htest
    | intros Hempty; eexists; split;
      [ cbn [In Schema.v2]; repeat (first [left; reflexivity | right])
      | unfold Schema.scalar; rewrite Hempty; reflexivity ] ].
Qed.

Lemma NoDup_filter {A : Type} (f : A -> bool) (l : list A) :
  NoDup l -> NoDup (filter f l).
Proof.
  induction 1 as [|a l Hin _ IH]; cbn; [constructor|].
  destruct (f a); [|exact IH]. constructor; [|exact IH].
  intros Hf. apply filter_In in Hf. now apply Hin.
Qed.

Lemma missing_NoDup {R : Type} (schema : Schema.t R) (meta : R) :
  NoDup (map fst schema) -> NoDup (Schema.missing schema meta).
Proof.
  unfold Schema.missing.
  induction schema as [|[name test] schema IH]; cbn [map filter fst snd];
    intros Hnd; [constructor|].
  inversion Hnd as [|? ? Hin Hrest]; subst.
  destruct (test meta); [|now apply IH].
  cbn [map fst]. constructor; [|now apply IH].
  intros Hf. apply Hin. apply in_map_iff in Hf as [[n t'] [Hn Hf]].
  apply filter_In in Hf as [Hf _]. cbn in Hn. subst n.
  now apply (in_map fst) in Hf.
Qed.

Section MoreValidation.

Variable os : OS.

Lemma checkRequired_calls (dir : string) (names : list string) (t : trace) :
  exists k,
    snd (checkRequired os dir names t) = stats dir (firstn k names) ++ t
    /\ (k <= List.length names)%nat
    /\ match fst (checkRequired os dir names t) with
       | None => k = List.length names
       | Some e =>
           (1 <= k)%nat
           /\ exists n t',
                e = ErrRequiredMissing n /\ In n names
                /\ os_stat os t' (Filepath.Join [dir; n]) = StatNotExist
       end.
Proof.
  revert t. induction names as [|name rest IH]; intros t.
  - exists 0%nat. repeat split. reflexivity.
  - cbn [checkRequired]. unfold bind, Stat.
    assert (Hgo : exists k,
               snd (checkRequired os dir rest
                      (EvStat (Filepath.Join [dir; name]) :: t))
               = stats dir (firstn k (name :: rest)) ++ t
               /\ (k <= List.length (name :: rest))%nat
               /\ match fst (checkRequired os dir rest
                               (EvStat (Filepath.Join [dir; name]) :: t)) with
                  | None => k = List.length (name :: rest)
                  | Some e =>
                      (1 <= k)%nat
                      /\ exists n t',
                           e = ErrRequiredMissing n /\ In n (name :: rest)
                           /\ os_stat os t' (Filepath.Join [dir; n])
                              = StatNotExist
                  end).
    { destruct (IH (EvStat (Filepath.Join [dir; name]) :: t))
        as [k [Hcalls [Hk Hres]]].
      exists (S k). split; [|split].
      - rewrite Hcalls. unfold stats. cbn [firstn map rev].
        now rewrite <- app_assoc.
      - cbn [List.length]. lia.
      - destruct (fst (checkRequired os dir rest _)) as [e|].
        + destruct Hres as [_ [n [t' [He [Hin Hstat]]]]].
          split; [lia|]. exists n, t'. repeat split; [assumption | now right
                                                       | assumption].
        + cbn [List.length]. lia. }
    destruct (os_stat os t (Filepath.Join [dir; name])) eqn:Estat;
      [exact Hgo | | exact Hgo].
    exists 1%nat. split; [reflexivity|]. split; [cbn [List.length]; lia|].
    cbn [fst]. split; [lia|]. exists name, t.
    repeat split; [now left | exact Estat].
Qed.

(** X8.  The three results of [validate] fit together: the status is
    [good] exactly when there is neither a file error nor a JSON error, and
    is [bad] otherwise; the two errors never come together; a file error
    is the one about a missing entry, and a JSON error is the read error,
    the parse error or a list of missing fields that is not empty. *)
Theorem verdict_is_consistent (dir : string) (apgVersion : Z) (t : trace) :
  let v := fst (validate os dir apgVersion t) in
  (status v = "good" <-> fileErr v = None /\ jsonErr v = None)
  /\ (status v = "good" \/ status v = "bad")
  /\ (fileErr v = None \/ jsonErr v = None)
  /\ (forall e, fileErr v = Some e -> exists n, e = ErrRequiredMissing n)
  /\ (forall e, jsonErr v = Some e ->
        e = ErrReadMetadata \/ e = ErrInvalidJSON
        \/ exists fields, e = ErrMissingFields fields /\ fields <> []).
Proof.
  cbv zeta.
  assert (Hbad : forall (e : error) (t' : trace),
             let v := fst ((Some e, @None error, "bad"), t') in
             (exists n, e = ErrRequiredMissing n) ->
             (status v = "good" <-> fileErr v = None /\ jsonErr v = None)
             /\ (status v = "good" \/ status v = "bad")
             /\ (fileErr v = None \/ jsonErr v = None)
             /\ (forall e, fileErr v = Some e -> exists n, e = ErrRequiredMissing n)
             /\ (forall e, jsonErr v = Some e ->
                   e = ErrReadMetadata \/ e = ErrInvalidJSON
                   \/ exists fields, e = ErrMissingFields fields /\ fields <> [])).
  { intros e t' v Hn. unfold v, status, fileErr, jsonErr. cbn [fst snd].
    repeat split; try discriminate; auto.
    - intros [H _]. discriminate.
    - intros e' [= <-]. exact Hn. }
  assert (Hjson : forall (e : error) (t' : trace),
             let v := fst ((@None error, Some e, "bad"), t') in
             (e = ErrReadMetadata \/ e = ErrInvalidJSON
              \/ exists fields, e = ErrMissingFields fields /\ fields <> []) ->
             (status v = "good" <-> fileErr v = None /\ jsonErr v = None)
             /\ (status v = "good" \/ status v = "bad")
             /\ (fileErr v = None \/ jsonErr v = None)
             /\ (forall e, fileErr v = Some e -> exists n, e = ErrRequiredMissing n)
             /\ (forall e, jsonErr v = Some e ->
                   e = ErrReadMetadata \/ e = ErrInvalidJSON
                   \/ exists fields, e = ErrMissingFields fields /\ fields <> [])).
  { intros e t' v He. unfold v, status, fileErr, jsonErr. cbn [fst snd].
    repeat split; try discriminate; auto.
    - intros [_ H]. discriminate.
    - intros e' [= <-]. exact He. }
  assert (Hreport : forall (fields : list string) (t' : trace),
             let v := fst (report fields, t') in
             (status v = "good" <-> fileErr v = None /\ jsonErr v = None)
             /\ (status v = "good" \/ status v = "bad")
             /\ (fileErr v = None \/ jsonErr v = None)
             /\ (forall e, fileErr v = Some e -> exists n, e = ErrRequiredMissing n)
             /\ (forall e, jsonErr v = Some e ->
                   e = ErrReadMetadata \/ e = ErrInvalidJSON
                   \/ exists fields, e = ErrMissingFields fields /\ fields <> [])).
  { intros fields t'. rewrite report_cases.
    destruct fields as [|f fs].
    - cbv zeta. unfold status, fileErr, jsonErr. cbn [fst snd].
      repeat split; try discriminate; auto.
    - apply Hjson. right. right. exists (f :: fs). split; [reflexivity|].
      discriminate. }
  destruct (validate_cases os dir apgVersion) as [[_ ->]|[_ ->]];
    [unfold checkApgFileV2 | unfold checkApgFileV1];
    unfold bind, ret, ReadFile;
    destruct (checkRequired_calls dir required t) as [k [_ [_ Hres]]];
    destruct (checkRequired os dir required t) as [[e|] t1]; cbn [fst] in Hres.
  1, 3: destruct Hres as [_ [n [_ [-> _]]]]; apply Hbad; now exists n.
  - destruct (os_readFile os t1 _) as [fileData|]; [|apply Hjson; now left].
    destruct (MetadataV2.Unmarshal fileData) as [meta|];
      [apply Hreport | apply Hjson; right; now left].
  - destruct (os_readFile os t1 _) as [fileData|]; [|apply Hjson; now left].
    destruct (MetadataV1.Unmarshal fileData) as [meta|];
      [apply Hreport | apply Hjson; right; now left].
Qed.

(** X9.  [validate] only reads: it calls [os.Stat] on the required
    entries in their order, up to the first that does not exist, and, when
    there is no file error, [os.ReadFile] on [metadata.json], once and after
    the three calls of [os.Stat]; it makes no other call. *)
Theorem validate_only_reads (dir : string) (apgVersion : Z) (t : trace) :
  let v := fst (validate os dir apgVersion t) in
  let calls := snd (validate os dir apgVersion t) in
  (fileErr v = None
   /\ calls
      = EvReadFile (Filepath.Join [dir; "metadata.json"])
        :: stats dir required ++ t)
  \/ (fileErr v <> None
      /\ exists k,
           (1 <= k <= 3)%nat
           /\ calls = stats dir (firstn k required) ++ t).
Proof.
  cbv zeta.
  destruct (validate_cases os dir apgVersion) as [[_ ->]|[_ ->]];
    [unfold checkApgFileV2 | unfold checkApgFileV1];
    unfold bind, ret, ReadFile;
    destruct (checkRequired_calls dir required t) as [k [Hcalls [Hk Hres]]];
    destruct (checkRequired os dir required t) as [[e|] t1];
    cbn [fst snd] in Hcalls, Hres.
  1, 3: right; split; [discriminate|];
        exists k; split; [cbn [List.length required] in Hk; lia | exact Hcalls].
  - left. subst k. rewrite firstn_all in Hcalls. subst t1.
    destruct (os_readFile os _ _) as [fileData|]; [|now split].
    destruct (MetadataV2.Unmarshal fileData) as [meta|]; [|now split].
    rewrite report_cases. now destruct (missingFieldsV2 meta).
  - left. subst k. rewrite firstn_all in Hcalls. subst t1.
    destruct (os_readFile os _ _) as [fileData|]; [|now split].
    destruct (MetadataV1.Unmarshal fileData) as [meta|]; [|now split].
    rewrite report_cases. now destruct (missingFieldsV1 meta).
Qed.

(** X10.  A destination that is valid as version 2 is valid as every
    version, and the choice of version changes no call: the two functions
    make the same calls of [os.Stat] and [os.ReadFile]. *)
Theorem valid_as_version_2_is_valid_as_version_1 (dir : string)
        (apgVersion : Z) (t : trace) :
  snd (validate os dir apgVersion t) = snd (validate os dir 2 t)
  /\ (fst (validate os dir 2 t) = (None, None, "good") ->
      fst (validate os dir apgVersion t) = (None, None, "good")).
Proof.
  change (validate os dir 2 t) with (checkApgFileV2 os dir t).
  destruct (validate_cases os dir apgVersion) as [[_ ->]|[_ ->]];
    [now split|].
  unfold checkApgFileV2, checkApgFileV1, bind, ret, ReadFile.
  destruct (checkRequired os dir required t) as [[e|] t1]; [now split|].
  destruct (os_readFile os t1 _) as [fileData|]; [|now split].
  destruct (MetadataV2.Unmarshal fileData) as [meta|] eqn:E2.
  - rewrite (Unmarshal_toV1 _ _ E2), !report_cases.
    split; [now destruct (missingFieldsV1 _), (missingFieldsV2 _)|].
    destruct (missingFieldsV2 meta) as [|f fs] eqn:Em2; [|discriminate].
    intros _. destruct (missingFieldsV1 (toV1 meta)) as [|f fs] eqn:Em1;
      [reflexivity|].
    exfalso. assert (Hin : In f (missingFieldsV1 (toV1 meta)))
      by (rewrite Em1; now left).
    apply missing_toV1 in Hin. now rewrite Em2 in Hin.
  - split; [|discriminate].
    destruct (MetadataV1.Unmarshal fileData) as [meta|]; [|reflexivity].
    rewrite report_cases. now destruct (missingFieldsV1 meta).
Qed.

(** X11.  In both versions a required scalar field is reported exactly
    when it is the empty string; no field is reported twice; and the
    optional fields [architecture] and [license] are never reported. *)
Theorem scalar_fields_are_missing_when_empty :
  (forall name get meta,
      In (name, get) scalarFieldsV1 ->
      (In name (missingFieldsV1 meta) <-> get meta = ""))
  /\ (forall name get meta,
         In (name, get) scalarFieldsV2 ->
         (In name (missingFieldsV2 meta) <-> get meta = ""))
  /\ (forall meta,
         NoDup (missingFieldsV1 meta)
         /\ ~ In "architecture" (missingFieldsV1 meta)
         /\ ~ In "license" (missingFieldsV1 meta))
  /\ (forall meta,
         NoDup (missingFieldsV2 meta)
         /\ ~ In "architecture" (missingFieldsV2 meta)
         /\ ~ In "license" (missingFieldsV2 meta)).
Proof.
  split; [exact scalar_field_missing_V1|].
  split; [exact scalar_field_missing_V2|].
  split; intros meta;
    [rewrite missingFieldsV1_schema | rewrite missingFieldsV2_schema].
  - split; [|split].
    + apply missing_NoDup. cbn.
      repeat (constructor; [cbn; intuition discriminate|]). constructor.
    + intros Hin. apply missing_spec in Hin as [test [Hin _]]. pick_field Hin.
    + intros Hin. apply missing_spec in Hin as [test [Hin _]]. pick_field Hin.
  - split; [|split].
    + apply missing_NoDup. cbn.
      repeat (constructor; [cbn; intuition discriminate|]). constructor.
    + intros Hin. apply missing_spec in Hin as [test [Hin _]]. pick_field Hin.
    + intros Hin. apply missing_spec in Hin as [test [Hin _]]. pick_field Hin.
Qed.

(** X12.  Only an entry that [os.Stat] reports as not existing gives the
    structural error.  When every call of [os.Stat] fails in another way
    the entries count as present: [metadata.json] is read, and if it cannot
    be read the result is the read error, a JSON error. *)
Theorem other_stat_failures_count_as_present (dir : string)
        (apgVersion : Z) (t : trace) :
  (forall t' path, os_stat os t' path <> StatNotExist) ->
  fileErr (fst (validate os dir apgVersion t)) = None
  /\ ((forall t' path, os_readFile os t' path = None) ->
      validate os dir apgVersion t
      = ((None, Some ErrReadMetadata, "bad"),
         EvReadFile (Filepath.Join [dir; "metadata.json"])
         :: stats dir required ++ t)).
Proof.
  intros Hstat.
  assert (Hall : forall name, In name required -> present os dir name)
    by (intros name _ t'; apply Hstat).
  destruct (validate_cases os dir apgVersion) as [[_ ->]|[_ ->]];
    [unfold checkApgFileV2 | unfold checkApgFileV1];
    unfold bind, ret, ReadFile;
    rewrite (checkRequired_present os _ _ _ Hall).
  - split.
    + destruct (os_readFile os _ _) as [fileData|]; [|reflexivity].
      destruct (MetadataV2.Unmarshal fileData) as [meta|]; [|reflexivity].
      rewrite report_cases. now destruct (missingFieldsV2 meta).
    + intros Hread. now rewrite Hread.
  - split.
    + destruct (os_readFile os _ _) as [fileData|]; [|reflexivity].
      destruct (MetadataV1.Unmarshal fileData) as [meta|]; [|reflexivity].
      rewrite report_cases. now destruct (missingFieldsV1 meta).
    + intros Hread. now rewrite Hread.
Qed.

End MoreValidation.

(** ** [main], the colours and the name of the scratch directory *)


(** The environment variables and the standard streams [initColors] looks
    at: the mode [os.Stdout.Stat()] gives, [None] when it fails, and the
    same for the standard error, which the program never asks for. *)
Record Terminal : Type := mkTerminal {
  NO_COLOR : string;
  TERM : string;
  stdoutMode : option Z;
  stderrMode : option Z
}.

(** [os.ModeCharDevice], bit 21 of a file mode. *)
Definition ModeCharDevice : Z := 2 ^ 21.

(** [isatty]: whatever descriptor it is given, it looks at the standard
    output. *)
Definition isatty (tm : Terminal) (fd : Z) : bool :=
  match stdoutMode tm with
  | None => false
  | Some mode => negb (Z.land mode ModeCharDevice =? 0)%Z
  end.

Definition isTerminalSupportsColor (tm : Terminal) : bool :=
  if negb (String.eqb (NO_COLOR tm) "") then false
  else if String.eqb (TERM tm) "" || String.eqb (TERM tm) "dumb" then false
  else if negb (isatty tm 1) || negb (isatty tm 2) then false
  else true.

(** The six colour variables. *)
Record Colors : Type := mkColors {
  ColorGreen : string; ColorRed : string; ColorYellow : string;
  ColorBlue : string; ColorBold : string; Reset : string
}.

Definition escape (code : string) : string := String "027" ("[" ++ code).

Definition withColors : Colors :=
  mkColors (escape "92m") (escape "91m") (escape "93m") (escape "94m")
    (escape "1m") (escape "0m").

Definition noColors : Colors := mkColors "" "" "" "" "" "".

Definition initColors (tm : Terminal) : Colors :=
  if isTerminalSupportsColor tm then withColors else noColors.

(** [fmt.Sprint] of a number that is not negative. *)
Definition Sprint (n : nat) : string := NilEmpty.string_of_uint (Nat.to_uint n).

(** [generateRandomNumber]; [draws i] is what the call number [i] of
    [r.Intn(10)] gives. *)
Definition generateRandomNumber (draws : nat -> nat) : string :=
  fold_left (fun num i => (num ++ Sprint (draws i))%string) (seq 0 8) "".

(** [IsEmpty], at the type of strings. *)
Definition IsEmpty (value : string) : bool := String.eqb value "".

(** The flags after [pflag.Parse]. *)
Record Flags : Type := mkFlags {
  apgFile : string;
  apgVersion : Z;
  version : bool;
  help : bool;
  noColor : bool
}.

(** What [main] prints, one constructor per call that prints, with the
    colours it prints in. *)
Inductive message : Type :=
  | PflagUsage                               (* the usage of pflag itself *)
  | Usage (c : Colors)                       (* the usage function of 0.1.0 *)
  | VersionLine (c : Colors) (release : string)   (* apgcheck v... *)
  | ProductLine (c : Colors)                 (* APG file validator for NurOS *)
  | LicenseLine                              (* Licensed under GPL 3.0 *)
  | CopyrightLine                            (* Copyright ... *)
  | NoFile (c : Colors)                      (* Error: No APG file specified *)
  | UseHelp                                  (* Use --help for usage information *)
  | ExtractionError (c : Colors) (e : error) (* Extraction Error: ... *)
  | FailedToExtract (file : string)          (* Failed to extract APG file: ... *)
  | ValidationError (c : Colors) (e : error) (* Validation Error: ... *)
  | StructureInvalid                         (* APG file structure is invalid *)
  | MetadataError (c : Colors) (e : error)   (* Metadata Error: ... *)
  | MetadataInvalid               (* APG metadata is invalid or corrupted *)
  | Success (c : Colors)                     (* APG file validation successful *)
  | SuccessOfVersion (c : Colors) (apgVersion : Z)
                                  (* APG v... file validation successful *)
  | FileLine (file : string)                 (* File: ... *)
  | CleanupWarning (c : Colors).  (* Warning: Failed to cleanup temporary files *)

(** A run of [main]: the exit status, what was printed, in order, the
    paths [os.RemoveAll] was called on, and the calls of extraction and
    validation, the latest first. *)
Record Outcome : Type := mkOutcome {
  exitCode : Z;
  said : list message;
  removed : list string;
  calls : trace
}.

Definition scratch (draws : nat -> nat) : string :=
  ("/tmp/apgcheck-" ++ generateRandomNumber draws)%string.

(** [main] of apgcheck 0.2.0. *)
Definition main (os : OS) (tm : Terminal) (draws : nat -> nat) (flags : Flags)
  : Outcome :=
  let colors := initColors tm in
  if help flags then mkOutcome 0 [PflagUsage] [] []
  else
    let colors := if noColor flags then noColors else colors in
    if version flags then
      mkOutcome 0 [VersionLine colors "0.2.0"; ProductLine colors; LicenseLine]
        [] []
    else if IsEmpty (apgFile flags) then mkOutcome 1 [NoFile colors] [] []
    else
      let pathToFolderTMP := scratch draws in
      match extractTarXz os (apgFile flags) pathToFolderTMP [] with
      | (Some err, t1) =>
          mkOutcome 1 [ExtractionError colors err] [pathToFolderTMP] t1
      | (None, t1) =>
          match validate os pathToFolderTMP (apgVersion flags) t1 with
          | ((Some fileErr, _, _), t2) =>
              mkOutcome 1 [ValidationError colors fileErr] [] t2
          | ((None, Some jsonErr, _), t2) =>
              mkOutcome 1 [MetadataError colors jsonErr] [] t2
          | ((None, None, status), t2) =>
              mkOutcome 0
                (if String.eqb status "good"
                 then [SuccessOfVersion colors (apgVersion flags);
                       FileLine (apgFile flags)]
                 else [])
                [pathToFolderTMP] t2
          end
      end.

(** [main] of apgcheck 0.1.0; [cleanupFails] tells whether the last
    [os.RemoveAll] gives an error. *)
Definition main_0_1_0 (os : OS) (tm : Terminal) (draws : nat -> nat)
           (cleanupFails : bool) (flags : Flags) : Outcome :=
  let colors := initColors tm in
  let colors := if noColor flags then noColors else colors in
  if help flags then mkOutcome 0 [Usage colors] [] []
  else if version flags then
    mkOutcome 0
      [VersionLine colors "0.1.0"; ProductLine colors; LicenseLine; CopyrightLine]
      [] []
  else if IsEmpty (apgFile flags) then mkOutcome 1 [NoFile colors; UseHelp] [] []
  else
    let pathToFolderTMP := scratch draws in
    match extractTarXz os (apgFile flags) pathToFolderTMP [] with
    | (Some extractErr, t1) =>
        mkOutcome 1
          [ExtractionError colors extractErr; FailedToExtract (apgFile flags)]
          [pathToFolderTMP] t1
    | (None, t1) =>
        match checkApgFile os pathToFolderTMP t1 with
        | ((Some fileErr, _, _), t2) =>
            mkOutcome 1 [ValidationError colors fileErr; StructureInvalid]
              [pathToFolderTMP] t2
        | ((None, Some jsonErr, _), t2) =>
            mkOutcome 1 [MetadataError colors jsonErr; MetadataInvalid]
              [pathToFolderTMP] t2
        | ((None, None, status), t2) =>
            mkOutcome 0
              ((if String.eqb status "good"
                then [Success colors; FileLine (apgFile flags)]
                else [])
               ++ (if cleanupFails then [CleanupWarning colors] else []))
              [pathToFolderTMP] t2
        end
    end.


Definition isDigit (c : ascii) : bool := Strings.hasByte "0123456789" c.

Fixpoint allDigits (s : string) : bool :=
  match s with
  | EmptyString => true
  | String c s' => isDigit c && allDigits s'
  end.

(** ** The scratch directory *)

Lemma slashFree_app (a b : string) :
  slashFree a -> slashFree b -> slashFree (a ++ b).
Proof.
  induction a as [|c a IH]; intros Ha Hb; [exact Hb|].
  apply slashFree_inv in Ha as [Hc Ha].
  change (String c a ++ b)%string with (String c (a ++ b)).
  apply slashFree_cons; [exact Hc | now apply IH].
Qed.

Lemma Sprint_slashFree (n : nat) : slashFree (Sprint n).
Proof.
  unfold Sprint. generalize (Nat.to_uint n) as u.
  induction u; cbn [NilEmpty.string_of_uint];
    [reflexivity | now apply slashFree_cons ..].
Qed.

Lemma generateRandomNumber_slashFree (draws : nat -> nat) :
  slashFree (generateRandomNumber draws).
Proof.
  unfold generateRandomNumber. cbn [seq fold_left].
  repeat (apply slashFree_app; [|apply Sprint_slashFree]). reflexivity.
Qed.

Lemma allDigits_app (a b : string) :
  allDigits a = true -> allDigits b = true -> allDigits (a ++ b) = true.
Proof.
  induction a as [|c a IH]; intros Ha Hb; [exact Hb|].
  cbn [allDigits] in *. apply andb_true_iff in Ha as [Hc Ha].
  change (String c a ++ b)%string with (String c (a ++ b)).
  cbn [allDigits]. now rewrite Hc, IH.
Qed.

Lemma length_app (a b : string) :
  String.length (a ++ b) = (String.length a + String.length b)%nat.
Proof.
  induction a as [|c a IH]; [reflexivity|]. cbn. now rewrite IH.
Qed.

Lemma Sprint_digit (n : nat) :
  (n < 10)%nat -> String.length (Sprint n) = 1%nat /\ allDigits (Sprint n) = true.
Proof.
  intros Hn.
  do 10 (destruct n as [|n]; [split; reflexivity|]). lia.
Qed.

(** X13.  When every draw is below ten, as [r.Intn(10)] gives them,
    [generateRandomNumber] is a string of exactly eight decimal digits, so
    the name of the scratch directory has 22 bytes. *)
Theorem generateRandomNumber_is_eight_digits (draws : nat -> nat) :
  (forall i, (i < 8)%nat -> (draws i < 10)%nat) ->
  String.length (generateRandomNumber draws) = 8%nat
  /\ allDigits (generateRandomNumber draws) = true
  /\ String.length (scratch draws) = 22%nat.
Proof.
  intros Hdraws.
  assert (Hnum : String.length (generateRandomNumber draws) = 8%nat
                 /\ allDigits (generateRandomNumber draws) = true).
  { unfold generateRandomNumber. cbn [seq fold_left].
    pose proof (fun i Hi => Sprint_digit (draws i) (Hdraws i Hi)) as Hd.
    split.
    - rewrite !length_app.
      rewrite (proj1 (Hd 0%nat ltac:(lia))), (proj1 (Hd 1%nat ltac:(lia))),
        (proj1 (Hd 2%nat ltac:(lia))), (proj1 (Hd 3%nat ltac:(lia))),
        (proj1 (Hd 4%nat ltac:(lia))), (proj1 (Hd 5%nat ltac:(lia))),
        (proj1 (Hd 6%nat ltac:(lia))), (proj1 (Hd 7%nat ltac:(lia))).
      reflexivity.
    - repeat (apply allDigits_app; [|apply Hd; lia]). reflexivity. }
  destruct Hnum as [Hlen Hall]. split; [exact Hlen | split; [exact Hall|]].
  unfold scratch. rewrite length_app, Hlen. reflexivity.
Qed.

(** X14.  Whatever the draws, the name of the scratch directory is an
    absolute path that is its own cleaned form and is not the root: the
    absolute destination [extractTarXz] works with is that name itself,
    whatever the working directory. *)
Theorem scratch_is_absolute_and_clean (draws : nat -> nat)
        (getwd : option string) :
  Filepath.IsAbs (scratch draws) = true
  /\ Filepath.Clean (scratch draws) = scratch draws
  /\ scratch draws <> "/"
  /\ Filepath.Abs getwd (scratch draws) = Some (scratch draws).
Proof.
  assert (Hclean : Filepath.Clean (scratch draws) = scratch draws).
  { unfold scratch.
    pose proof (generateRandomNumber_slashFree draws) as Hfree.
    set (num := generateRandomNumber draws) in *.
    assert (Hlast : slashFree ("apgcheck-" ++ num)) by exact Hfree.
    rewrite Clean_render by discriminate.
    change (Filepath.IsAbs ("/tmp/apgcheck-" ++ num)) with true.
    change ("/tmp/apgcheck-" ++ num)%string
      with ("" ++ "/" ++ ("tmp" ++ "/" ++ ("apgcheck-" ++ num)))%string at 1.
    rewrite !elements_sep_app, (elements_one _ Hlast).
    reflexivity. }
  split; [reflexivity|]. split; [exact Hclean|]. split; [discriminate|].
  unfold Filepath.Abs. change (Filepath.IsAbs (scratch draws)) with true.
  now rewrite Hclean.
Qed.

(** ** The run of [main] *)

(** The type flags the [switch] of [extractTarXz] has no case for. *)
Definition unknownType (typeflag : ascii) : bool :=
  negb (Ascii.eqb typeflag Tar.TypeDir || Ascii.eqb typeflag Tar.TypeReg
        || Ascii.eqb typeflag Tar.TypeSymlink
        || Ascii.eqb typeflag Tar.TypeLink).

(** The notices [Skipping unknown type] among the calls, the one printed
    first coming first. *)
Definition notices (t : trace) : list ascii :=
  rev (flat_map (fun e => match e with
                          | EvSkipping typeflag => [typeflag]
                          | _ => []
                          end) t).

(** The type flags of the entries of unknown type, in the order of the
    archive. *)
Definition skipped (entries : list next) : list ascii :=
  flat_map (fun item => match item with
                        | NextHeader h =>
                            if unknownType (Tar.Typeflag h)
                            then [Tar.Typeflag h] else []
                        | NextError => []
                        end) entries.

Section Runs.

Variable os : OS.
Variable tm : Terminal.
Variable draws : nat -> nat.

Lemma verdict_without_errors (dir : string) (apgVersion : Z) (t : trace)
      (st : string) :
  fst (validate os dir apgVersion t) = (None, None, st) -> st = "good".
Proof.
  intros H.
  destruct (verdict_is_consistent os dir apgVersion t) as [Hgood _].
  rewrite H in Hgood. unfold status, fileErr, jsonErr in Hgood.
  cbn [fst snd] in Hgood. now apply Hgood.
Qed.

Lemma notices_app (new t : trace) :
  notices (new ++ t) = notices t ++ notices new.
Proof.
  unfold notices. now rewrite flat_map_app, rev_app_distr.
Qed.

Lemma notices_none (new : trace) :
  (forall e, In e new -> forall typeflag, e <> EvSkipping typeflag) ->
  notices new = [].
Proof.
  unfold notices. induction new as [|e new IH]; intros Hnone; [reflexivity|].
  cbn [flat_map]. rewrite rev_app_distr, IH by (intros; apply Hnone; now right).
  destruct e; try reflexivity. now elim (Hnone _ (or_introl eq_refl) typeflag).
Qed.

Lemma notices_stats (dir : string) (names : list string) :
  notices (stats dir names) = [].
Proof.
  apply notices_none. intros e He typeflag. unfold stats in He.
  apply in_rev, in_map_iff in He as [name [<- _]]. discriminate.
Qed.

Lemma validate_notices (dir : string) (apgVersion : Z) (t : trace) :
  notices (snd (validate os dir apgVersion t)) = notices t.
Proof.
  destruct (validate_only_reads os dir apgVersion t)
    as [[_ Hcalls]|[_ [k [_ Hcalls]]]]; cbv zeta in Hcalls; rewrite Hcalls.
  - change (EvReadFile (Filepath.Join [dir; "metadata.json"])
            :: stats dir required ++ t)
      with ((EvReadFile (Filepath.Join [dir; "metadata.json"])
             :: stats dir required) ++ t).
    rewrite notices_app, (notices_none (_ :: stats dir required));
      [apply app_nil_r|].
    intros e [<-|He] typeflag; [discriminate|].
    unfold stats in He. apply in_rev, in_map_iff in He as [name [<- _]].
    discriminate.
  - now rewrite notices_app, notices_stats, app_nil_r.
Qed.

Lemma dispatch_notices (target : string) (h : Tar.Header) (t : trace) :
  fst (dispatch os target h t) = None ->
  notices (snd (dispatch os target h t))
  = notices t ++ (if unknownType (Tar.Typeflag h)
                  then [Tar.Typeflag h] else []).
Proof.
  assert (Hstep : forall new : trace,
             (forall e, In e new -> forall typeflag, e <> EvSkipping typeflag) ->
             notices (new ++ t) = notices t ++ [])
    by (intros new Hnew; now rewrite notices_app, (notices_none new Hnew)).
  unfold dispatch, unknownType, bind, ret, MkdirAll, OpenFile, CopyN, Close,
    PrintSkipping.
  destruct (Ascii.eqb (Tar.Typeflag h) Tar.TypeDir); cbn [orb negb].
  { intros _.
    replace (snd _) with ([EvMkdirAll target (dirPerm (Tar.Mode h))] ++ t)
      by (now destruct (os_mkdirAll os t target _)).
    apply Hstep. intros e [<-|[]] typeflag. discriminate. }
  destruct (Ascii.eqb (Tar.Typeflag h) Tar.TypeReg); cbn [orb negb].
  { destruct (Tar.Size h >? maxFileSize)%Z; [discriminate|].
    destruct (os_mkdirAll os t _ _); cbn [negb]; [|discriminate].
    destruct (os_openFile os _ _); cbn [negb]; [|discriminate].
    intros _.
    replace (snd _)
      with ([EvClose target; EvCopyN target (Tar.Size h); EvOpenFile target;
             EvMkdirAll (Filepath.Dir target) 493] ++ t)
      by (now destruct (os_copyN os _ _ _)).
    apply Hstep. intros e He typeflag. cbn [In] in He.
    repeat (destruct He as [<-|He]; [discriminate|]). contradiction. }
  destruct (_ || _); [discriminate|]. intros _. cbn [snd negb].
  change (EvSkipping (Tar.Typeflag h) :: t)
    with ([EvSkipping (Tar.Typeflag h)] ++ t).
  now rewrite notices_app.
Qed.

Lemma extractLoop_notices (absDest : string) (entries : list next)
      (t t1 : trace) :
  extractLoop os absDest entries t = (None, t1) ->
  notices t1 = notices t ++ skipped entries.
Proof.
  revert t. induction entries as [|[h|] entries IH]; intros t Hrun.
  - injection Hrun as <-. symmetry. apply app_nil_r.
  - cbn [extractLoop] in Hrun. unfold bind in Hrun.
    destruct (processEntry os absDest h t) as [[e|] t0] eqn:Hh; [discriminate|].
    rewrite (IH t0 Hrun). cbn [skipped flat_map]. rewrite app_assoc. f_equal.
    destruct (passesPathGuards os absDest h) eqn:Hg.
    + rewrite (processEntry_passes os _ _ _ Hg) in Hh.
      pose proof (dispatch_notices
                    (Filepath.Join [absDest; Filepath.Clean (Tar.Name h)]) h t)
        as Hd.
      rewrite Hh in Hd. exact (Hd eq_refl).
    + destruct (processEntry_refused os absDest h t Hg) as [e [He _]].
      rewrite He in Hh. discriminate.
  - discriminate.
Qed.

(** X15.  Once [pflag.Parse] has given the flags, a run of [main] that
    has a file to check and is asked neither for the help nor for the
    version ends with status 0 or 1; it ends with 0 exactly when extraction
    gives no error and validation gives the good verdict, and exactly then
    [main] prints the message of success with the selector and the line of
    the file, in the colours chosen.  On such a run the archive was opened
    and [extractTarXz] has printed, before them, one notice for each entry
    of unknown type, in the order of the archive. *)
Theorem main_exit_code (flags : Flags) :
  help flags = false -> version flags = false -> apgFile flags <> "" ->
  let out := main os tm draws flags in
  (exitCode out = 0%Z \/ exitCode out = 1%Z)
  /\ (exitCode out = 0%Z
      <-> exists t1,
            extractTarXz os (apgFile flags) (scratch draws) [] = (None, t1)
            /\ fst (validate os (scratch draws) (apgVersion flags) t1)
               = (None, None, "good"))
  /\ (exitCode out = 0%Z
      <-> said out
          = [SuccessOfVersion
               (if noColor flags then noColors else initColors tm)
               (apgVersion flags);
             FileLine (apgFile flags)])
  /\ (exitCode out = 0%Z ->
      exists entries,
        os_open os (apgFile flags) = TarXz entries
        /\ notices (calls out) = skipped entries).
Proof.
  intros Hhelp Hversion Hfile. cbv zeta. unfold main. cbv zeta.
  rewrite Hhelp, Hversion. unfold IsEmpty.
  apply String.eqb_neq in Hfile. rewrite Hfile.
  pose proof (fun t1 => success_means_every_entry_passed os (apgFile flags)
                          (scratch draws) [] t1) as Hopened.
  assert (Hloop : forall t1,
             extractTarXz os (apgFile flags) (scratch draws) [] = (None, t1) ->
             exists entries,
               os_open os (apgFile flags) = TarXz entries
               /\ notices t1 = skipped entries).
  { intros t1. unfold extractTarXz.
    destruct (os_open os (apgFile flags)) as [| |entries]; try discriminate.
    destruct (Filepath.Abs _ _) as [absDest|]; [|discriminate].
    intros Hrun. exists entries. split; [reflexivity|].
    now rewrite (extractLoop_notices _ _ _ _ Hrun). }
  clear Hopened.
  destruct (extractTarXz os (apgFile flags) (scratch draws) [])
    as [[err|] t1].
  { cbn [exitCode said]. split; [now right|].
    split; [|split]; [split; [discriminate|] | split; discriminate
                     | discriminate].
    intros [t1' [H _]]. discriminate. }
  pose proof (verdict_without_errors (scratch draws) (apgVersion flags) t1)
    as Hgood.
  pose proof (validate_notices (scratch draws) (apgVersion flags) t1)
    as Hquiet.
  destruct (validate os (scratch draws) (apgVersion flags) t1)
    as [[[[fileErr|] [jsonErr|]] st] t2] eqn:Hval;
    cbn [exitCode said calls fst snd] in *.
  1, 2, 3: split; [now right|];
    split; [|split]; [split; [discriminate|] | split; discriminate
                     | discriminate];
    intros [t1' [[= <-] H]]; rewrite Hval in H; discriminate.
  rewrite (Hgood st eq_refl). cbn [String.eqb Ascii.eqb Bool.eqb].
  split; [now left|]. split; [|split].
  - split; [intros _ | reflexivity].
    exists t1. split; [reflexivity|]. rewrite Hval. cbn [fst].
    now rewrite (Hgood st eq_refl).
  - split; reflexivity.
  - intros _. destruct (Hloop t1 eq_refl) as [entries [Hopen Hn]].
    exists entries. split; [exact Hopen|]. now rewrite Hquiet.
Qed.

(** X16.  After the arguments, apgcheck 0.1.0 calls [os.RemoveAll] on the
    scratch directory on every path.  apgcheck 0.2.0 with a version
    selector other than 2 ends with the same status after the same calls,
    but removes the scratch directory only when extraction fails or the
    run succeeds: when validation fails the directory is left behind. *)
Theorem cleanup_of_the_scratch_directory (cleanupFails : bool) (flags : Flags) :
  help flags = false -> version flags = false -> apgFile flags <> "" ->
  apgVersion flags <> 2%Z ->
  let new := main os tm draws flags in
  let old := main_0_1_0 os tm draws cleanupFails flags in
  exitCode new = exitCode old
  /\ calls new = calls old
  /\ removed old = [scratch draws]
  /\ (removed new = []
      <-> exists t1,
            extractTarXz os (apgFile flags) (scratch draws) [] = (None, t1)
            /\ exitCode new = 1%Z)
  /\ (removed new <> [] -> removed new = [scratch draws]).
Proof.
  intros Hhelp Hversion Hfile Hv. cbv zeta. unfold main, main_0_1_0.
  cbv zeta. rewrite Hhelp, Hversion. unfold IsEmpty.
  apply String.eqb_neq in Hfile. rewrite Hfile. unfold checkApgFile.
  destruct (validate_cases os (scratch draws) (apgVersion flags))
    as [[Hv' _]|[_ ->]]; [contradiction|].
  destruct (extractTarXz os (apgFile flags) (scratch draws) [])
    as [[err|] t1].
  { cbn [exitCode calls removed].
    repeat (split; [reflexivity|]). split; [|reflexivity].
    split; [discriminate|]. intros [t1' [H _]]. discriminate. }
  destruct (checkApgFileV1 os (scratch draws) t1)
    as [[[[fileErr|] [jsonErr|]] st] t2]; cbn [exitCode calls removed].
  1, 2, 3: repeat (split; [reflexivity|]); split;
    [ split; [intros _; now exists t1 | reflexivity]
    | intros H; now elim H ].
  repeat (split; [reflexivity|]). split; [|reflexivity].
  split; [discriminate|]. intros [t1' [_ H]]. discriminate.
Qed.




(** X18.  In a run of [main] the containment test refuses nothing: the
    error of extraction that is printed is never the containment error, nor
    the error of making a path absolute. *)
Theorem main_never_fails_containment (flags : Flags) (c : Colors) (e : error) :
  In (ExtractionError c e) (said (main os tm draws flags)) ->
  (forall name, e <> ErrOutside name) /\ e <> ErrAbsTarget /\ e <> ErrAbsDest.
Proof.
  unfold main. cbv zeta.
  destruct (help flags); [intros [H|[]]; discriminate|].
  destruct (version flags);
    [cbn [said In]; intros [H|[H|[H|[]]]]; discriminate|].
  destruct (IsEmpty (apgFile flags)); [intros [H|[]]; discriminate|].
  destruct (scratch_is_absolute_and_clean draws (os_getwd os))
    as [Habs [_ [Hroot Hdest]]].
  pose proof (containment_test_refuses_nothing os (apgFile flags) _ _ []
                e Hdest Habs Hroot) as Hnever.
  destruct (extractTarXz os (apgFile flags) (scratch draws) [])
    as [[err|] t1].
  - cbn [said In fst] in *. intros [[= _ <-]|[]]. now apply Hnever.
  - destruct (validate os (scratch draws) (apgVersion flags) t1)
      as [[[[fileErr|] [jsonErr|]] st] t2]; cbn [said In].
    1, 2, 3: intros [H|[]]; discriminate.
    destruct (String.eqb st "good"); cbn [In];
      [intros [H|[H|[]]]; discriminate | contradiction].
Qed.

End Runs.

(** ** The further properties at concrete inputs *)

(** A system where nothing can be looked at: every [os.Stat] fails for
    want of permission and no file can be read. *)
Definition sealed : OS :=
  {| os_getwd := Some "/";
     os_open := fun _ => TarXz [];
     os_mkdirAll := fun _ _ _ => true;
     os_openFile := fun _ _ => true;
     os_copyN := fun _ _ _ => CopyDone;
     os_stat := fun _ _ => StatFailed;
     os_readFile := fun _ _ => None;
     os_readlink := fun _ => None |}.

(** A package with a directory, a file in it, a device and the metadata. *)
Definition package : list Tar.Header :=
  [ Tar.mkHeader "data/" Tar.TypeDir 0 1023 "";
    regular "data/bin/hello" 12;
    Tar.mkHeader "dev/null" "3" 0 438 "";
    regular "metadata.json" 120 ].

(** A terminal with colours, the draws 0 to 7 and the flags [-a hello.apg]. *)
Definition xterm : Terminal := mkTerminal "" "xterm" (Some (2 ^ 21)%Z) None.

Definition counting (i : nat) : nat := i.

Definition checkHello (apgVersion : Z) : Flags :=
  mkFlags "hello.apg" apgVersion false false false.

Lemma writes_are_confined_witness :
  exists new,
    snd (extractTarXz (holding package) "hello.apg" dest []) = new ++ []
    /\ Forall (confined dest) new.
Proof.
  apply (writes_are_confined (holding package) "hello.apg" dest dest []);
    reflexivity.
Defined.

Lemma calls_come_after_the_guards_witness :
  sanitized (Filepath.Clean "data/bin/hello")
  /\ exists absTarget,
       Filepath.Abs (os_getwd (holding package))
         (Filepath.Join [dest; Filepath.Clean "data/bin/hello"])
       = Some absTarget
       /\ inside dest absTarget.
Proof.
  apply (calls_come_after_the_guards (holding package) dest
           (regular "data/bin/hello" 12) []).
  vm_compute. discriminate.
Defined.

Lemma success_means_every_entry_passed_witness :
  exists absDest entries,
    os_open (holding package) "hello.apg" = TarXz entries
    /\ Filepath.Abs (os_getwd (holding package)) dest = Some absDest
    /\ Forall (acceptable (holding package) absDest) entries.
Proof.
  eapply (success_means_every_entry_passed (holding package) "hello.apg" dest []).
  vm_compute. reflexivity.
Defined.

Lemma containment_test_refuses_nothing_witness :
  (forall name, ErrLinks "data/x" <> ErrOutside name)
  /\ ErrLinks "data/x" <> ErrAbsTarget
  /\ ErrLinks "data/x" <> ErrAbsDest.
Proof.
  apply (containment_test_refuses_nothing
           (holding [symlink "data/x" "/etc/passwd"]) "hello.apg" dest dest []).
  - reflexivity.
  - reflexivity.
  - discriminate.
  - reflexivity.
Defined.

Lemma accepted_entry_goes_under_its_name_witness :
  exists new,
    snd (processEntry (holding package) dest (regular "./data//bin/hello" 12) [])
    = new ++ []
    /\ Forall (touches "/tmp/apgcheck-12345678/data/bin/hello") new.
Proof.
  apply (accepted_entry_goes_under_its_name (holding package) dest
           (regular "./data//bin/hello" 12) []).
  - reflexivity.
  - reflexivity.
  - discriminate.
  - reflexivity.
  - discriminate.
Defined.

(** An archive with the entry [./] before the package: the root is made,
    and the directory [data/] is refused. *)
Lemma root_destination_refuses_witness :
  (exists new,
      snd (extractTarXz (holding (Tar.mkHeader "./" Tar.TypeDir 0 493 "" :: package))
             "hello.apg" "/" [])
      = new ++ []
      /\ Forall (touches "/") new)
  /\ extractTarXz (holding (Tar.mkHeader "./" Tar.TypeDir 0 493 "" :: package))
       "hello.apg" "/" []
     = (Some (ErrOutside "data/"), [EvMkdirAll "/" 493]).
Proof.
  pose proof (root_destination_refuses
                (holding (Tar.mkHeader "./" Tar.TypeDir 0 493 "" :: package))
                "hello.apg" "/" _ [] eq_refl eq_refl) as [Hcalls [Hrefused _]].
  split; [exact Hcalls|].
  destruct (Hrefused [NextHeader (Tar.mkHeader "./" Tar.TypeDir 0 493 "")]
              (Tar.mkHeader "data/" Tar.TypeDir 0 1023 "")
              (map NextHeader (tl package)) [EvMkdirAll "/" 493]
              eq_refl ltac:(discriminate) eq_refl)
    as [e [Hrun [_ He]]].
  rewrite Hrun. now rewrite (He eq_refl eq_refl).
Defined.

Lemma other_stat_failures_count_as_present_witness :
  fileErr (fst (validate sealed dest 1 [])) = None
  /\ ((forall t' path, os_readFile sealed t' path = None) ->
      validate sealed dest 1 []
      = ((None, Some ErrReadMetadata, "bad"),
         EvReadFile (Filepath.Join [dest; "metadata.json"])
         :: stats dest required ++ [])).
Proof.
  apply (other_stat_failures_count_as_present sealed dest 1 []).
  intros t' path. discriminate.
Defined.

Lemma generateRandomNumber_is_eight_digits_witness :
  String.length (generateRandomNumber counting) = 8%nat
  /\ allDigits (generateRandomNumber counting) = true
  /\ String.length (scratch counting) = 22%nat.
Proof.
  apply (generateRandomNumber_is_eight_digits counting).
  intros i Hi. unfold counting. lia.
Defined.

(** A system that holds the package and its complete metadata. *)
Definition shipped : OS :=
  calm (TarXz (map NextHeader package)) withEmptyDependencies [].

(** The run on the package: status 0, the two lines of success in
    colours, after the one notice for the device. *)
Lemma main_exit_code_witness :
  let out := main shipped xterm counting (checkHello 1) in
  exitCode out = 0%Z
  /\ said out = [SuccessOfVersion withColors 1; FileLine "hello.apg"]
  /\ notices (calls out) = ["3"%char].
Proof.
  cbv zeta.
  pose proof (main_exit_code shipped xterm counting (checkHello 1)
                eq_refl eq_refl ltac:(discriminate))
    as [_ [Hzero [Hsaid Hnotices]]].
  assert (Hexit : exitCode (main shipped xterm counting (checkHello 1)) = 0%Z).
  { apply Hzero. eexists. split; vm_compute; reflexivity. }
  split; [exact Hexit|]. split; [exact (proj1 Hsaid Hexit)|].
  destruct (Hnotices Hexit) as [entries [Hopen Hn]].
  rewrite Hn. injection Hopen as <-. reflexivity.
Defined.

(** The same package checked as version 1 with [dependencies] missing:
    0.1.0 removes the scratch directory, 0.2.0 leaves it. *)
Lemma cleanup_of_the_scratch_directory_witness :
  let new := main (describing withoutDependencies) xterm counting
               (checkHello 1) in
  let old := main_0_1_0 (describing withoutDependencies) xterm counting false
               (checkHello 1) in
  exitCode new = exitCode old
  /\ calls new = calls old
  /\ removed old = [scratch counting]
  /\ (removed new = []
      <-> exists t1,
            extractTarXz (describing withoutDependencies) "hello.apg"
              (scratch counting) [] = (None, t1)
            /\ exitCode new = 1%Z)
  /\ (removed new <> [] -> removed new = [scratch counting]).
Proof.
  apply (cleanup_of_the_scratch_directory (describing withoutDependencies)
           xterm counting false (checkHello 1)).
  - reflexivity.
  - reflexivity.
  - discriminate.
  - discriminate.
Defined.

Lemma main_never_fails_containment_witness :
  (forall name, ErrLinks "data/x" <> ErrOutside name)
  /\ ErrLinks "data/x" <> ErrAbsTarget
  /\ ErrLinks "data/x" <> ErrAbsDest.
Proof.
  apply (main_never_fails_containment
           (holding [symlink "data/x" "/etc/passwd"]) xterm counting
           (checkHello 1) withColors (ErrLinks "data/x")).
  vm_compute. left. reflexivity.
Defined.

Example run_leaves_scratch_behind :
  let out := main (describing withoutDependencies) xterm counting
               (checkHello 1) in
  exitCode out = 1%Z
  /\ said out = [MetadataError withColors (ErrMissingFields ["dependencies"])]
  /\ removed out = [].
Proof. vm_compute. repeat split. Qed.

Example run_of_version_2 :
  let out := main (describing withEmptyDependencies) xterm counting
               (checkHello 2) in
  exitCode out = 1%Z
  /\ said out
     = [MetadataError withColors (ErrMissingFields ["type"; "tags"; "conf"])].
Proof. vm_compute. repeat split. Qed.

(** ** How extraction fails, and the calls of one entry *)


Section Blocks.

Variable os : OS.




(** X20.  When [extractTarXz] fails after the archive was opened and the
    destination made absolute, the stream splits into entries that were
    all extracted, whose calls stay as they are, the item that failed and
    the items after it, which are not looked at: the item is an error of
    the reader, or an entry whose own error is the result. *)
Theorem failure_is_at_the_first_refused_item (src dest absDest : string)
        (entries : list next) (t t' : trace) (e : error) :
  os_open os src = TarXz entries ->
  Filepath.Abs (os_getwd os) dest = Some absDest ->
  extractTarXz os src dest t = (Some e, t') ->
  exists pre item rest t1,
    entries = pre ++ item :: rest
    /\ extractLoop os absDest pre t = (None, t1)
    /\ Forall (acceptable os absDest) pre
    /\ match item with
       | NextError => e = ErrReading /\ t' = t1
       | NextHeader h => processEntry os absDest h t1 = (Some e, t')
       end.
Proof.
  intros Hopen Hdest. unfold extractTarXz. rewrite Hopen, Hdest. clear Hopen.
  revert t. induction entries as [|[h|] entries IH]; intros t Hrun.
  - discriminate.
  - cbn [extractLoop] in Hrun. unfold bind in Hrun.
    destruct (processEntry os absDest h t) as [[e1|] t1] eqn:Hh.
    + injection Hrun as <- <-.
      exists [], (NextHeader h), entries, t.
      repeat split; [apply Forall_nil | exact Hh].
    + destruct (IH t1 Hrun) as [pre [item [rest [t2 [Hsplit [Hpre [Hall Hitem]]]]]]].
      exists (NextHeader h :: pre), item, rest, t2.
      split; [now rewrite Hsplit|]. split; [|split; [|exact Hitem]].
      * cbn [extractLoop]. unfold bind. now rewrite Hh.
      * apply Forall_cons; [exact (processEntry_accepted os _ _ _ _ Hh)|].
        exact Hall.
  - injection Hrun as <- <-.
    exists [], NextError, entries, t.
    repeat split. apply Forall_nil.
Qed.

End Blocks.

(** ** The colours *)

Lemma land_bit (mode : Z) (n : Z) :
  (0 <= n)%Z ->
  (Z.land mode (2 ^ n) =? 0)%Z = negb (Z.testbit mode n).
Proof.
  intros Hn. destruct (Z.testbit mode n) eqn:Hbit; cbn [negb].
  - apply Z.eqb_neq. intros Hzero.
    assert (Hb : Z.testbit (Z.land mode (2 ^ n)) n = true)
      by (rewrite Z.land_spec, Hbit, Z.pow2_bits_true by exact Hn; reflexivity).
    rewrite Hzero, Z.bits_0 in Hb. discriminate.
  - apply Z.eqb_eq. apply Z.bits_inj'. intros m Hm.
    rewrite Z.land_spec, Z.bits_0, Z.pow2_bits_eqb by exact Hn.
    destruct (Z.eqb_spec n m) as [->|]; [now rewrite Hbit | apply andb_false_r].
Qed.

(** X21.  Colours are on exactly when [NO_COLOR] is empty, [TERM] is
    neither empty nor [dumb], and the mode of the standard output has the
    bit of a character device.  [isatty] gives for the standard error the
    answer it gives for the standard output, so the standard error plays
    no part. *)
Theorem colours_follow_the_standard_output (tm : Terminal) :
  (isatty tm 2 = isatty tm 1)
  /\ (isTerminalSupportsColor tm = true
      <-> NO_COLOR tm = "" /\ TERM tm <> "" /\ TERM tm <> "dumb"
          /\ exists mode,
               stdoutMode tm = Some mode /\ Z.testbit mode 21 = true)
  /\ (initColors tm = withColors <-> isTerminalSupportsColor tm = true).
Proof.
  split; [reflexivity|]. split.
  - unfold isTerminalSupportsColor, isatty, ModeCharDevice.
    destruct (String.eqb_spec (NO_COLOR tm) "") as [H0|H0]; cbn [negb].
    2: { split; [discriminate | intros [H _]; contradiction]. }
    destruct (String.eqb_spec (TERM tm) "") as [H1|H1]; cbn [orb].
    { split; [discriminate | intros [_ [H _]]; contradiction]. }
    destruct (String.eqb_spec (TERM tm) "dumb") as [H2|H2].
    { split; [discriminate | intros [_ [_ [H _]]]; contradiction]. }
    destruct (stdoutMode tm) as [mode|].
    + rewrite land_bit by lia. rewrite negb_involutive.
      destruct (Z.testbit mode 21) eqn:Hbit; cbn [negb orb].
      * split; [|reflexivity]. intros _. repeat split; try assumption.
        now exists mode.
      * split; [discriminate|]. intros [_ [_ [_ [m [[= <-] Hm]]]]].
        rewrite Hbit in Hm. discriminate.
    + cbn [negb orb]. split; [discriminate|].
      intros [_ [_ [_ [m [Hm _]]]]]. discriminate.
  - unfold initColors. destruct (isTerminalSupportsColor tm).
    + split; reflexivity.
    + split; discriminate.
Qed.

(** An archive whose second entry is a symbolic link: the file before it
    stays extracted, the file after it is not looked at. *)
Definition tainted : list Tar.Header :=
  [ regular "data/bin/hello" 12;
    symlink "data/x" "/etc/passwd";
    regular "late" 1 ].

Lemma failure_is_at_the_first_refused_item_witness :
  let written :=
    [ EvClose "/tmp/apgcheck-12345678/data/bin/hello";
      EvCopyN "/tmp/apgcheck-12345678/data/bin/hello" 12;
      EvOpenFile "/tmp/apgcheck-12345678/data/bin/hello";
      EvMkdirAll "/tmp/apgcheck-12345678/data/bin" 493 ] in
  exists pre item rest t1,
    map NextHeader tainted = pre ++ item :: rest
    /\ extractLoop (holding tainted) dest pre [] = (None, t1)
    /\ Forall (acceptable (holding tainted) dest) pre
    /\ match item with
       | NextError => ErrLinks "data/x" = ErrReading /\ written = t1
       | NextHeader h =>
         processEntry (holding tainted) dest h t1
         = (Some (ErrLinks "data/x"), written)
       end.
Proof.
  cbv zeta.
  apply (failure_is_at_the_first_refused_item (holding tainted)
           "hello.apg" dest dest (map NextHeader tainted) []).
  - reflexivity.
  - reflexivity.
  - vm_compute. reflexivity.
Defined.
